(** * Assessli prototype (app.py): profile store, reply generator, chat turn

    A shallow embedding of the persistence and personalisation pipeline of
    [app.py]: the text helpers the reply generator relies on, the mock LBM
    reply generator, the SQLite-backed record store and the chat turn of
    [companion_chat_ui], followed by the properties checked against them. *)

From Stdlib Require Import String Ascii NArith ZArith Bool Arith Lia.
From Stdlib Require Import DecimalString DecimalFacts DecimalPos DecimalN DecimalZ.
From Stdlib Require Import List Sorting.Sorted Sorting.Permutation.
Import ListNotations.
Local Open Scope list_scope.
Set Warnings "-register-all".

(** ** Python text

    A Python [str] is a sequence of Unicode code points; [len], slicing and
    [strip] count code points, not bytes.  A character is its code point. *)

Abbreviation char := N (only parsing).
Abbreviation str := (list N) (only parsing).

(** An ASCII literal of the source, as code points. *)
Definition lit (s : string) : str := map N_of_ascii (list_ascii_of_string s).
Arguments lit s%_string.

Definition str_eqb (a b : str) : bool :=
  if list_eq_dec N.eq_dec a b then true else false.

(** [sep.join(parts)] *)
Fixpoint join (sep : str) (parts : list str) : str :=
  match parts with
  | [] => []
  | [p] => p
  | p :: rest => p ++ sep ++ join sep rest
  end.

(** [str.isspace] for one character: the code points CPython's
    [_PyUnicode_IsWhitespace] accepts. *)
Definition py_isspace (c : char) : bool :=
  ((9 <=? c) && (c <=? 13) || (28 <=? c) && (c <=? 32)
   || (c =? 133) || (c =? 160) || (c =? 5760)
   || (8192 <=? c) && (c <=? 8202)
   || (c =? 8232) || (c =? 8233) || (c =? 8239) || (c =? 8287)
   || (c =? 12288))%N.

Fixpoint lstrip (s : str) : str :=
  match s with
  | [] => []
  | c :: t => if py_isspace c then lstrip t else s
  end.

Definition rstrip (s : str) : str := rev (lstrip (rev s)).

(** [s.strip()] *)
Definition strip (s : str) : str := rstrip (lstrip s).

(** [s.replace(c, by)] for a one-character pattern [c]. *)
Definition replace1 (c : char) (by_ : str) (s : str) : str :=
  flat_map (fun x => if (x =? c)%N then by_ else [x]) s.

Definition c_amp : char := 38%N.
Definition c_lt : char := 60%N.
Definition c_gt : char := 62%N.
Definition c_dquote : char := 34%N.
Definition c_squote : char := 39%N.

(** [html.escape(s)] with its default [quote=True]: five replacements in
    the library's order, the ampersand first. *)
Definition html_escape (s : str) : str :=
  replace1 c_squote (lit "&#x27;")
    (replace1 c_dquote (lit "&quot;")
       (replace1 c_gt (lit "&gt;")
          (replace1 c_lt (lit "&lt;")
             (replace1 c_amp (lit "&amp;") s)))).

(** [html.escape(prompt.strip())[:1000]], line 145. *)
Definition sanitized (prompt : str) : str :=
  firstn 1000 (html_escape (strip prompt)).

(** [f"> {sanitized}"], line 146. *)
Definition echo_line (prompt : str) : str := lit "> " ++ sanitized prompt.

(** *** Reading the echo

    [contains_special s]: [s] has one of the characters <, > or &. *)
Definition is_special (c : char) : bool :=
  ((c =? c_amp) || (c =? c_lt) || (c =? c_gt))%N.

Definition contains_special (s : str) : bool := existsb is_special s.

Fixpoint starts_with (p s : str) : bool :=
  match p, s with
  | [], _ => true
  | _ :: _, [] => false
  | a :: p', b :: s' => (a =? b)%N && starts_with p' s'
  end.

(** What follows the ampersand in the five escaped forms. *)
Definition entity_tails : list str :=
  [lit "amp;"; lit "lt;"; lit "gt;"; lit "quot;"; lit "#x27;"].

(** [only_escaped s]: no literal < or > occurs in [s], and every & of [s]
    opens one of the escaped forms. *)
Fixpoint only_escaped (s : str) : bool :=
  match s with
  | [] => true
  | c :: t =>
      (if ((c =? c_lt) || (c =? c_gt))%N then false
       else if (c =? c_amp)%N then existsb (fun p => starts_with p t) entity_tails
       else true)
      && only_escaped t
  end.

(** One-pass reading of [html_escape]. *)
Definition escape_char (c : char) : str :=
  if (c =? c_amp)%N then lit "&amp;"
  else if (c =? c_lt)%N then lit "&lt;"
  else if (c =? c_gt)%N then lit "&gt;"
  else if (c =? c_dquote)%N then lit "&quot;"
  else if (c =? c_squote)%N then lit "&#x27;"
  else [c].

(** ** Python values

    The values [json.loads] produces and [json.dumps] accepts: [None],
    booleans, integers, text, lists, and dictionaries with text keys in
    insertion order (an association list whose keys are distinct).  Floats
    are left out of the model. *)

Inductive json : Type :=
| JNull
| JBool (b : bool)
| JInt (z : Z)
| JStr (s : str)
| JArr (items : list json)
| JObj (members : list (str * json)).

(** [d.get(k)] as an option; [dict_get_default] is [d.get(k, default)]. *)
Fixpoint dict_get (d : list (str * json)) (k : str) : option json :=
  match d with
  | [] => None
  | (k', v) :: rest => if str_eqb k' k then Some v else dict_get rest k
  end.

Definition dict_get_default (d : list (str * json)) (k : str) (dflt : json)
  : json :=
  match dict_get d k with Some v => v | None => dflt end.

(** [d[k] = v] *)
Fixpoint dict_set (d : list (str * json)) (k : str) (v : json)
  : list (str * json) :=
  match d with
  | [] => [(k, v)]
  | (k', v') :: rest =>
      if str_eqb k' k then (k', v) :: rest else (k', v') :: dict_set rest k v
  end.

(** Truth value of an object, as [if x:] and [x or y] test it. *)
Definition truthy (v : json) : bool :=
  match v with
  | JNull => false
  | JBool b => b
  | JInt z => negb (z =? 0)%Z
  | JStr s => match s with [] => false | _ => true end
  | JArr l => match l with [] => false | _ => true end
  | JObj m => match m with [] => false | _ => true end
  end.

(** *** Decimal and hexadecimal digits *)

Fixpoint uint_digits (u : Decimal.uint) : str :=
  match u with
  | Decimal.Nil => []
  | Decimal.D0 u' => 48%N :: uint_digits u'
  | Decimal.D1 u' => 49%N :: uint_digits u'
  | Decimal.D2 u' => 50%N :: uint_digits u'
  | Decimal.D3 u' => 51%N :: uint_digits u'
  | Decimal.D4 u' => 52%N :: uint_digits u'
  | Decimal.D5 u' => 53%N :: uint_digits u'
  | Decimal.D6 u' => 54%N :: uint_digits u'
  | Decimal.D7 u' => 55%N :: uint_digits u'
  | Decimal.D8 u' => 56%N :: uint_digits u'
  | Decimal.D9 u' => 57%N :: uint_digits u'
  end.

Definition c_minus : char := 45%N.

(** [repr] of a Python [int]. *)
Definition int_repr (z : Z) : str :=
  match Z.to_int z with
  | Decimal.Pos u => uint_digits u
  | Decimal.Neg u => c_minus :: uint_digits u
  end.

Definition hexdigit (d : N) : char :=
  (if d <? 10 then 48 + d else 87 + d)%N.

(** ['{0:04x}'.format(n)] for [n] below 65536. *)
Definition hex4 (n : N) : str :=
  [hexdigit (N.shiftr n 12 mod 16); hexdigit (N.shiftr n 8 mod 16);
   hexdigit (N.shiftr n 4 mod 16); hexdigit (n mod 16)]%N.

(** *** [json.dumps]

    The library's defaults: [ensure_ascii=True], separators [", "] and
    [": "].  Everything outside the printable ASCII range is written as a
    [\uXXXX] escape, a code point beyond the basic plane as a surrogate
    pair. *)

Definition c_backslash : char := 92%N.
Definition c_u : char := 117%N.

Definition json_escape_char (c : char) : str :=
  (if c =? c_dquote then [c_backslash; c_dquote]
   else if c =? c_backslash then [c_backslash; c_backslash]
   else if c =? 10 then lit "\n"
   else if c =? 13 then lit "\r"
   else if c =? 9 then lit "\t"
   else if c =? 8 then lit "\b"
   else if c =? 12 then lit "\f"
   else if (32 <=? c) && (c <=? 126) then [c]
   else if c <? 65536 then c_backslash :: c_u :: hex4 c
   else
     let n := c - 65536 in
     (c_backslash :: c_u :: hex4 (N.lor 55296 (N.land (N.shiftr n 10) 1023)))
     ++ (c_backslash :: c_u :: hex4 (N.lor 56320 (N.land n 1023))))%N.

Definition encode_string (s : str) : str :=
  c_dquote :: flat_map json_escape_char s ++ [c_dquote].

Fixpoint json_dumps (v : json) : str :=
  match v with
  | JNull => lit "null"
  | JBool true => lit "true"
  | JBool false => lit "false"
  | JInt z => int_repr z
  | JStr s => encode_string s
  | JArr items =>
      match items with
      | [] => lit "[]"
      | _ => lit "[" ++ join (lit ", ") (map json_dumps items) ++ lit "]"
      end
  | JObj members =>
      match members with
      | [] => lit "{}"
      | _ =>
          lit "{"
          ++ join (lit ", ")
               (map (fun kv => match kv with
                               | (k, x) => encode_string k ++ lit ": " ++ json_dumps x
                               end) members)
          ++ lit "}"
      end
  end.

(** *** [json.loads]

    The decoder of the library in its default (strict) mode: white space is
    blank, tab, line feed and carriage return; a control character inside a
    string, a trailing comma, or text after the value is an error.  The
    answer is [None] where the library raises [JSONDecodeError], and also on
    a number with a fraction or an exponent and on [NaN]/[Infinity], which
    are floats. *)

Definition is_ws (c : char) : bool :=
  ((c =? 32) || (c =? 9) || (c =? 10) || (c =? 13))%N.

Fixpoint skip_ws (s : str) : str :=
  match s with
  | [] => []
  | c :: t => if is_ws c then skip_ws t else s
  end.

Definition hexval (c : char) : option N :=
  (if (48 <=? c) && (c <=? 57) then Some (c - 48)
   else if (97 <=? c) && (c <=? 102) then Some (c - 87)
   else if (65 <=? c) && (c <=? 70) then Some (c - 55)
   else None)%N.

(** The value of four hexadecimal digits. *)
Definition decode_hex4 (a b c d : char) : option N :=
  match hexval a, hexval b, hexval c, hexval d with
  | Some x, Some y, Some z, Some w => Some (x * 4096 + y * 256 + z * 16 + w)%N
  | _, _, _, _ => None
  end.

Definition is_high_surrogate (n : N) : bool := ((55296 <=? n) && (n <=? 56319))%N.
Definition is_low_surrogate (n : N) : bool := ((56320 <=? n) && (n <=? 57343))%N.

(** The character a one-letter escape stands for. *)
Definition simple_escape (e : char) : option char :=
  (if e =? c_dquote then Some c_dquote
   else if e =? c_backslash then Some c_backslash
   else if e =? 47 then Some 47
   else if e =? 98 then Some 8
   else if e =? 102 then Some 12
   else if e =? 110 then Some 10
   else if e =? 114 then Some 13
   else if e =? 116 then Some 9
   else None)%N.

(** [scanstring]: the text up to the closing quote, escapes decoded; [acc]
    holds the characters read so far, last first. *)
Fixpoint scan_string (s : str) (acc : str) : option (str * str) :=
  match s with
  | [] => None
  | c :: t =>
      if (c =? c_dquote)%N then Some (rev acc, t)
      else if (c <? 32)%N then None
      else if (c =? c_backslash)%N then
        match t with
        | [] => None
        | e :: t1 =>
            if (e =? c_u)%N then
              match t1 with
              | h1 :: h2 :: h3 :: h4 :: t2 =>
                  match decode_hex4 h1 h2 h3 h4 with
                  | None => None
                  | Some uni =>
                      if is_high_surrogate uni then
                        match t2 with
                        | b :: t3 =>
                            if (b =? c_backslash)%N then
                              match t3 with
                              | u' :: t4 =>
                                  if (u' =? c_u)%N then
                                    match t4 with
                                    | l1 :: l2 :: l3 :: l4 :: t5 =>
                                        match decode_hex4 l1 l2 l3 l4 with
                                        | None => None
                                        | Some uni2 =>
                                            if is_low_surrogate uni2 then
                                              scan_string t5
                                                ((65536 + N.lor (N.shiftl (uni - 55296) 10)
                                                                (uni2 - 56320))%N :: acc)
                                            else scan_string t2 (uni :: acc)
                                        end
                                    | _ => None
                                    end
                                  else scan_string t2 (uni :: acc)
                              | [] => scan_string t2 (uni :: acc)
                              end
                            else scan_string t2 (uni :: acc)
                        | [] => scan_string t2 (uni :: acc)
                        end
                      else scan_string t2 (uni :: acc)
                  end
              | _ => None
              end
            else
              match simple_escape e with
              | Some x => scan_string t1 (x :: acc)
              | None => None
              end
        end
      else scan_string t (c :: acc)
  end.

Definition is_digit (c : char) : bool := ((48 <=? c) && (c <=? 57))%N.

Definition push_digit (c : char) (u : Decimal.uint) : Decimal.uint :=
  (if c =? 48 then Decimal.D0 u else if c =? 49 then Decimal.D1 u
   else if c =? 50 then Decimal.D2 u else if c =? 51 then Decimal.D3 u
   else if c =? 52 then Decimal.D4 u else if c =? 53 then Decimal.D5 u
   else if c =? 54 then Decimal.D6 u else if c =? 55 then Decimal.D7 u
   else if c =? 56 then Decimal.D8 u else Decimal.D9 u)%N.

(** The longest run of digits at the head of [s], and what follows it. *)
Fixpoint read_digits (s : str) : Decimal.uint * str :=
  match s with
  | [] => (Decimal.Nil, [])
  | c :: t =>
      if is_digit c then
        let (u, r) := read_digits t in (push_digit c u, r)
      else (Decimal.Nil, s)
  end.

(** The integer at the head of [s]: an optional minus sign, then a single
    zero or a run of digits that does not start with zero. *)
Definition scan_int (s : str) : option (Z * str) :=
  let (neg, s1) :=
    match s with
    | c :: t => if (c =? c_minus)%N then (true, t) else (false, s)
    | [] => (false, s)
    end in
  match s1 with
  | [] => None
  | c :: t =>
      if (c =? 48)%N then Some (0%Z, t)
      else if is_digit c then
        let (u, r) := read_digits s1 in
        let n := Z.of_N (N.of_uint u) in
        Some ((if neg then - n else n)%Z, r)
      else None
  end.

(** A number that goes on with a fraction or an exponent is a float. *)
Definition float_follows (r : str) : bool :=
  match r with
  | c :: _ => ((c =? 46) || (c =? 101) || (c =? 69))%N
  | [] => false
  end.

Fixpoint strip_prefix (p s : str) : option str :=
  match p, s with
  | [], _ => Some s
  | _ :: _, [] => None
  | a :: p', b :: s' => if (a =? b)%N then strip_prefix p' s' else None
  end.

Fixpoint parse_value (fuel : nat) (s : str) {struct fuel}
  : option (json * str) :=
  match fuel with
  | O => None
  | S f =>
      match s with
      | [] => None
      | c :: t =>
          if (c =? c_dquote)%N then
            match scan_string t [] with
            | Some (x, r) => Some (JStr x, r)
            | None => None
            end
          else if (c =? 123)%N then
            match skip_ws t with
            | [] => None
            | c1 :: t1 =>
                if (c1 =? 125)%N then Some (JObj [], t1)
                else
                  match parse_members f (skip_ws t) [] with
                  | Some (m, r) => Some (JObj m, r)
                  | None => None
                  end
            end
          else if (c =? 91)%N then
            match skip_ws t with
            | [] => None
            | c1 :: t1 =>
                if (c1 =? 93)%N then Some (JArr [], t1)
                else
                  match parse_items f (skip_ws t) [] with
                  | Some (l, r) => Some (JArr l, r)
                  | None => None
                  end
            end
          else
            match strip_prefix (lit "null") s with
            | Some r => Some (JNull, r)
            | None =>
                match strip_prefix (lit "true") s with
                | Some r => Some (JBool true, r)
                | None =>
                    match strip_prefix (lit "false") s with
                    | Some r => Some (JBool false, r)
                    | None =>
                        match scan_int s with
                        | Some (z, r) =>
                            if float_follows r then None else Some (JInt z, r)
                        | None => None
                        end
                    end
                end
            end
      end
  end

with parse_items (fuel : nat) (s : str) (acc : list json) {struct fuel}
  : option (list json * str) :=
  match fuel with
  | O => None
  | S f =>
      match parse_value f s with
      | None => None
      | Some (v, r) =>
          match skip_ws r with
          | [] => None
          | c :: r1 =>
              if (c =? 93)%N then Some (rev (v :: acc), r1)
              else if (c =? 44)%N then parse_items f (skip_ws r1) (v :: acc)
              else None
          end
      end
  end

with parse_members (fuel : nat) (s : str) (acc : list (str * json))
       {struct fuel} : option (list (str * json) * str) :=
  match fuel with
  | O => None
  | S f =>
      match s with
      | [] => None
      | q :: t =>
          if (q =? c_dquote)%N then
            match scan_string t [] with
            | None => None
            | Some (k, r) =>
                match skip_ws r with
                | [] => None
                | c1 :: r1 =>
                    if (c1 =? 58)%N then
                      match parse_value f (skip_ws r1) with
                      | None => None
                      | Some (v, r2) =>
                          match skip_ws r2 with
                          | [] => None
                          | c2 :: r3 =>
                              if (c2 =? 125)%N then Some (dict_set acc k v, r3)
                              else if (c2 =? 44)%N then
                                parse_members f (skip_ws r3) (dict_set acc k v)
                              else None
                          end
                      end
                    else None
                end
            end
          else None
      end
  end.

Definition json_loads (s : str) : option json :=
  match parse_value (S (length s)) (skip_ws s) with
  | Some (v, r) => match skip_ws r with [] => Some v | _ :: _ => None end
  | None => None
  end.

(** ** Exceptions and results *)

Inductive exn : Type :=
| AttributeError
| TypeError
| KeyError
| IndexError
| JSONDecodeError
| IntegrityError
| OperationalError
| RequestException.

Inductive result (A : Type) : Type :=
| Ok (a : A)
| Raise (e : exn).
Arguments Ok {A} a.
Arguments Raise {A} e.

Definition rbind {A B : Type} (r : result A) (k : A -> result B) : result B :=
  match r with
  | Ok a => k a
  | Raise e => Raise e
  end.

(** [v.get(k, dflt)]: only a dictionary has the method. *)
Definition py_get (v : json) (k : str) (dflt : json) : result json :=
  match v with
  | JObj d => Ok (dict_get_default d k dflt)
  | _ => Raise AttributeError
  end.

(** [v[k]] with a text key. *)
Definition py_item (v : json) (k : str) : result json :=
  match v with
  | JObj d => match dict_get d k with Some x => Ok x | None => Raise KeyError end
  | _ => Raise TypeError
  end.

(** [v[0]] *)
Definition py_first (v : json) : result json :=
  match v with
  | JArr l => match l with x :: _ => Ok x | [] => Raise IndexError end
  | JStr s => match s with c :: _ => Ok (JStr [c]) | [] => Raise IndexError end
  | JObj _ => Raise KeyError
  | _ => Raise TypeError
  end.

(** [v.strip()]: only text has the method. *)
Definition py_strip (v : json) : result str :=
  match v with
  | JStr s => Ok (strip s)
  | _ => Raise AttributeError
  end.

(** ** Profiles

    The dictionary [register_flow] builds and [fetch_user] returns.  The
    text columns hold text or [None]; [user_meta] is [None] when the
    dictionary has no ["meta"] key. *)

Record User : Type := mkUser {
  user_id : str;
  user_name : option str;
  user_email : option str;
  user_phone : option str;
  user_meta : option json;
  user_created_at : str
}.

(** [user.get("meta", {})] *)
Definition get_meta (user : User) : json :=
  match user_meta user with
  | Some m => m
  | None => JObj []
  end.

(** ** Record store (lines 36-116)

    The two tables of [init_db].  A row holds what SQLite keeps: text, or
    [None] for NULL in the columns the application may leave empty. *)

Record UserRow : Type := mkUserRow {
  row_id : str;
  row_name : option str;
  row_email : option str;
  row_phone : option str;
  row_meta : option str;
  row_created_at : str
}.

Record ConvRow : Type := mkConvRow {
  conv_id : str;
  conv_user_id : str;
  conv_role : str;
  conv_message : str;
  conv_metadata : option str;
  conv_ts : str
}.

Record Store : Type := mkStore {
  users : list UserRow;
  conversations : list ConvRow
}.

Definition empty_store : Store := mkStore [] [].

(** The dictionary [save_message] receives; [msg_metadata] is [None] when
    it has no ["metadata"] key. *)
Record Message : Type := mkMessage {
  msg_id : str;
  msg_user_id : str;
  msg_role : str;
  msg_message : str;
  msg_metadata : option json;
  msg_ts : str
}.

(** *** The world around the code

    [Env] fixes what the outside answers: the identifiers [uuid.uuid4]
    mints, the readings of the clock, which write statements the storage
    medium refuses, and the replies of the two network services. *)

Inductive http_reply : Type :=
| HttpRaise (e : exn)
| HttpResponse (status : Z) (body : option json).

Record Env : Type := mkEnv {
  uuid4 : nat -> str;
  utcnow : nat -> str;
  write_fault : nat -> option exn;
  ipify_get : http_reply;
  openai_post : str -> str -> http_reply
}.

(** What the page shows, one constructor per call site. *)
Inductive ui_event : Type :=
| EvHeader
| EvIntro
| EvKeyInfo
| EvDetecting
| EvCallingOpenAI
| EvWarnStatus (status : Z)
| EvWarnError (e : exn)
| EvCompanionLabel
| EvReply (text : str).

Record World : Type := mkWorld {
  db : Store;
  writes : nat;
  minted : nat;
  ticks : nat;
  ui : list ui_event
}.

Definition M (A : Type) : Type := World -> result A * World.

Definition ret {A : Type} (a : A) : M A := fun w => (Ok a, w).

Definition raise {A : Type} (e : exn) : M A := fun w => (Raise e, w).

Definition bind {A B : Type} (m : M A) (k : A -> M B) : M B :=
  fun w =>
    match m w with
    | (Ok a, w') => k a w'
    | (Raise e, w') => (Raise e, w')
    end.

(** [try: body except Exception as e: handler(e)] *)
Definition try_except {A : Type} (body : M A) (handler : exn -> M A) : M A :=
  fun w =>
    match body w with
    | (Ok a, w') => (Ok a, w')
    | (Raise e, w') => handler e w'
    end.

Definition lift {A : Type} (r : result A) : M A := fun w => (r, w).

Declare Scope m_scope.
Delimit Scope m_scope with M.
Notation "x <- m ;; k" := (bind m (fun x => k))
  (at level 61, m at next level, right associativity) : m_scope.
Notation "m ;;; k" := (bind m (fun _ => k))
  (at level 61, right associativity) : m_scope.
Local Open Scope m_scope.

Definition set_db (s : Store) (w : World) : World :=
  mkWorld s (writes w) (minted w) (ticks w) (ui w).

(** [str(uuid.uuid4())] *)
Definition mint (env : Env) : M str :=
  fun w => (Ok (uuid4 env (minted w)),
            mkWorld (db w) (writes w) (S (minted w)) (ticks w) (ui w)).

(** [datetime.utcnow().isoformat()] *)
Definition now (env : Env) : M str :=
  fun w => (Ok (utcnow env (ticks w)),
            mkWorld (db w) (writes w) (minted w) (S (ticks w)) (ui w)).

Definition emit (e : ui_event) : M unit :=
  fun w => (Ok tt, mkWorld (db w) (writes w) (minted w) (ticks w) (ui w ++ [e])).

(** One write statement followed by [conn.commit()]: the medium may refuse
    it, the statement itself may fail ([stmt] answers the error), otherwise
    the new table contents are durable. *)
Definition write_stmt (env : Env) (stmt : Store -> result Store) : M unit :=
  fun w =>
    let w1 := mkWorld (db w) (S (writes w)) (minted w) (ticks w) (ui w) in
    match write_fault env (writes w) with
    | Some e => (Raise e, w1)
    | None =>
        match stmt (db w) with
        | Ok s => (Ok tt, set_db s w1)
        | Raise e => (Raise e, w1)
        end
    end.

Definition meta_or_empty (m : option json) : json :=
  match m with Some v => v | None => JObj [] end.

(** [INSERT OR REPLACE INTO users]: a row with the same id goes, the new
    row is appended. *)
Definition save_user (env : Env) (user : User) : M unit :=
  write_stmt env (fun s =>
    let row := mkUserRow (user_id user) (user_name user) (user_email user)
                 (user_phone user)
                 (Some (json_dumps (meta_or_empty (user_meta user))))
                 (user_created_at user) in
    Ok (mkStore
          (filter (fun r => negb (str_eqb (row_id r) (user_id user))) (users s)
           ++ [row])
          (conversations s))).

(** [INSERT INTO conversations]: the primary key rejects an id that is
    already there. *)
Definition save_message (env : Env) (conv : Message) : M unit :=
  write_stmt env (fun s =>
    if existsb (fun r => str_eqb (conv_id r) (msg_id conv)) (conversations s)
    then Raise IntegrityError
    else
      let row := mkConvRow (msg_id conv) (msg_user_id conv) (msg_role conv)
                   (msg_message conv)
                   (Some (json_dumps (meta_or_empty (msg_metadata conv))))
                   (msg_ts conv) in
      Ok (mkStore (users s) (conversations s ++ [row]))).

(** [json.loads(row[4]) if row[4] else {}] *)
Definition load_meta (col : option str) : result json :=
  match col with
  | Some (c :: t) =>
      match json_loads (c :: t) with
      | Some v => Ok v
      | None => Raise JSONDecodeError
      end
  | _ => Ok (JObj [])
  end.

Definition row_to_user (r : UserRow) : result User :=
  rbind (load_meta (row_meta r))
    (fun m => Ok (mkUser (row_id r) (row_name r) (row_email r) (row_phone r)
                    (Some m) (row_created_at r))).

(** [SELECT ... WHERE id = ?] and [fetchone]. *)
Definition fetch_user (user_id : str) : M (option User) :=
  fun w =>
    match find (fun r => str_eqb (row_id r) user_id) (users (db w)) with
    | None => (Ok None, w)
    | Some row =>
        match row_to_user row with
        | Ok u => (Ok (Some u), w)
        | Raise e => (Raise e, w)
        end
    end.

(** Order of two texts under SQLite's BINARY collation. *)
Fixpoint str_compare (a b : str) : comparison :=
  match a, b with
  | [], [] => Eq
  | [], _ :: _ => Lt
  | _ :: _, [] => Gt
  | x :: a', y :: b' =>
      match (x ?= y)%N with
      | Eq => str_compare a' b'
      | c => c
      end
  end.

Definition str_leb (a b : str) : bool :=
  match str_compare a b with Gt => false | _ => true end.

(** [ORDER BY created_at DESC]: rows with equal keys stay in table order. *)
Fixpoint insert_desc (r : UserRow) (sorted : list UserRow) : list UserRow :=
  match sorted with
  | [] => [r]
  | y :: rest =>
      if str_leb (row_created_at y) (row_created_at r)
      then r :: y :: rest
      else y :: insert_desc r rest
  end.

Definition order_by_created_at_desc (rows : list UserRow) : list UserRow :=
  fold_right insert_desc [] rows.

(** A list comprehension whose element expression may raise. *)
Fixpoint map_result {A B : Type} (f : A -> result B) (l : list A)
  : result (list B) :=
  match l with
  | [] => Ok []
  | x :: rest =>
      rbind (f x) (fun y => rbind (map_result f rest) (fun ys => Ok (y :: ys)))
  end.

Definition list_users : M (list User) :=
  fun w => (map_result row_to_user (order_by_created_at_desc (users (db w))), w).

(** [try_get_public_ip]: the ["ip"] entry of the answer, [None] on any
    failure and on a status other than 200. *)
Definition try_get_public_ip (env : Env) : json :=
  match ipify_get env with
  | HttpRaise _ => JNull
  | HttpResponse status body =>
      if (status =? 200)%Z then
        match body with
        | Some v =>
            match py_get v (lit "ip") JNull with
            | Ok ip => ip
            | Raise _ => JNull
            end
        | None => JNull
        end
      else JNull
  end.

Definition c_newline : char := 10%N.
Definition c_emdash : char := 8212%N.

Section App.

(** [repr] of a list or a dictionary, as an f-string prints it: behaviour
    of the interpreter, the same function at every call. *)
Variable py_repr : json -> str.

(** What [f"{v}"] prints. *)
Definition py_str (v : json) : str :=
  match v with
  | JNull => lit "None"
  | JBool true => lit "True"
  | JBool false => lit "False"
  | JInt z => int_repr z
  | JStr s => s
  | JArr _ | JObj _ => py_repr v
  end.

(** ** Mock LBM (lines 129-151) *)

(** [user_profile.get("name") or "Friend"] *)
Definition display_name (user_profile : User) : str :=
  match user_name user_profile with
  | Some (c :: s) => c :: s
  | _ => lit "Friend"
  end.

Definition reply_lines (name : str) (short_profile : json) (prompt : str)
  : list str :=
  [lit "Hi " ++ name ++ lit ", thanks for sharing that."]
  ++ (if truthy short_profile
      then [lit "I remember you said: " ++ [c_dquote] ++ py_str short_profile
            ++ [c_dquote] ++ lit " " ++ [c_emdash]
            ++ lit " I'll keep that in mind."]
      else [])
  ++ [lit "Here's a thoughtful reply to your message:";
      echo_line prompt;
      lit "Suggestion: try breaking the task into smaller steps. Which step would you like help with first?";
      lit "(This is a demo response from Assessli's prototype LBM " ++ [c_emdash]
      ++ lit " not medical or legal advice.)"].

Definition mock_lbm_response (user_profile : User) (prompt : str)
  : result str :=
  let name := display_name user_profile in
  rbind (py_get (get_meta user_profile) (lit "bio") (JStr []))
    (fun short_profile =>
       Ok (join [c_newline; c_newline] (reply_lines name short_profile prompt))).

(** ** The chat turn (lines 210-287) *)

(** What the forms of the page hold when the script runs. *)
Record ChatInput : Type := mkChatInput {
  openai_key : str;
  prompt_text : str;
  remember_pref : bool;
  submit : bool;
  browser_ua : str
}.

Definition nonempty (s : str) : bool :=
  match s with [] => false | _ :: _ => true end.

Definition detect_tech_info (env : Env) (inp : ChatInput) : M json :=
  emit EvDetecting ;;;
  let ip := try_get_public_ip env in
  let browser := browser_ua inp in
  ret (JObj [(lit "ip", ip); (lit "browser", JStr browser)]).

(** The content of the user message sent to the language model. *)
Definition openai_content (user : User) (prompt : str) : str :=
  lit "User profile: " ++ json_dumps (get_meta user)
  ++ [c_newline; c_newline] ++ lit "User message: " ++ prompt.

(** [resp["choices"][0]["message"]["content"].strip()] *)
Definition response_text (resp : json) : result str :=
  rbind (py_item resp (lit "choices")) (fun choices =>
  rbind (py_first choices) (fun choice =>
  rbind (py_item choice (lit "message")) (fun message =>
  rbind (py_item message (lit "content")) (fun content =>
  py_strip content)))).

(** Lines 247-272: the text of the assistant. *)
Definition obtain_reply (env : Env) (inp : ChatInput) (user : User) : M str :=
  let prompt := prompt_text inp in
  if nonempty (openai_key inp) then
    emit EvCallingOpenAI ;;;
    try_except
      (match openai_post env (openai_key inp) (openai_content user prompt) with
       | HttpRaise e => raise e
       | HttpResponse status body =>
           if (status =? 200)%Z then
             match body with
             | None => raise JSONDecodeError
             | Some resp => lift (response_text resp)
             end
           else
             emit (EvWarnStatus status) ;;;
             lift (mock_lbm_response user prompt)
       end)
      (fun e =>
         emit (EvWarnError e) ;;;
         lift (mock_lbm_response user prompt))
  else lift (mock_lbm_response user prompt).

Definition role_user : str := lit "user".
Definition role_assistant : str := lit "assistant".
Definition mock_lbm : str := lit "mock_lbm".
Definition openai_proxy : str := lit "openai_proxy".

Definition companion_chat_ui (env : Env) (inp : ChatInput) (user : User)
  : M unit :=
  emit EvHeader ;;;
  emit EvIntro ;;;
  emit EvKeyInfo ;;;
  let prompt := prompt_text inp in
  if submit inp && nonempty prompt then
    allow <- lift (py_get (get_meta user) (lit "allow_tech_info") (JBool true)) ;;
    tech <- (if truthy allow then detect_tech_info env inp else ret (JObj [])) ;;
    id <- mint env ;;
    ts <- now env ;;
    let conv := mkMessage id (user_id user) role_user prompt
                  (Some (JObj [(lit "tech", tech)])) ts in
    (if remember_pref inp then save_message env conv else ret tt) ;;;
    assistant_text <- obtain_reply env inp user ;;
    id' <- mint env ;;
    ts' <- now env ;;
    let assistant_conv :=
      mkMessage id' (user_id user) role_assistant assistant_text
        (Some (JObj [(lit "generated_by",
                      JStr (if negb (nonempty (openai_key inp))
                            then mock_lbm else openai_proxy))]))
        ts' in
    save_message env assistant_conv ;;;
    emit EvCompanionLabel ;;;
    emit (EvReply assistant_text)
  else ret tt.

End App.

(** ** Observations

    What the statements below read off a run. *)

(** The world with further events on the page. *)
Definition add_events (evs : list ui_event) (w : World) : World :=
  mkWorld (db w) (writes w) (minted w) (ticks w) (ui w ++ evs).

(** The reply on the page: the text of the last call, when it is the
    [st.write(assistant_text)] of line 287. *)
Definition shown_reply (w : World) : option str :=
  match last (ui w) EvHeader with
  | EvReply t => Some t
  | _ => None
  end.

(** The text a run hands to the reader: none when it ends in an exception. *)
Definition turn_output (o : result unit * World) : option str :=
  match fst o with
  | Ok _ => shown_reply (snd o)
  | Raise _ => None
  end.

(** The external call fails: the request raises (network error, timeout),
    the status is not 200, the body is not JSON, or the body lacks the
    text at [choices[0].message.content]. *)
Definition ext_fails (r : http_reply) : Prop :=
  match r with
  | HttpRaise _ => True
  | HttpResponse status body =>
      status <> 200%Z
      \/ body = None
      \/ exists resp e, body = Some resp /\ response_text resp = Raise e
  end.

(** The same forms with the key field left empty. *)
Definition without_key (inp : ChatInput) : ChatInput :=
  mkChatInput [] (prompt_text inp) (remember_pref inp) (submit inp)
    (browser_ua inp).

(** The metadata of a stored message, decoded. *)
Definition stored_metadata (row : ConvRow) : option json :=
  match conv_metadata row with
  | Some t => json_loads t
  | None => None
  end.

(** [metadata.generated_by] of a stored message. *)
Definition generated_by (row : ConvRow) : option json :=
  match stored_metadata row with
  | Some (JObj d) => dict_get d (lit "generated_by")
  | _ => None
  end.

(** The label read back from the metadata line 280 builds for a key field. *)
Definition generated_by_text (key : str) : option json :=
  generated_by (mkConvRow [] [] [] []
    (Some (json_dumps (meta_or_empty (Some (JObj [(lit "generated_by",
        JStr (if negb (nonempty key) then mock_lbm else openai_proxy))])))))
    []).

(** The consent key of the profile's meta. *)
Definition flag_key : str := lit "allow_tech_info".

(** What [detect_tech_info] returns. *)
Definition captured_tech (env : Env) (inp : ChatInput) : json :=
  JObj [(lit "ip", try_get_public_ip env); (lit "browser", JStr (browser_ua inp))].

(** The identifier the next [uuid4] mints is already a key of the
    conversations table. *)
Definition id_taken (env : Env) (w : World) : bool :=
  existsb (fun r => str_eqb (conv_id r) (uuid4 env (minted w)))
    (conversations (db w)).

(** The events a turn puts on the page before it stores the user message. *)
Definition setup_event (ev : ui_event) : Prop :=
  ev = EvHeader \/ ev = EvIntro \/ ev = EvKeyInfo \/ ev = EvDetecting.

(** [newer_or_same a b]: [a] was created no earlier than [b], as texts. *)
Definition newer_or_same (a b : User) : Prop :=
  str_leb (user_created_at b) (user_created_at a) = true.

(** The same order on rows. *)
Definition row_newer_or_same (a b : UserRow) : Prop :=
  str_leb (row_created_at b) (row_created_at a) = true.

(** [returned_by w u]: [fetch_user] or [list_users] hands out [u] in [w]. *)
Definition returned_by (w : World) (u : User) : Prop :=
  (exists id, fst (fetch_user id w) = Ok (Some u))
  \/ (exists us, fst (list_users w) = Ok us /\ In u us).

(** The medium accepts the [n]-th write of the run. *)
Definition accepts (env : Env) (n : nat) : bool :=
  match write_fault env n with
  | None => true
  | Some _ => false
  end.

(** The writes of a turn go through: the medium accepts them and the ids
    minted for the messages are not in the table yet.  With the save box
    ticked the turn writes two rows, under the next two ids; without it,
    one row under the second id. *)
Definition storage_accepts (env : Env) (inp : ChatInput) (w : World) : bool :=
  let id1 := uuid4 env (minted w) in
  let id2 := uuid4 env (S (minted w)) in
  let taken id :=
    existsb (fun r => str_eqb (conv_id r) id) (conversations (db w)) in
  if remember_pref inp then
    accepts env (writes w) && negb (taken id1)
    && accepts env (S (writes w)) && negb (taken id2)
    && negb (str_eqb id1 id2)
  else accepts env (writes w) && negb (taken id2).

(** ** Values that survive serialisation *)

(** A Unicode scalar value: a code point that is not a surrogate. *)
Definition is_scalar (c : char) : bool :=
  ((c <? 1114112) && negb ((55296 <=? c) && (c <=? 57343)))%N.

(** A text of scalar values: what UTF-8, and so SQLite, can hold. *)
Definition scalar_text (s : str) : bool := forallb is_scalar s.

(** The keys of a dictionary are distinct. *)
Fixpoint nodup_keys (l : list str) : bool :=
  match l with
  | [] => true
  | k :: r => negb (existsb (str_eqb k) r) && nodup_keys r
  end.

(** The values a Python program can hold and SQLite can store: the keys of
    a dictionary are distinct and every text is made of Unicode scalar
    values. *)
Fixpoint wf_json (v : json) : bool :=
  match v with
  | JStr s => scalar_text s
  | JArr l => forallb wf_json l
  | JObj m =>
      nodup_keys (map fst m)
      && forallb (fun kv => match kv with
                            | (k, x) => scalar_text k && wf_json x
                            end) m
  | _ => true
  end.

(** A member with a well-formed key and value. *)
Definition wf_member (kv : str * json) : bool :=
  match kv with
  | (k, x) => scalar_text k && wf_json x
  end.

(** One [key: value] member as [json_dumps] writes it. *)
Definition member_text (kv : str * json) : str :=
  match kv with
  | (k, x) => encode_string k ++ lit ": " ++ json_dumps x
  end.

(** The item separator of [json_dumps]. *)
Definition sep : str := lit ", ".

(** [rest] does not go on with a digit. *)
Definition no_digit_start (rest : str) : bool :=
  match rest with
  | [] => true
  | c :: _ => negb (is_digit c)
  end.

(** What may follow a value inside a text that [json_dumps] wrote. *)
Definition delim (rest : str) : Prop :=
  match rest with
  | [] => True
  | c :: _ => c = 44%N \/ c = 93%N \/ c = 125%N
  end.

(** The first character of a serialised value: it opens a value, so it is
    neither white space nor a closing bracket. *)
Definition opens_value (c : char) : Prop :=
  is_ws c = false /\ (c =? 93)%N = false /\ (c =? 125)%N = false.

(** ** Data of the examples *)

(** The profiles of the examples hold no list and no dictionary to print. *)
Definition repr_unused : json -> str := fun _ => [].

(** An environment with numbered identifiers and clock readings, a working
    address lookup, given storage faults and a given answer of the language
    model. *)
Definition demo_env (fault : nat -> option exn) (reply : http_reply) : Env :=
  mkEnv (fun n => lit "msg-" ++ int_repr (Z.of_nat n))
        (fun n => lit "2024-05-01T10:00:0" ++ int_repr (Z.of_nat n))
        fault
        (HttpResponse 200 (Some (JObj [(lit "ip", JStr (lit "203.0.113.7"))])))
        (fun _ _ => reply).

(** The medium accepts every write. *)
Definition no_fault : nat -> option exn := fun _ => None.

(** The medium refuses the first write of the run. *)
Definition first_write_fails : nat -> option exn :=
  fun n => match n with O => Some OperationalError | S _ => None end.

(** A new database and an empty page. *)
Definition fresh_world : World := mkWorld empty_store 0 0 0 [].

(** The profile of scenario A. *)
Definition ava : User :=
  mkUser (lit "u-ava") (Some (lit "Ava")) (Some (lit "a@x.com")) None
    (Some (JObj [(lit "bio", JStr (lit "loves hiking"))]))
    (lit "2024-04-30T09:00:00").

(** Another account with the same name and bio. *)
Definition ava_later : User :=
  mkUser (lit "u-ava-2") (Some (lit "Ava")) (Some (lit "ava@example.org"))
    (Some (lit "555-0100"))
    (Some (JObj [(lit "allow_tech_info", JBool false);
                 (lit "bio", JStr (lit "loves hiking"))]))
    (lit "2025-01-15T18:30:00.250000").

(** The chat form with the message [hello], the save box ticked, submitted. *)
Definition hello (key : str) : ChatInput := mkChatInput key (lit "hello") true true [].

(** A key typed into the key field. *)
Definition demo_key : str := lit "sk-demo".

(** The request to the language model times out. *)
Definition timeout_env : Env := demo_env no_fault (HttpRaise RequestException).

(** The reply of the mock LBM to [ava] saying [hello]. *)
Definition ava_hello_reply : str :=
  join [c_newline; c_newline]
    [lit "Hi Ava, thanks for sharing that.";
     lit "I remember you said: " ++ [c_dquote] ++ lit "loves hiking" ++ [c_dquote]
       ++ lit " " ++ [c_emdash] ++ lit " I'll keep that in mind.";
     lit "Here's a thoughtful reply to your message:";
     lit "> hello";
     lit "Suggestion: try breaking the task into smaller steps. Which step would you like help with first?";
     lit "(This is a demo response from Assessli's prototype LBM " ++ [c_emdash]
       ++ lit " not medical or legal advice.)"].

(** The language model answers with a reply padded with blanks. *)
Definition answering_env : Env :=
  demo_env no_fault
    (HttpResponse 200
       (Some (JObj [(lit "choices",
                     JArr [JObj [(lit "message",
                                  JObj [(lit "role", JStr (lit "assistant"));
                                        (lit "content", JStr (lit "  Hello Ava!  "))])]])]))).

(** The language model is down: status 503 and a body that is not JSON. *)
Definition unavailable_env : Env := demo_env no_fault (HttpResponse 503 None).

(** A profile whose consent flag is [null] instead of a boolean. *)
Definition null_flag_user : User :=
  mkUser (lit "u-5") (Some (lit "Eve")) (Some (lit "e@x.com")) None
    (Some (JObj [(lit "allow_tech_info", JNull)])) (lit "2024-04-01T00:00:00").

(** The long prompt of the examples: 999 letters, then an ampersand. *)
Definition long_amp_prompt : str := repeat 97%N 999 ++ [c_amp].

(** A profile of scenario D. *)
Definition profile (id name created : string) : User :=
  mkUser (lit id) (Some (lit name)) (Some (lit "demo@example.org")) None
    (Some (JObj [(lit "bio", JStr (lit name))])) (lit created).

(** Three profiles saved out of order. *)
Definition three_profiles_saved : M unit :=
  save_user (demo_env no_fault (HttpRaise RequestException))
    (profile "u-2" "Bea" "2024-03-02T08:00:00") ;;;
  save_user (demo_env no_fault (HttpRaise RequestException))
    (profile "u-3" "Cy" "2024-03-03T08:00:00.500000") ;;;
  save_user (demo_env no_fault (HttpRaise RequestException))
    (profile "u-1" "Al" "2024-03-01T23:59:59").

(** The world after the three saves. *)
Definition three_profiles_world : World := snd (three_profiles_saved fresh_world).

(** A profile whose bio leaves the ASCII range. *)
Definition zoe : User :=
  mkUser (lit "u-zoe") (Some (lit "Zoe")) (Some (lit "zoe@example.org")) None
    (Some (JObj [(lit "bio", JStr (lit "caf" ++ [233; 32; 128512]%N));
                 (lit "allow_tech_info", JBool false);
                 (lit "sensitive_data_ack", JBool true)]))
    (lit "2024-06-01T12:00:00").

(** A row of the users table whose meta column holds the text [null]. *)
Definition null_meta_row : UserRow :=
  mkUserRow (lit "u-9") (Some (lit "Nil")) (Some (lit "n@x.com")) None
    (Some (lit "null")) (lit "2024-02-02T02:02:02").

(** The world whose users table holds that row alone. *)
Definition null_meta_world : World :=
  mkWorld (mkStore [null_meta_row] []) 0 0 0 [].

(** The profile read back from that row. *)
Definition nil_user : User :=
  mkUser (lit "u-9") (Some (lit "Nil")) (Some (lit "n@x.com")) None
    (Some JNull) (lit "2024-02-02T02:02:02").

(** A users table whose meta columns are NULL and the empty text. *)
Definition blank_meta_world : World :=
  mkWorld (mkStore [mkUserRow (lit "u-7") (Some (lit "Old")) None None None
                      (lit "2023-12-31T00:00:00");
                    mkUserRow (lit "u-8") (Some (lit "Odd")) None None (Some [])
                      (lit "2024-01-01T00:00:00")] []) 0 0 0 [].

(** ** Keys of the tables *)

(** The primary keys of the two tables. *)
Definition user_ids (w : World) : list str := map row_id (users (db w)).

Definition message_ids (w : World) : list str :=
  map conv_id (conversations (db w)).

(** The rows of the users table stored under [id]. *)
Definition rows_with_id (id : str) (w : World) : list UserRow :=
  filter (fun r => str_eqb (row_id r) id) (users (db w)).

(** ** Texts the echo leaves alone *)

(** A character [html.escape] rewrites. *)
Definition needs_escape (c : char) : bool :=
  ((c =? c_amp) || (c =? c_lt) || (c =? c_gt) || (c =? c_dquote)
   || (c =? c_squote))%N.

(** A text [html.escape] leaves as it is. *)
Definition plain_text (s : str) : bool := forallb (fun c => negb (needs_escape c)) s.

(** A text made of white space only. *)
Definition all_space (s : str) : bool := forallb py_isspace s.

(** ** More to read off a chat turn *)

(** The same forms with another text in the key field. *)
Definition with_key (k : str) (inp : ChatInput) : ChatInput :=
  mkChatInput k (prompt_text inp) (remember_pref inp) (submit inp)
    (browser_ua inp).

(** The rows a run added to the conversations table. *)
Definition added_rows (w w' : World) : list ConvRow :=
  skipn (length (conversations (db w))) (conversations (db w')).

(** The value has the method [get]. *)
Definition is_mapping (v : json) : bool :=
  match v with JObj _ => true | _ => false end.

(** Role and text of a stored message. *)
Definition role_and_text (r : ConvRow) : str * str :=
  (conv_role r, conv_message r).

(** The page holds no reply beyond those of [w]. *)
Definition no_new_reply (w w' : World) : Prop :=
  forall x, In (EvReply x) (ui w') -> In (EvReply x) (ui w).

(** One of the two warnings of the external call. *)
Definition is_warning (ev : ui_event) : bool :=
  match ev with
  | EvWarnStatus _ | EvWarnError _ => true
  | _ => false
  end.

(** The medium refuses the second write of the run. *)
Definition second_write_fails : nat -> option exn :=
  fun n => match n with 1 => Some OperationalError | _ => None end.

(** The chat form submitted with an empty message. *)
Definition empty_message : ChatInput := mkChatInput demo_key [] true true [].

(** The chat form with the message [hello] and the save box unticked. *)
Definition hello_unlogged : ChatInput :=
  mkChatInput [] (lit "hello") false true [].

(** ** The script around the chat (lines 156-208 and 289-364) *)

(** What the registration form holds when the script runs (lines 188-195). *)
Record RegisterInput : Type := mkRegisterInput {
  reg_name : str;
  reg_email : str;
  reg_phone : str;
  reg_bio : str;
  allow_cookies : bool;
  reject_sensitive : bool;
  submitted : bool
}.

(** The elements the script puts on the page outside the chat, one
    constructor per call site; [PgChat] wraps those of the chat.  An element
    that prints values holds the values, not the printed text. *)
Inductive page_event : Type :=
| PgTitle
| PgDemoNotice
| PgPrivacyHeader
| PgPrivacyText
| PgSidebarTitle
| PgRegisterSubheader
| PgRegisterError
| PgAccountCreated (user_id : str)
| PgWelcome (name : option str)
| PgUserNotFound
| PgTabs
| PgCreateOrLoad
| PgChat (ev : ui_event)
| PgProfileHeader
| PgProfileName (v : option str)
| PgProfileEmail (v : option str)
| PgProfilePhone (v : option str)
| PgProfileBio (v : json)
| PgNoProfile
| PgAdminHeader
| PgAdminNote
| PgSidebarAdmin
| PgUserCount (n : nat)
| PgUserLine (name email : option str) (created_at : str)
| PgRecentHeader
| PgConvLine (role user_id ts : str)
| PgConvText (message : str)
| PgCaption (text : str)
| PgRule
| PgSidebarRule
| PgSidebarCaption.

(** The state of a run of the script: the world of the chat, the entry
    [user_id] of [st.session_state] ([None] when the key is absent,
    [Some None] when it holds [None]) and the page so far. *)
Record App : Type := mkApp {
  world : World;
  session : option (option str);
  page : list page_event
}.

(** A run stops early on an exception and on [st.experimental_rerun()]. *)
Inductive stop : Type :=
| StopExn (e : exn)
| StopRerun.

Inductive run (A : Type) : Type :=
| Done (a : A)
| Stopped (s : stop).
Arguments Done {A} a.
Arguments Stopped {A} s.

Definition Script (A : Type) : Type := App -> run A * App.

Definition sret {A : Type} (a : A) : Script A := fun s => (Done a, s).

Definition sbind {A B : Type} (m : Script A) (k : A -> Script B) : Script B :=
  fun s =>
    match m s with
    | (Done a, s') => k a s'
    | (Stopped e, s') => (Stopped e, s')
    end.

Declare Scope script_scope.
Delimit Scope script_scope with script.
Notation "x <- m ;; k" := (sbind m (fun x => k))
  (at level 61, m at next level, right associativity) : script_scope.
Notation "m ;;; k" := (sbind m (fun _ => k))
  (at level 61, right associativity) : script_scope.
Local Open Scope script_scope.

Definition show (ev : page_event) : Script unit :=
  fun s => (Done tt, mkApp (world s) (session s) (page s ++ [ev])).

Definition set_session (v : option (option str)) : Script unit :=
  fun s => (Done tt, mkApp (world s) v (page s)).

Definition get_session : Script (option (option str)) :=
  fun s => (Done (session s), s).

(** The tables as a [SELECT] of the script finds them. *)
Definition get_db : Script Store :=
  fun s => (Done (db (world s)), s).

(** [st.experimental_rerun()] *)
Definition experimental_rerun {A : Type} : Script A :=
  fun s => (Stopped StopRerun, s).

Definition slift {A : Type} (r : result A) : Script A :=
  fun s => match r with
           | Ok a => (Done a, s)
           | Raise e => (Stopped (StopExn e), s)
           end.

(** A step of the chat model inside the script: the elements it adds to
    [ui] go to the page as well. *)
Definition in_world {A : Type} (m : M A) : Script A :=
  fun s =>
    let (r, w') := m (world s) in
    let s' := mkApp w' (session s)
                (page s ++ map PgChat (skipn (length (ui (world s))) (ui w'))) in
    match r with
    | Ok a => (Done a, s')
    | Raise e => (Stopped (StopExn e), s')
    end.

(** [for x in l: body(x)] *)
Fixpoint for_each {A : Type} (l : list A) (body : A -> Script unit)
  : Script unit :=
  match l with
  | [] => sret tt
  | x :: rest => body x ;;; for_each rest body
  end.

(** Lines 156-164. *)
Definition header : Script unit :=
  show PgTitle ;;; show PgDemoNotice.

(** Lines 166-184. *)
Definition privacy_and_consent : Script unit :=
  show PgPrivacyHeader ;;; show PgPrivacyText.

(** Lines 186-208. *)
Definition register_flow (env : Env) (inp : RegisterInput)
  : Script (option User) :=
  show PgRegisterSubheader ;;;
  if submitted inp then
    if negb (nonempty (reg_name inp)) || negb (nonempty (reg_email inp)) then
      show PgRegisterError ;;;
      sret None
    else
      user_id <- in_world (mint env) ;;
      created_at <- in_world (now env) ;;
      let meta := JObj [(lit "bio", JStr (reg_bio inp));
                        (lit "allow_tech_info", JBool (allow_cookies inp));
                        (lit "sensitive_data_ack", JBool (reject_sensitive inp))] in
      let user := mkUser user_id (Some (reg_name inp)) (Some (reg_email inp))
                    (Some (reg_phone inp)) (Some meta) created_at in
      in_world (save_user env user) ;;;
      show (PgAccountCreated user_id) ;;;
      set_session (Some (Some user_id)) ;;;
      sret (Some user)
  else sret None.

(** [ORDER BY ts DESC]: rows with equal keys stay in table order. *)
Fixpoint insert_ts_desc (r : ConvRow) (sorted : list ConvRow) : list ConvRow :=
  match sorted with
  | [] => [r]
  | y :: rest =>
      if str_leb (conv_ts y) (conv_ts r)
      then r :: y :: rest
      else y :: insert_ts_desc r rest
  end.

Definition order_by_ts_desc (rows : list ConvRow) : list ConvRow :=
  fold_right insert_ts_desc [] rows.

(** [SELECT ... FROM conversations ORDER BY ts DESC LIMIT 50] *)
Definition recent_conversations (s : Store) : list ConvRow :=
  firstn 50 (order_by_ts_desc (conversations s)).

(** What the buttons of the page hold when the script runs. *)
Record MainInput : Type := mkMainInput {
  register_form : RegisterInput;
  chat_form : ChatInput;
  log_out : bool;
  show_users : bool;
  show_recent : bool
}.

(** [not v] for the session entry: [None] and the empty text. *)
Definition no_user_id (v : option str) : bool :=
  match v with
  | Some (_ :: _) => false
  | _ => true
  end.

(** [user["meta"]] *)
Definition meta_item (user : User) : result json :=
  match user_meta user with
  | Some m => Ok m
  | None => Raise KeyError
  end.

Section Pages.

Variable py_repr : json -> str.

(** [str.upper], the interpreter's. *)
Variable py_upper : str -> str.

(** The small metadata preview of lines 304-308: no caption when the
    column does not decode. *)
Definition metadata_preview (r : ConvRow) : Script unit :=
  match load_meta (conv_metadata r) with
  | Ok md => show (PgCaption (json_dumps md))
  | Raise _ => sret tt
  end.

(** Lines 289-310. *)
Definition admin_panel (inp : MainInput) : Script unit :=
  show PgSidebarAdmin ;;;
  (if show_users inp then
     users <- in_world list_users ;;
     show (PgUserCount (length users)) ;;;
     for_each users (fun u =>
       show (PgUserLine (user_name u) (user_email u) (user_created_at u)))
   else sret tt) ;;;
  if show_recent inp then
    s <- get_db ;;
    let rows := recent_conversations s in
    show PgRecentHeader ;;;
    for_each rows (fun r =>
      show (PgConvLine (py_upper (conv_role r)) (conv_user_id r) (conv_ts r)) ;;;
      show (PgConvText (conv_message r)) ;;;
      metadata_preview r ;;;
      show PgRule)
  else sret tt.

(** Lines 315-364, from the connection [init_db] returns. *)
Definition main (env : Env) (inp : MainInput) : Script unit :=
  header ;;;
  privacy_and_consent ;;;
  show PgSidebarTitle ;;;
  present <- get_session ;;
  (match present with
   | None => set_session (Some None)
   | Some _ => sret tt
   end) ;;;
  entry <- get_session ;;
  let user_id := match entry with Some v => v | None => None end in
  user <- (if no_user_id user_id then
             user <- register_flow env (register_form inp) ;;
             match user with
             | Some u => show (PgWelcome (user_name u)) ;;; sret user
             | None => sret user
             end
           else
             user <- in_world (fetch_user
                                 (match user_id with Some i => i | None => [] end)) ;;
             match user with
             | None =>
                 show PgUserNotFound ;;;
                 set_session (Some None) ;;;
                 sret None
             | Some u => sret user
             end) ;;
  show PgTabs ;;;
  (match user with
   | None => show PgCreateOrLoad
   | Some u => in_world (companion_chat_ui py_repr env (chat_form inp) u)
   end) ;;;
  show PgProfileHeader ;;;
  (match user with
   | Some u =>
       show (PgProfileName (user_name u)) ;;;
       show (PgProfileEmail (user_email u)) ;;;
       show (PgProfilePhone (user_phone u)) ;;;
       meta <- slift (meta_item u) ;;
       bio <- slift (py_get meta (lit "bio") (JStr [])) ;;
       show (PgProfileBio bio) ;;;
       if log_out inp then
         set_session (Some None) ;;;
         experimental_rerun
       else sret tt
   | None => show PgNoProfile
   end) ;;;
  show PgAdminHeader ;;;
  show PgAdminNote ;;;
  admin_panel inp ;;;
  show PgSidebarRule ;;;
  show PgSidebarCaption.

End Pages.

(** The profile [register_flow] builds from the form, under a given id
    and creation time. *)
Definition new_account (inp : RegisterInput) (id created_at : str) : User :=
  mkUser id (Some (reg_name inp)) (Some (reg_email inp)) (Some (reg_phone inp))
    (Some (JObj [(lit "bio", JStr (reg_bio inp));
                 (lit "allow_tech_info", JBool (allow_cookies inp));
                 (lit "sensitive_data_ack", JBool (reject_sensitive inp))]))
    created_at.

(** The form is submitted with a name and an e-mail address. *)
Definition complete_form (inp : RegisterInput) : bool :=
  submitted inp && nonempty (reg_name inp) && nonempty (reg_email inp).

(** [conv_newer_or_same a b]: the time stamp of [a] is no earlier than
    that of [b], as texts. *)
Definition conv_newer_or_same (a b : ConvRow) : Prop :=
  str_leb (conv_ts b) (conv_ts a) = true.

(** What the admin view shows for one conversation row: no caption when
    the metadata column does not decode. *)
Definition conv_block (py_upper : str -> str) (r : ConvRow) : list page_event :=
  [PgConvLine (py_upper (conv_role r)) (conv_user_id r) (conv_ts r);
   PgConvText (conv_message r)]
  ++ match load_meta (conv_metadata r) with
     | Ok md => [PgCaption (json_dumps md)]
     | Raise _ => []
     end
  ++ [PgRule].

(** The meta column of a users row does not decode. *)
Definition bad_meta (r : UserRow) : Prop :=
  load_meta (row_meta r) = Raise JSONDecodeError.

(** What a run added to the page. *)
Definition new_page (a a' : App) : list page_event :=
  skipn (length (page a)) (page a').

(** The elements every run starts with: title, notices and side bar. *)
Definition opening : list page_event :=
  [PgTitle; PgDemoNotice; PgPrivacyHeader; PgPrivacyText; PgSidebarTitle].

(** The entry of the session names no account: it is absent, [None] or
    the empty text. *)
Definition logged_out (a : App) : bool :=
  no_user_id (match session a with Some v => v | None => None end).

Local Close Scope script_scope.

(** *** Data of the examples *)

(** [str.upper] on the letters a to z. *)
Definition upper_ascii (s : str) : str :=
  map (fun c => if ((97 <=? c) && (c <=? 122))%N then (c - 32)%N else c) s.

(** The registration form of Ava, consent to the address lookup withheld. *)
Definition sign_up : RegisterInput :=
  mkRegisterInput (lit "Ava") (lit "a@x.com") [] (lit "loves hiking")
    false true true.

(** The form sent without an e-mail address. *)
Definition sign_up_no_email : RegisterInput :=
  mkRegisterInput (lit "Ava") [] [] [] true true true.

(** A first run: new database, no session entry, empty page. *)
Definition fresh_app : App := mkApp fresh_world None [].

(** A run in which only the given buttons are pressed. *)
Definition buttons (reg : RegisterInput) (out users recent : bool) : MainInput :=
  mkMainInput reg (mkChatInput [] [] true false []) out users recent.

(** A conversation log whose first row has metadata that does not decode. *)
Definition log_app : App :=
  mkApp (mkWorld
           (mkStore []
              [mkConvRow (lit "m-1") (lit "u-ava") (lit "user") (lit "hi")
                 (Some (lit "{oops")) (lit "2024-05-01T10:00:00");
               mkConvRow (lit "m-2") (lit "u-ava") (lit "assistant")
                 (lit "hello")
                 (Some (json_dumps (JObj [(lit "generated_by", JStr mock_lbm)])))
                 (lit "2024-05-01T10:00:01")])
           0 0 0 [])
    None [].

(** ** What the chat adds to the page *)

(** What a run of the chat added to its part of the page. *)
Definition added_events (w w' : World) : list ui_event :=
  skipn (length (ui w)) (ui w').

(** ** Profiles the store can hold *)

(** The value is a number: SQLite keeps the text of a number as a number
    in a column declared [JSON], so that such a text is never what the
    column holds. *)
Definition is_number (v : json) : bool :=
  match v with JInt _ => true | _ => false end.

(** The profile [row_to_user] builds from a row and its decoded meta. *)
Definition profile_of_row (r : UserRow) (m : json) : User :=
  mkUser (row_id r) (row_name r) (row_email r) (row_phone r) (Some m)
    (row_created_at r).

(** A text column holds text SQLite can encode, or NULL. *)
Definition storable_text (o : option str) : bool :=
  match o with
  | Some s => scalar_text s
  | None => true
  end.

(** The text fields of a profile can be bound to the statement of
    [save_user]: [sqlite3] refuses a text with a surrogate code point. *)
Definition storable_fields (P : User) : bool :=
  scalar_text (user_id P) && storable_text (user_name P)
  && storable_text (user_email P) && storable_text (user_phone P)
  && scalar_text (user_created_at P).

(** CPython prints and reads integers of at most this many digits. *)
Definition int_max_str_digits : Z := 4300.

(** Every integer of the value can be printed by [json.dumps]. *)
Fixpoint ints_printable (v : json) : bool :=
  match v with
  | JInt z => (Z.abs z <? 10 ^ int_max_str_digits)%Z
  | JArr l => forallb ints_printable l
  | JObj m => forallb (fun kv => ints_printable (snd kv)) m
  | _ => true
  end.

(** A profile whose bio is the two surrogate code points U+D83D U+DE00. *)
Definition pair_bio_user : User :=
  mkUser (lit "u-pair") (Some (lit "Pia")) (Some (lit "p@x.com")) None
    (Some (JObj [(lit "bio", JStr [55357; 56832]%N)]))
    (lit "2024-07-01T00:00:00").

(** The same profile with the one code point U+1F600 for bio. *)
Definition joined_bio_user : User :=
  mkUser (lit "u-pair") (Some (lit "Pia")) (Some (lit "p@x.com")) None
    (Some (JObj [(lit "bio", JStr [128512]%N)]))
    (lit "2024-07-01T00:00:00").

(** * Properties *)

(** ** The echo of the reply generator *)

Lemma replace1_app c b s t :
  replace1 c b (s ++ t) = replace1 c b s ++ replace1 c b t.
Proof. unfold replace1. apply flat_map_app. Qed.

Lemma replace1_flat_map c b (f : char -> str) s :
  replace1 c b (flat_map f s) = flat_map (fun x => replace1 c b (f x)) s.
Proof.
  induction s as [|x s IH]; simpl.
  - reflexivity.
  - rewrite replace1_app, IH. reflexivity.
Qed.

Lemma replace1_single c b x :
  replace1 c b [x] = if (x =? c)%N then b else [x].
Proof. unfold replace1. simpl. apply app_nil_r. Qed.

(** The five replacements act on each character on its own. *)
Lemma escape_char_spec x :
  replace1 c_squote (lit "&#x27;")
    (replace1 c_dquote (lit "&quot;")
       (replace1 c_gt (lit "&gt;")
          (replace1 c_lt (lit "&lt;")
             (if (x =? c_amp)%N then lit "&amp;" else [x]))))
  = escape_char x.
Proof.
  unfold escape_char.
  destruct (N.eqb_spec x c_amp) as [->|Hamp]; [reflexivity|].
  rewrite replace1_single.
  destruct (N.eqb_spec x c_lt) as [->|Hlt]; [reflexivity|].
  rewrite replace1_single.
  destruct (N.eqb_spec x c_gt) as [->|Hgt]; [reflexivity|].
  rewrite replace1_single.
  destruct (N.eqb_spec x c_dquote) as [->|Hdq]; [reflexivity|].
  rewrite replace1_single.
  destruct (N.eqb_spec x c_squote) as [->|Hsq]; [reflexivity|].
  reflexivity.
Qed.

Lemma html_escape_flat_map s : html_escape s = flat_map escape_char s.
Proof.
  unfold html_escape.
  unfold replace1 at 5.
  rewrite !replace1_flat_map.
  apply flat_map_ext. intro x. apply escape_char_spec.
Qed.

Lemma only_escaped_escape s : only_escaped (flat_map escape_char s) = true.
Proof.
  induction s as [|x s IH]; simpl; [reflexivity|].
  unfold escape_char.
  destruct (N.eqb_spec x c_amp) as [->|Hamp]; [simpl; exact IH|].
  destruct (N.eqb_spec x c_lt) as [->|Hlt]; [simpl; exact IH|].
  destruct (N.eqb_spec x c_gt) as [->|Hgt]; [simpl; exact IH|].
  destruct (N.eqb_spec x c_dquote) as [->|Hdq]; [simpl; exact IH|].
  destruct (N.eqb_spec x c_squote) as [->|Hsq]; [simpl; exact IH|].
  simpl.
  apply N.eqb_neq in Hamp, Hlt, Hgt.
  rewrite Hamp, Hlt, Hgt. simpl. exact IH.
Qed.

Lemma only_escaped_html_escape s : only_escaped (html_escape s) = true.
Proof. rewrite html_escape_flat_map. apply only_escaped_escape. Qed.

(** A text that passes [only_escaped] has no < and no >. *)
Lemma only_escaped_no_markup s c :
  only_escaped s = true -> In c s -> c <> c_lt /\ c <> c_gt.
Proof.
  induction s as [|x s IH]; simpl; [intros _ []|].
  intros H [->|Hin].
  - apply andb_prop in H as [H _].
    destruct (N.eqb_spec c c_lt) as [->|Hlt]; [discriminate|].
    destruct (N.eqb_spec c c_gt) as [->|Hgt]; [discriminate|].
    split; assumption.
  - apply andb_prop in H as [_ H]. apply IH; assumption.
Qed.

Lemma In_firstn {A : Type} (x : A) n l : In x (firstn n l) -> In x l.
Proof.
  revert l; induction n as [|n IH]; intros [|y l]; simpl; try tauto.
  intros [->|H]; [left; reflexivity | right; apply IH; exact H].
Qed.

Lemma sanitized_prefix prompt :
  html_escape (strip prompt)
  = sanitized prompt ++ skipn 1000 (html_escape (strip prompt)).
Proof. unfold sanitized. symmetry. apply firstn_skipn. Qed.

Lemma sanitized_length prompt : length (sanitized prompt) <= 1000.
Proof. unfold sanitized. apply firstn_le_length. Qed.

Lemma escape_char_nonempty x : 1 <= length (escape_char x).
Proof.
  unfold escape_char.
  repeat match goal with |- context [if ?b then _ else _] => destruct b end;
    simpl; lia.
Qed.

Lemma html_escape_length s : length s <= length (html_escape s).
Proof.
  rewrite html_escape_flat_map.
  induction s as [|x s IH]; simpl; [lia|].
  rewrite length_app. pose proof (escape_char_nonempty x). lia.
Qed.

(** A prompt whose trimmed form is long fills the echo completely. *)
Lemma sanitized_length_exact prompt :
  1000 <= length (strip prompt) -> length (sanitized prompt) = 1000.
Proof.
  intro H. unfold sanitized. apply firstn_length_le.
  pose proof (html_escape_length (strip prompt)). lia.
Qed.




(** C6: when the trimmed input is longer than 1000 characters, the echoed
    text, the part of the echo line after its ["> "] prefix, has at most
    1000 characters. *)
Theorem echo_at_most_1000 (prompt : str) :
  1000 < length (strip prompt) ->
  echo_line prompt = lit "> " ++ sanitized prompt
  /\ length (sanitized prompt) <= 1000.
Proof.
  intros _. split; [reflexivity | apply sanitized_length].
Qed.

(** C6 at an input of 1001 characters. *)
Lemma echo_at_most_1000_witness :
  echo_line (repeat 60%N 1001) = lit "> " ++ sanitized (repeat 60%N 1001)
  /\ length (sanitized (repeat 60%N 1001)) <= 1000.
Proof. apply (echo_at_most_1000 (repeat 60%N 1001)). vm_compute. lia. Defined.

(** ** The chat turn *)

Section TurnProperties.
Variable py_repr : json -> str.

(** Reduce the projections of worlds, stores and messages. *)
Ltac proj :=
  cbn [db writes minted ticks ui fst snd users conversations
       msg_id msg_user_id msg_role msg_message msg_metadata msg_ts].

(** Case analysis on the primary-key test of the goal. *)
Ltac destruct_existsb :=
  match goal with
  | |- context [existsb ?f ?l] => destruct (existsb f l)
  end.

(** Close a branch in which the run ends in an exception. *)
Ltac no_reply :=
  cbn [fst snd];
  repeat split;
  let t := fresh "t" in let H := fresh "H" in
  intros t H; discriminate H.

(** Unfold the monad and the store operations of a turn. *)
Ltac run_turn :=
  unfold bind, emit, mint, now, ret, lift, raise, save_message, write_stmt,
    set_db, detect_tech_info;
  cbn [db writes minted ticks ui fst snd users conversations
       msg_id msg_user_id msg_role msg_message msg_metadata msg_ts].

(** Obtaining the reply touches nothing but the page. *)
Lemma obtain_reply_events env inp user w :
  exists r evs, obtain_reply py_repr env inp user w = (r, add_events evs w).
Proof.
  destruct w as [d wr mi ti u]. unfold obtain_reply, try_except, add_events.
  destruct (nonempty (openai_key inp)).
  2:{ exists (mock_lbm_response py_repr user (prompt_text inp)), []. run_turn.
      rewrite app_nil_r. reflexivity. }
  run_turn.
  destruct (openai_post _ _ _) as [e|status body]; proj.
  - eexists _, [_; _]. rewrite <- app_assoc. reflexivity.
  - destruct (status =? 200)%Z; proj.
    + destruct body as [resp|]; proj.
      * destruct (response_text resp) as [t|e]; proj.
        -- eexists _, [_]. reflexivity.
        -- eexists _, [_; _]. rewrite <- app_assoc. reflexivity.
      * eexists _, [_; _]. rewrite <- app_assoc. reflexivity.
    + destruct (mock_lbm_response py_repr user (prompt_text inp)) as [t|e]; proj.
      * eexists _, [_; _]. rewrite <- app_assoc. reflexivity.
      * eexists _, [_; _; _]. rewrite <- !app_assoc. reflexivity.
Qed.

(** When the external call fails, the text is the one of the mock LBM. *)
Lemma obtain_reply_fallback env inp user w :
  nonempty (openai_key inp) = true ->
  ext_fails (openai_post env (openai_key inp) (openai_content user (prompt_text inp))) ->
  exists evs,
    obtain_reply py_repr env inp user w
    = (mock_lbm_response py_repr user (prompt_text inp), add_events evs w).
Proof.
  intros Hkey Hfail. destruct w as [d wr mi ti u].
  unfold obtain_reply, try_except, add_events. rewrite Hkey. run_turn.
  destruct (openai_post _ _ _) as [e|status body]; cbn [ext_fails] in Hfail; proj.
  - eexists [_; _]. rewrite <- app_assoc. reflexivity.
  - destruct (Z.eqb_spec status 200) as [->|Hne]; proj.
    + destruct Hfail as [H|[->|(resp & e & -> & Hr)]]; [congruence| |]; proj.
      * eexists [_; _]. rewrite <- app_assoc. reflexivity.
      * rewrite Hr. proj. eexists [_; _]. rewrite <- app_assoc. reflexivity.
    + destruct (mock_lbm_response py_repr user (prompt_text inp)) as [t|e] eqn:Hm; proj.
      * eexists [_; _]. rewrite <- app_assoc. reflexivity.
      * eexists [_; _; _]. rewrite <- !app_assoc. reflexivity.
Qed.

(** Without a key the mock LBM answers and the page is left alone. *)
Lemma obtain_reply_without_key env inp user w :
  obtain_reply py_repr env (without_key inp) user w
  = (mock_lbm_response py_repr user (prompt_text inp), w).
Proof. reflexivity. Qed.

(** A page that ends with a reply shows it. *)
Lemma shown_reply_last d n m t l x :
  shown_reply (mkWorld d n m t (l ++ [EvReply x])) = Some x.
Proof. unfold shown_reply; simpl. rewrite last_last. reflexivity. Qed.

(** The technical-context step leaves the store and the counters alone. *)
Lemma tech_step allow env inp w :
  exists tech evs,
    (if truthy allow then detect_tech_info env inp else ret (JObj [])) w
    = (Ok tech, add_events evs w).
Proof.
  destruct w as [d wr mi ti u]. unfold add_events. destruct (truthy allow).
  - run_turn. eexists _, [_]. reflexivity.
  - run_turn. eexists _, []. rewrite app_nil_r. reflexivity.
Qed.

(** With a key supplied and the external call failing, the turn ends as
    the turn without a key ends. *)
Lemma failing_call_same_outcome env inp user w :
  nonempty (openai_key inp) = true ->
  ext_fails (openai_post env (openai_key inp) (openai_content user (prompt_text inp))) ->
  fst (companion_chat_ui py_repr env inp user w)
  = fst (companion_chat_ui py_repr env (without_key inp) user w)
  /\ turn_output (companion_chat_ui py_repr env inp user w)
     = turn_output (companion_chat_ui py_repr env (without_key inp) user w)
  /\ (forall t,
        turn_output (companion_chat_ui py_repr env inp user w) = Some t ->
        mock_lbm_response py_repr user (prompt_text inp) = Ok t).
Proof.
  intros Hkey Hfail.
  unfold turn_output, companion_chat_ui.
  change (submit (without_key inp)) with (submit inp).
  change (prompt_text (without_key inp)) with (prompt_text inp).
  change (remember_pref (without_key inp)) with (remember_pref inp).
  change (detect_tech_info env (without_key inp)) with (detect_tech_info env inp).
  destruct w as [d wr mi ti u].
  destruct (submit inp && nonempty (prompt_text inp)).
  2:{ unfold bind, emit, ret, shown_reply. proj. rewrite last_last.
      repeat split. intros t Ht. discriminate Ht. }
  unfold bind, emit, lift. proj.
  destruct (py_get (get_meta user) (lit "allow_tech_info") (JBool true))
    as [allow|e]; [|no_reply].
  match goal with |- context [(if truthy allow then _ else _) ?W] =>
    destruct (tech_step allow env inp W) as (tech & evs & ->) end.
  unfold add_events. run_turn.
  destruct (remember_pref inp); run_turn.
  - destruct (write_fault env wr) as [e|]; [no_reply|].
    destruct_existsb; [no_reply|].
    match goal with |- context [obtain_reply py_repr env inp user ?W] =>
      destruct (obtain_reply_fallback env inp user W Hkey Hfail) as [evs' ->] end.
    rewrite obtain_reply_without_key. unfold add_events.
    destruct (mock_lbm_response py_repr user (prompt_text inp)) as [text|e];
      [|no_reply].
    run_turn.
    destruct (write_fault env (S wr)) as [e|]; [no_reply|].
    destruct_existsb; [no_reply|].
    cbn [fst snd]. rewrite !shown_reply_last.
    repeat split. intros t [= <-]. reflexivity.
  - match goal with |- context [obtain_reply py_repr env inp user ?W] =>
      destruct (obtain_reply_fallback env inp user W Hkey Hfail) as [evs' ->] end.
    rewrite obtain_reply_without_key. unfold add_events.
    destruct (mock_lbm_response py_repr user (prompt_text inp)) as [text|e];
      [|no_reply].
    run_turn.
    destruct (write_fault env wr) as [e|]; [no_reply|].
    destruct_existsb; [no_reply|].
    cbn [fst snd]. rewrite !shown_reply_last.
    repeat split. intros t [= <-]. reflexivity.
Qed.

Lemma existsb_snoc {A : Type} (f : A -> bool) l x :
  existsb f (l ++ [x]) = existsb f l || f x.
Proof. rewrite existsb_app. cbn [existsb]. rewrite orb_false_r. reflexivity. Qed.

(** With a key supplied and the external call failing, a turn whose writes
    go through ends normally with the local reply on the page. *)
Lemma failing_call_reply_shown env inp user d w :
  nonempty (openai_key inp) = true ->
  ext_fails (openai_post env (openai_key inp) (openai_content user (prompt_text inp))) ->
  submit inp && nonempty (prompt_text inp) = true ->
  get_meta user = JObj d ->
  storage_accepts env inp w = true ->
  exists t,
    mock_lbm_response py_repr user (prompt_text inp) = Ok t
    /\ fst (companion_chat_ui py_repr env inp user w) = Ok tt
    /\ turn_output (companion_chat_ui py_repr env inp user w) = Some t.
Proof.
  intros Hkey Hfail Hsub Hmeta Hstore.
  assert (Hmock : exists t, mock_lbm_response py_repr user (prompt_text inp) = Ok t).
  { unfold mock_lbm_response. rewrite Hmeta. cbn [py_get rbind]. eexists. reflexivity. }
  destruct Hmock as [t Hmock]. exists t. split; [exact Hmock|].
  unfold turn_output, companion_chat_ui, storage_accepts, accepts in *.
  rewrite Hsub, Hmeta.
  destruct w as [s wr mi ti u]. cbn [db writes minted ticks ui] in Hstore.
  unfold bind, emit, lift, py_get. proj.
  match goal with |- context [(if truthy ?a then _ else _) ?W] =>
    destruct (tech_step a env inp W) as (tech & evs & ->) end.
  unfold add_events. run_turn.
  destruct (remember_pref inp); run_turn.
  - destruct (write_fault env wr); [discriminate Hstore|]. proj.
    destruct (existsb _ (conversations s)) eqn:H1 in Hstore; [discriminate Hstore|].
    rewrite H1. proj.
    match goal with |- context [obtain_reply py_repr env inp user ?W] =>
      destruct (obtain_reply_fallback env inp user W Hkey Hfail) as [evs' ->] end.
    rewrite Hmock. unfold add_events. run_turn.
    destruct (write_fault env (S wr)); [discriminate Hstore|]. proj.
    rewrite existsb_snoc. cbn [conv_id].
    destruct (existsb _ (conversations s)) eqn:H2 in Hstore; [discriminate Hstore|].
    rewrite H2.
    destruct (str_eqb (uuid4 env mi) (uuid4 env (S mi))); [discriminate Hstore|].
    cbn [orb fst snd]. rewrite shown_reply_last. split; reflexivity.
  - match goal with |- context [obtain_reply py_repr env inp user ?W] =>
      destruct (obtain_reply_fallback env inp user W Hkey Hfail) as [evs' ->] end.
    rewrite Hmock. unfold add_events. run_turn.
    destruct (write_fault env wr); [discriminate Hstore|]. proj.
    destruct (existsb _ (conversations s)) eqn:H2 in Hstore; [discriminate Hstore|].
    rewrite H2. cbn [fst snd]. rewrite shown_reply_last. split; reflexivity.
Qed.

(** C7: with a key supplied and the external call failing in any way (the
    request raises on a network error or a timeout, the status is not 200,
    the body is not JSON or lacks the reply text), the turn ends as the turn
    without a key ends, with the same outcome and the same text on the page,
    and a text on the page is the output of the local reply generator.  The
    failure of the service costs no output: for a profile whose meta is a
    mapping and a store that takes the writes of the turn, the submitted
    turn ends normally and shows the reply of the local generator. *)
Theorem external_failure_falls_back env inp user w :
  nonempty (openai_key inp) = true ->
  ext_fails (openai_post env (openai_key inp) (openai_content user (prompt_text inp))) ->
  fst (companion_chat_ui py_repr env inp user w)
  = fst (companion_chat_ui py_repr env (without_key inp) user w)
  /\ turn_output (companion_chat_ui py_repr env inp user w)
     = turn_output (companion_chat_ui py_repr env (without_key inp) user w)
  /\ (forall t,
        turn_output (companion_chat_ui py_repr env inp user w) = Some t ->
        mock_lbm_response py_repr user (prompt_text inp) = Ok t)
  /\ (forall d,
        submit inp && nonempty (prompt_text inp) = true ->
        get_meta user = JObj d ->
        storage_accepts env inp w = true ->
        exists t,
          mock_lbm_response py_repr user (prompt_text inp) = Ok t
          /\ fst (companion_chat_ui py_repr env inp user w) = Ok tt
          /\ turn_output (companion_chat_ui py_repr env inp user w) = Some t).
Proof.
  intros Hkey Hfail.
  destruct (failing_call_same_outcome env inp user w Hkey Hfail) as (H1 & H2 & H3).
  split; [exact H1|]. split; [exact H2|]. split; [exact H3|].
  intros d Hsub Hmeta Hstore.
  exact (failing_call_reply_shown env inp user d w Hkey Hfail Hsub Hmeta Hstore).
Qed.

(** C3, amended: with the save box ticked, a failure of [save_message] on
    the user message (the medium refuses the write, or the id is already
    taken) aborts the turn: the exception reaches the caller, no reply is
    shown, the store is unchanged, and the page holds the set-up events
    only, so no warning and no reply. *)
Theorem user_save_failure_aborts_turn env inp user d w e :
  get_meta user = JObj d ->
  submit inp && nonempty (prompt_text inp) = true ->
  remember_pref inp = true ->
  (write_fault env (writes w) = Some e
   \/ (write_fault env (writes w) = None /\ id_taken env w = true
       /\ e = IntegrityError)) ->
  fst (companion_chat_ui py_repr env inp user w) = Raise e
  /\ turn_output (companion_chat_ui py_repr env inp user w) = None
  /\ db (snd (companion_chat_ui py_repr env inp user w)) = db w
  /\ exists evs,
       ui (snd (companion_chat_ui py_repr env inp user w)) = ui w ++ evs
       /\ forall ev, In ev evs -> setup_event ev.
Proof.
  intros Hmeta Hsub Hpref Hfail.
  unfold turn_output, companion_chat_ui, id_taken in *. rewrite Hsub, Hmeta, Hpref.
  destruct w as [s wr mi ti u]. cbn [db writes minted ticks ui] in Hfail.
  unfold bind, emit, lift, py_get. proj.
  match goal with |- context [(if truthy ?a then _ else _) ?W] =>
    assert (Ht : exists tech evs,
              (if truthy a then detect_tech_info env inp else ret (JObj [])) W
              = (Ok tech, add_events evs W)
              /\ forall ev, In ev evs -> ev = EvDetecting);
    [ destruct (truthy a); run_turn; unfold add_events; proj;
      [ eexists _, [_]; split; [reflexivity|];
        intros ev [<-|[]]; reflexivity
      | eexists _, []; rewrite app_nil_r; split; [reflexivity|]; intros ev [] ]
    | destruct Ht as (tech & evs & -> & Hevs) ] end.
  unfold add_events. run_turn.
  assert (Hui : exists evs0,
            (((u ++ [EvHeader]) ++ [EvIntro]) ++ [EvKeyInfo]) ++ evs = u ++ evs0
            /\ forall ev, In ev evs0 -> setup_event ev).
  { exists ([EvHeader; EvIntro; EvKeyInfo] ++ evs). split.
    - rewrite <- !app_assoc. reflexivity.
    - intros ev Hin. apply in_app_or in Hin as [Hin|Hin].
      + unfold setup_event. simpl in Hin. intuition.
      + right; right; right. apply Hevs, Hin. }
  destruct Hfail as [Hf|(Hf & Hid & ->)]; rewrite Hf; proj.
  - repeat split; try reflexivity. exact Hui.
  - rewrite Hid. proj. repeat split; try reflexivity. exact Hui.
Qed.

Lemma nth_error_snoc {A : Type} (l : list A) x :
  nth_error (l ++ [x]) (length l) = Some x.
Proof. rewrite nth_error_app2, Nat.sub_diag by lia. reflexivity. Qed.

Lemma nth_error_snoc2 {A : Type} (l : list A) x y :
  nth_error ((l ++ [x]) ++ [y]) (length l) = Some x.
Proof.
  rewrite nth_error_app1 by (rewrite length_app; simpl; lia).
  apply nth_error_snoc.
Qed.

Lemma captured_tech_nonempty env inp : captured_tech env inp <> JObj [].
Proof. discriminate. Qed.

(** C9, amended: when the user message is stored, its metadata is
    [{"tech": tech}], and [tech] follows the truth value of the flag, read
    with the default [True]: the captured context, the non-empty mapping
    with the entries [ip] and [browser], when the flag is absent or holds
    a true value, exactly as when it holds [true]; the empty mapping when
    it holds [false] or any other false value ([null], [0], an empty text,
    list or mapping). *)
Theorem absent_flag_captures_tech env inp user d w :
  get_meta user = JObj d ->
  submit inp && nonempty (prompt_text inp) = true ->
  remember_pref inp = true ->
  write_fault env (writes w) = None ->
  id_taken env w = false ->
  exists row tech,
    nth_error (conversations (db (snd (companion_chat_ui py_repr env inp user w))))
      (length (conversations (db w))) = Some row
    /\ conv_role row = role_user
    /\ conv_metadata row = Some (json_dumps (JObj [(lit "tech", tech)]))
    /\ tech = (if truthy (dict_get_default d flag_key (JBool true))
               then captured_tech env inp else JObj [])
    /\ (dict_get d flag_key = None \/ dict_get d flag_key = Some (JBool true) ->
        tech = captured_tech env inp)
    /\ (dict_get d flag_key = Some (JBool false) -> tech = JObj [])
    /\ (forall v, dict_get d flag_key = Some v ->
                  (tech = JObj [] <-> truthy v = false))
    /\ captured_tech env inp <> JObj [].
Proof.
  intros Hmeta Hsub Hpref Hfault Hid.
  unfold companion_chat_ui, id_taken in *. rewrite Hsub, Hmeta, Hpref.
  destruct w as [s wr mi ti u]. cbn [db writes minted ticks ui] in Hfault, Hid.
  unfold bind, emit, lift, py_get. proj.
  set (allow := dict_get_default d (lit "allow_tech_info") (JBool true)).
  set (tech := if truthy allow then captured_tech env inp else JObj []).
  match goal with |- context [(if truthy allow then _ else _) ?W] =>
    assert (Ht : exists evs,
              (if truthy allow then detect_tech_info env inp else ret (JObj [])) W
              = (Ok tech, add_events evs W));
    [ subst tech; destruct (truthy allow); run_turn; unfold add_events; proj;
      [ eexists [_]; reflexivity
      | eexists []; rewrite app_nil_r; reflexivity ]
    | destruct Ht as (evs & ->) ] end.
  unfold add_events. run_turn. rewrite Hfault, Hid. proj.
  match goal with |- context [obtain_reply py_repr env inp user ?W] =>
    destruct (obtain_reply_events env inp user W) as (r & evs' & ->) end.
  unfold add_events. proj.
  eexists _, tech.
  split; [|split; [|split; [|split; [|split; [|split; [|split]]]]]].
  - destruct r as [text|e]; proj; [|apply nth_error_snoc].
    destruct (write_fault env (S wr)); proj; [apply nth_error_snoc|].
    destruct_existsb; proj; [apply nth_error_snoc|apply nth_error_snoc2].
  - reflexivity.
  - reflexivity.
  - reflexivity.
  - subst tech allow. unfold dict_get_default, flag_key.
    intros [->| ->]; reflexivity.
  - subst tech allow. unfold dict_get_default, flag_key.
    intros ->; reflexivity.
  - subst tech allow. unfold dict_get_default, flag_key.
    intros v ->. destruct (truthy v); split; intro H;
      try reflexivity; discriminate H.
  - apply captured_tech_nonempty.
Qed.

(** On a completed turn the label of the stored reply follows the key field. *)
Lemma generated_by_follows_key env inp user w :
  submit inp && nonempty (prompt_text inp) = true ->
  fst (companion_chat_ui py_repr env inp user w) = Ok tt ->
  exists row,
    last (conversations (db (snd (companion_chat_ui py_repr env inp user w))))
      (mkConvRow [] [] [] [] None []) = row
    /\ conv_role row = role_assistant
    /\ turn_output (companion_chat_ui py_repr env inp user w) = Some (conv_message row)
    /\ generated_by row
       = Some (JStr (if nonempty (openai_key inp) then openai_proxy else mock_lbm)).
Proof.
  intros Hsub. unfold turn_output, companion_chat_ui. rewrite Hsub.
  destruct w as [s wr mi ti u].
  unfold bind, emit, lift. proj.
  destruct (py_get (get_meta user) (lit "allow_tech_info") (JBool true))
    as [allow|e]; [|discriminate].
  match goal with |- context [(if truthy allow then _ else _) ?W] =>
    destruct (tech_step allow env inp W) as (tech & evs & ->) end.
  unfold add_events. run_turn.
  assert (Hlabel : forall key,
    generated_by_text key
    = Some (JStr (if nonempty key then openai_proxy else mock_lbm))).
  { intros [|c key]; reflexivity. }
  destruct (remember_pref inp); proj.
  - destruct (write_fault env wr) as [e|]; proj; [discriminate|].
    destruct_existsb; proj; [discriminate|].
    match goal with |- context [obtain_reply py_repr env inp user ?W] =>
      destruct (obtain_reply_events env inp user W) as (r & evs' & ->) end.
    unfold add_events. proj.
    destruct r as [text|e]; proj; [|discriminate].
    destruct (write_fault env (S wr)) as [e|]; proj; [discriminate|].
    destruct_existsb; proj; [discriminate|].
    intros _. eexists. split; [reflexivity|].
    rewrite last_last, shown_reply_last. cbn [conv_role conv_message].
    repeat split. apply Hlabel.
  - match goal with |- context [obtain_reply py_repr env inp user ?W] =>
      destruct (obtain_reply_events env inp user W) as (r & evs' & ->) end.
    unfold add_events. proj.
    destruct r as [text|e]; proj; [|discriminate].
    destruct (write_fault env wr) as [e|]; proj; [discriminate|].
    destruct_existsb; proj; [discriminate|].
    intros _. eexists. split; [reflexivity|].
    rewrite last_last, shown_reply_last. cbn [conv_role conv_message].
    repeat split. apply Hlabel.
Qed.

End TurnProperties.

Section ReplyProperties.
Variable py_repr : json -> str.

(** C4: the reply is a function of the profile and the input alone.  Two
    profiles with the same display name and the same bio get the same reply
    to the same input, whatever their ids and creation times, and the reply
    generated in a turn without a key is the same under any two
    environments (identifiers, clock, network) and any two worlds (store,
    counters, page); two calls with the same profile are the special case
    [P1 = P2]. *)
Theorem mock_lbm_response_deterministic (P1 P2 : User) (s : str) :
  display_name P1 = display_name P2 ->
  py_get (get_meta P1) (lit "bio") (JStr []) = py_get (get_meta P2) (lit "bio") (JStr []) ->
  mock_lbm_response py_repr P1 s = mock_lbm_response py_repr P2 s
  /\ forall (env1 env2 : Env) (inp : ChatInput) (w1 w2 : World),
       prompt_text inp = s ->
       fst (obtain_reply py_repr env1 (without_key inp) P1 w1)
       = fst (obtain_reply py_repr env2 (without_key inp) P2 w2).
Proof.
  intros Hname Hbio.
  assert (H : mock_lbm_response py_repr P1 s = mock_lbm_response py_repr P2 s).
  { unfold mock_lbm_response. rewrite Hname, Hbio. reflexivity. }
  split; [exact H|].
  intros env1 env2 inp w1 w2 <-. exact H.
Qed.

End ReplyProperties.

(** C4 at two accounts of the same person. *)
Lemma mock_lbm_response_deterministic_witness :
  mock_lbm_response repr_unused ava (lit "hello")
  = mock_lbm_response repr_unused ava_later (lit "hello")
  /\ forall (env1 env2 : Env) (inp : ChatInput) (w1 w2 : World),
       prompt_text inp = lit "hello" ->
       fst (obtain_reply repr_unused env1 (without_key inp) ava w1)
       = fst (obtain_reply repr_unused env2 (without_key inp) ava_later w2).
Proof.
  apply (mock_lbm_response_deterministic repr_unused ava ava_later (lit "hello"));
    reflexivity.
Defined.

(** C7 at a request that times out: the turn ends normally and shows the
    reply of the local generator, as the turn without a key does. *)
Lemma external_failure_falls_back_witness :
  fst (companion_chat_ui repr_unused timeout_env (hello demo_key) ava fresh_world)
  = Ok tt
  /\ turn_output (companion_chat_ui repr_unused timeout_env (hello demo_key) ava fresh_world)
     = Some ava_hello_reply
  /\ turn_output (companion_chat_ui repr_unused timeout_env (hello demo_key) ava fresh_world)
     = turn_output (companion_chat_ui repr_unused timeout_env (without_key (hello demo_key)) ava fresh_world).
Proof.
  destruct (external_failure_falls_back repr_unused timeout_env (hello demo_key)
              ava fresh_world eq_refl I) as (_ & Hsame & _ & Hshown).
  destruct (Hshown [(lit "bio", JStr (lit "loves hiking"))] eq_refl eq_refl eq_refl)
    as (t & Ht & Hok & Hout).
  assert (Hreply : t = ava_hello_reply).
  { vm_compute in Ht. injection Ht as <-. vm_compute. reflexivity. }
  subst t. split; [exact Hok|]. split; [exact Hout | exact Hsame].
Defined.

(** Scenario A: the reply greets Ava, quotes her bio and echoes the input. *)
Example scenario_a : mock_lbm_response repr_unused ava (lit "hello") = Ok ava_hello_reply.
Proof. reflexivity. Qed.

(** Scenario B: a turn without a key shows the reply and stores one user
    and one assistant message. *)
Example no_key_turn_replies :
  turn_output (companion_chat_ui repr_unused timeout_env (hello []) ava fresh_world)
  = Some ava_hello_reply
  /\ map conv_role (conversations (db (snd (companion_chat_ui repr_unused timeout_env (hello []) ava fresh_world))))
     = [role_user; role_assistant].
Proof. vm_compute. split; reflexivity. Qed.

(** The same turn when the language model answers: its text, trimmed, is
    shown and stored under the label of the external path. *)
Example external_reply_labelled_openai_proxy :
  turn_output (companion_chat_ui repr_unused answering_env (hello demo_key) ava fresh_world)
  = Some (lit "Hello Ava!")
  /\ map (fun r => (conv_role r, conv_message r, generated_by r))
       (conversations (db (snd (companion_chat_ui repr_unused answering_env (hello demo_key) ava fresh_world))))
     = [(role_user, lit "hello", None);
        (role_assistant, lit "Hello Ava!", Some (JStr openai_proxy))].
Proof. vm_compute. split; reflexivity. Qed.

(** A status other than 200 falls back as well, with a warning on the page. *)
Example unavailable_falls_back :
  companion_chat_ui repr_unused unavailable_env (hello demo_key) ava fresh_world
  = (Ok tt,
     mkWorld
       (mkStore []
          [mkConvRow (lit "msg-0") (lit "u-ava") role_user (lit "hello")
             (Some (json_dumps (JObj [(lit "tech", captured_tech unavailable_env (hello demo_key))])))
             (lit "2024-05-01T10:00:00");
           mkConvRow (lit "msg-1") (lit "u-ava") role_assistant ava_hello_reply
             (Some (json_dumps (JObj [(lit "generated_by", JStr openai_proxy)])))
             (lit "2024-05-01T10:00:01")])
       2 2 2
       [EvHeader; EvIntro; EvKeyInfo; EvDetecting; EvCallingOpenAI;
        EvWarnStatus 503; EvCompanionLabel; EvReply ava_hello_reply]).
Proof. vm_compute. reflexivity. Qed.

(** The flag is tested for truth: a [null] flag skips the capture as [false]
    does. *)
Example null_flag_skips_capture :
  map conv_metadata
    (conversations (db (snd (companion_chat_ui repr_unused timeout_env (hello []) null_flag_user fresh_world))))
  = [Some (json_dumps (JObj [(lit "tech", JObj [])]));
     Some (json_dumps (JObj [(lit "generated_by", JStr mock_lbm)]))].
Proof. vm_compute. reflexivity. Qed.

(** C1, at the failing input: a key is supplied and the request to the
    language model times out.  The reply on the page and in the stored
    assistant message is the output of the local reply generator, yet the
    stored [metadata.generated_by] is ["openai_proxy"], the label of the
    external path, where the claim asks for the label of the local one. *)
Theorem fallback_reply_labelled_openai_proxy :
  mock_lbm_response repr_unused ava (lit "hello") = Ok ava_hello_reply
  /\ turn_output (companion_chat_ui repr_unused timeout_env (hello demo_key) ava fresh_world)
     = Some ava_hello_reply
  /\ map (fun r => (conv_role r, conv_message r, generated_by r))
       (conversations (db (snd (companion_chat_ui repr_unused timeout_env (hello demo_key) ava fresh_world))))
     = [(role_user, lit "hello", None);
        (role_assistant, ava_hello_reply, Some (JStr openai_proxy))].
Proof. vm_compute. repeat split; reflexivity. Qed.

(** C3, as stated, at a store that refuses the first write: with the save
    box ticked, the failure of [save_message] on the user message ends the
    turn with that exception; the reply generator, which would have
    answered, is not run, nothing is shown and nothing is stored. *)
Lemma user_save_failure_counterexample :
  remember_pref (hello []) = true
  /\ mock_lbm_response repr_unused ava (lit "hello") = Ok ava_hello_reply
  /\ companion_chat_ui repr_unused (demo_env first_write_fails (HttpRaise RequestException))
       (hello []) ava fresh_world
     = (Raise OperationalError,
        mkWorld empty_store 1 1 1 [EvHeader; EvIntro; EvKeyInfo; EvDetecting])
  /\ turn_output (companion_chat_ui repr_unused
                    (demo_env first_write_fails (HttpRaise RequestException))
                    (hello []) ava fresh_world) = None.
Proof. vm_compute. repeat split; reflexivity. Qed.

(** C3, amended, at the store that refuses the first write. *)
Lemma user_save_failure_aborts_turn_witness :
  fst (companion_chat_ui repr_unused (demo_env first_write_fails (HttpRaise RequestException))
         (hello []) ava fresh_world) = Raise OperationalError
  /\ turn_output (companion_chat_ui repr_unused (demo_env first_write_fails (HttpRaise RequestException))
         (hello []) ava fresh_world) = None
  /\ db (snd (companion_chat_ui repr_unused (demo_env first_write_fails (HttpRaise RequestException))
         (hello []) ava fresh_world)) = db fresh_world
  /\ exists evs,
       ui (snd (companion_chat_ui repr_unused (demo_env first_write_fails (HttpRaise RequestException))
         (hello []) ava fresh_world)) = ui fresh_world ++ evs
       /\ forall ev, In ev evs -> setup_event ev.
Proof.
  apply (user_save_failure_aborts_turn repr_unused
           (demo_env first_write_fails (HttpRaise RequestException))
           (hello []) ava [(lit "bio", JStr (lit "loves hiking"))] fresh_world
           OperationalError).
  - reflexivity.
  - reflexivity.
  - reflexivity.
  - left. reflexivity.
Defined.

(** C9, as stated, at a profile whose flag is [null]: the flag is not the
    explicit [false], yet the stored user message carries the empty [tech]
    mapping and no capture is announced, since line 234 tests the truth
    value of the flag. *)
Lemma explicit_false_only_counterexample :
  dict_get [(lit "allow_tech_info", JNull)] flag_key = Some JNull
  /\ get_meta null_flag_user = JObj [(lit "allow_tech_info", JNull)]
  /\ map (fun r => (conv_role r, conv_metadata r))
       (conversations
          (db (snd (companion_chat_ui repr_unused timeout_env (hello [])
                      null_flag_user fresh_world))))
     = [(role_user, Some (json_dumps (JObj [(lit "tech", JObj [])])));
        (role_assistant,
         Some (json_dumps (JObj [(lit "generated_by", JStr mock_lbm)])))]
  /\ ~ In EvDetecting
        (ui (snd (companion_chat_ui repr_unused timeout_env (hello [])
                    null_flag_user fresh_world))).
Proof.
  vm_compute. repeat split; try reflexivity.
  intros H. decompose [or] H; try discriminate; contradiction.
Qed.

(** C9, amended, at a profile without the consent key. *)
Lemma absent_flag_captures_tech_witness :
  exists row tech,
    nth_error (conversations (db (snd (companion_chat_ui repr_unused timeout_env (hello []) ava fresh_world))))
      (length (conversations (db fresh_world))) = Some row
    /\ conv_role row = role_user
    /\ conv_metadata row = Some (json_dumps (JObj [(lit "tech", tech)]))
    /\ tech = (if truthy (dict_get_default [(lit "bio", JStr (lit "loves hiking"))]
                         flag_key (JBool true))
               then captured_tech timeout_env (hello []) else JObj [])
    /\ (dict_get [(lit "bio", JStr (lit "loves hiking"))] flag_key = None
        \/ dict_get [(lit "bio", JStr (lit "loves hiking"))] flag_key = Some (JBool true) ->
        tech = captured_tech timeout_env (hello []))
    /\ (dict_get [(lit "bio", JStr (lit "loves hiking"))] flag_key = Some (JBool false) ->
        tech = JObj [])
    /\ (forall v, dict_get [(lit "bio", JStr (lit "loves hiking"))] flag_key = Some v ->
                  (tech = JObj [] <-> truthy v = false))
    /\ captured_tech timeout_env (hello []) <> JObj [].
Proof.
  apply (absent_flag_captures_tech repr_unused timeout_env (hello []) ava
           [(lit "bio", JStr (lit "loves hiking"))] fresh_world); reflexivity.
Defined.

(** ** Listing the profiles *)

(** [str_compare] is a total order on texts. *)
Lemma str_compare_antisym a b : str_compare b a = CompOpp (str_compare a b).
Proof.
  revert b; induction a as [|x a IH]; intros [|y b]; simpl; try reflexivity.
  rewrite (N.compare_antisym x y).
  destruct (x ?= y)%N; simpl; auto.
Qed.

Lemma str_leb_total a b : str_leb a b = false -> str_leb b a = true.
Proof.
  unfold str_leb. rewrite (str_compare_antisym a b).
  destruct (str_compare a b); simpl; congruence.
Qed.

Lemma str_leb_refl a : str_leb a a = true.
Proof.
  unfold str_leb. induction a as [|x a IH]; simpl; [reflexivity|].
  rewrite N.compare_refl. exact IH.
Qed.

Lemma str_leb_trans a b c :
  str_leb a b = true -> str_leb b c = true -> str_leb a c = true.
Proof.
  unfold str_leb.
  revert b c; induction a as [|x a IH]; intros [|y b] [|z c]; simpl;
    try congruence.
  destruct (N.compare_spec x y) as [->|Hxy|Hxy]; try congruence.
  - destruct (N.compare_spec y z) as [->|Hyz|Hyz]; try congruence.
    apply IH.
  - intros _. destruct (N.compare_spec y z) as [->|Hyz|Hyz]; try congruence.
    + destruct (N.compare_spec x z) as [->|Hxz|Hxz]; try congruence; lia.
    + destruct (N.compare_spec x z) as [->|Hxz|Hxz]; try congruence; lia.
Qed.

(** The ordering rearranges the rows and sorts them. *)
Lemma insert_desc_perm r l : Permutation (r :: l) (insert_desc r l).
Proof.
  induction l as [|y l IH]; simpl; [reflexivity|].
  destruct (str_leb _ _); [reflexivity|].
  rewrite perm_swap. apply perm_skip, IH.
Qed.

Lemma order_by_perm rows : Permutation rows (order_by_created_at_desc rows).
Proof.
  induction rows as [|r rows IH]; simpl; [constructor|].
  rewrite <- insert_desc_perm. apply perm_skip, IH.
Qed.

Lemma insert_desc_sorted r l :
  Sorted row_newer_or_same l -> Sorted row_newer_or_same (insert_desc r l).
Proof.
  induction l as [|y l IH]; simpl; intro Hs.
  - repeat constructor.
  - destruct (str_leb (row_created_at y) (row_created_at r)) eqn:Hle.
    + constructor; [exact Hs|]. constructor. exact Hle.
    + apply Sorted_inv in Hs as [Hs Hhd].
      constructor; [apply IH, Hs|].
      destruct l as [|z l]; simpl.
      * constructor. apply str_leb_total, Hle.
      * destruct (str_leb (row_created_at z) (row_created_at r)).
        -- constructor. apply str_leb_total, Hle.
        -- constructor. inversion Hhd; assumption.
Qed.

Lemma order_by_sorted rows :
  Sorted row_newer_or_same (order_by_created_at_desc rows).
Proof.
  induction rows as [|r rows IH]; simpl; [constructor|].
  apply insert_desc_sorted, IH.
Qed.

Lemma row_newer_trans : Relations_1.Transitive row_newer_or_same.
Proof.
  intros a b c Hab Hbc. unfold row_newer_or_same in *.
  eapply str_leb_trans; eassumption.
Qed.

(** A comprehension succeeds exactly when each element does. *)
Lemma map_result_Forall2 {A B : Type} (f : A -> result B) l us :
  map_result f l = Ok us <-> Forall2 (fun r u => f r = Ok u) l us.
Proof.
  revert us; induction l as [|x l IH]; intros us; simpl.
  - split; intro H; [inversion H; constructor | inversion H; reflexivity].
  - split.
    + destruct (f x) as [y|e] eqn:Hx; simpl; [|discriminate].
      destruct (map_result f l) as [ys|e] eqn:Hl; simpl; [|discriminate].
      intros [= <-]. constructor; [exact Hx | apply IH; reflexivity].
    + intros H. inversion H as [|? y ? ys Hx Hrest]; subst.
      rewrite Hx; simpl. apply IH in Hrest. rewrite Hrest. reflexivity.
Qed.

Lemma row_to_user_created r u : row_to_user r = Ok u -> user_created_at u = row_created_at r.
Proof.
  unfold row_to_user. destruct (load_meta _); simpl; [|discriminate].
  intros [= <-]. reflexivity.
Qed.

Lemma decoded_sorted rows us :
  Forall2 (fun r u => row_to_user r = Ok u) rows us ->
  StronglySorted row_newer_or_same rows -> StronglySorted newer_or_same us.
Proof.
  induction 1 as [|r u rows us Hru Hrest IH]; intro Hs; [constructor|].
  apply StronglySorted_inv in Hs as [Hs Hall].
  constructor; [apply IH, Hs|].
  clear IH Hs. induction Hrest as [|r' u' rows us Hru' Hrest IH'].
  - constructor.
  - inversion Hall; subst. constructor; [|apply IH'; assumption].
    unfold newer_or_same, row_newer_or_same in *.
    rewrite (row_to_user_created _ _ Hru), (row_to_user_created _ _ Hru').
    assumption.
Qed.


(** Scenario D: three profiles saved out of order come back newest first. *)
Example scenario_d :
  list_users three_profiles_world
  = (Ok [profile "u-3" "Cy" "2024-03-03T08:00:00.500000";
         profile "u-2" "Bea" "2024-03-02T08:00:00";
         profile "u-1" "Al" "2024-03-01T23:59:59"],
     three_profiles_world)
  /\ list_users fresh_world = (Ok [], fresh_world).
Proof. vm_compute. split; reflexivity. Qed.

(** ** Serialisation round trip *)

Section Codec.

Local Open Scope N_scope.

(** Bits below a shift do not overlap the shifted value. *)
Lemma lor_shiftl_low a b k :
  b < 2 ^ k -> N.lor (N.shiftl a k) b = a * 2 ^ k + b.
Proof.
  intro Hb.
  assert (Hland : N.land (N.shiftl a k) b = 0).
  { apply N.bits_inj. intro m. rewrite N.land_spec, N.bits_0.
    destruct (N.lt_ge_cases m k) as [Hm|Hm].
    - rewrite N.shiftl_spec_low by exact Hm. reflexivity.
    - rewrite <- (N.mod_small b (2 ^ k)) by exact Hb.
      rewrite N.mod_pow2_bits_high by exact Hm. apply andb_false_r. }
  rewrite <- N.lxor_lor by exact Hland.
  rewrite <- N.add_nocarry_lxor by exact Hland.
  rewrite N.shiftl_mul_pow2. reflexivity.
Qed.

(** Four hexadecimal digits are read back as the number they print. *)
Lemma hexval_hexdigit d : d < 16 -> hexval (hexdigit d) = Some d.
Proof.
  intro Hd. unfold hexval, hexdigit.
  destruct (N.ltb_spec d 10) as [H|H].
  - replace ((48 <=? 48 + d) && (48 + d <=? 57))%bool with true.
    + f_equal. lia.
    + symmetry. apply andb_true_intro. split; apply N.leb_le; lia.
  - replace ((48 <=? 87 + d) && (87 + d <=? 57))%bool with false.
    + replace ((97 <=? 87 + d) && (87 + d <=? 102))%bool with true.
      * f_equal. lia.
      * symmetry. apply andb_true_intro. split; apply N.leb_le; lia.
    + symmetry. apply andb_false_intro2. apply N.leb_gt. lia.
Qed.

Lemma decode_hex4_hex4 n :
  n < 65536 ->
  match hex4 n with
  | [a; b; c; d] => decode_hex4 a b c d = Some n
  | _ => False
  end.
Proof.
  intro Hn. unfold hex4, decode_hex4.
  rewrite !N.shiftr_div_pow2.
  change (2 ^ 12) with 4096. change (2 ^ 8) with 256. change (2 ^ 4) with 16.
  rewrite !hexval_hexdigit by (apply N.mod_upper_bound; discriminate).
  f_equal.
  pose proof (N.div_mod n 4096 ltac:(discriminate)) as H1.
  pose proof (N.mod_upper_bound n 4096 ltac:(discriminate)) as H1'.
  assert (H0 : n / 4096 < 16) by (apply N.Div0.div_lt_upper_bound; lia).
  rewrite (N.mod_small (n / 4096) 16) by exact H0.
  pose proof (N.div_mod n 256 ltac:(discriminate)) as H2.
  pose proof (N.mod_upper_bound n 256 ltac:(discriminate)) as H2'.
  pose proof (N.div_mod (n / 256) 16 ltac:(discriminate)) as H3.
  pose proof (N.mod_upper_bound (n / 256) 16 ltac:(discriminate)) as H3'.
  pose proof (N.div_mod n 16 ltac:(discriminate)) as H4.
  pose proof (N.mod_upper_bound n 16 ltac:(discriminate)) as H4'.
  pose proof (N.div_mod (n / 16) 16 ltac:(discriminate)) as H5.
  pose proof (N.mod_upper_bound (n / 16) 16 ltac:(discriminate)) as H5'.
  assert (E1 : n / 256 / 16 = n / 4096) by (rewrite N.Div0.div_div; reflexivity).
  assert (E2 : n / 16 / 16 = n / 256) by (rewrite N.Div0.div_div; reflexivity).
  rewrite E1 in H3. rewrite E2 in H5. lia.
Qed.

(** One step of [scan_string] on each shape of escape. *)
Lemma scan_simple e x rest acc :
  (e =? c_u) = false -> simple_escape e = Some x ->
  scan_string (c_backslash :: e :: rest) acc = scan_string rest (x :: acc).
Proof. intros He Hx. simpl. rewrite He, Hx. reflexivity. Qed.

Lemma scan_plain c rest acc :
  (c =? c_dquote) = false -> (c <? 32) = false -> (c =? c_backslash) = false ->
  scan_string (c :: rest) acc = scan_string rest (c :: acc).
Proof. intros H1 H2 H3. simpl. rewrite H1, H2, H3. reflexivity. Qed.

Lemma scan_u h1 h2 h3 h4 rest acc uni :
  decode_hex4 h1 h2 h3 h4 = Some uni -> is_high_surrogate uni = false ->
  scan_string (c_backslash :: c_u :: h1 :: h2 :: h3 :: h4 :: rest) acc
  = scan_string rest (uni :: acc).
Proof. intros Hd Hh. simpl. rewrite Hd, Hh. reflexivity. Qed.

Lemma scan_pair h1 h2 h3 h4 l1 l2 l3 l4 rest acc hi lo :
  decode_hex4 h1 h2 h3 h4 = Some hi -> is_high_surrogate hi = true ->
  decode_hex4 l1 l2 l3 l4 = Some lo -> is_low_surrogate lo = true ->
  scan_string (c_backslash :: c_u :: h1 :: h2 :: h3 :: h4
               :: c_backslash :: c_u :: l1 :: l2 :: l3 :: l4 :: rest) acc
  = scan_string rest
      ((65536 + N.lor (N.shiftl (hi - 55296) 10) (lo - 56320)) :: acc).
Proof. intros Hd Hh Hd' Hl. simpl. rewrite Hd, Hh, Hd', Hl. reflexivity. Qed.

(** The two halves of a surrogate pair, read arithmetically. *)
Lemma surrogate_pair_bounds n :
  n < 1048576 ->
  let hi := N.lor 55296 (N.land (N.shiftr n 10) 1023) in
  let lo := N.lor 56320 (N.land n 1023) in
  hi = 55296 + n / 1024 /\ lo = 56320 + n mod 1024 /\ n / 1024 < 1024.
Proof.
  intros Hn hi lo. subst hi lo.
  assert (Hq : n / 1024 < 1024) by (apply N.Div0.div_lt_upper_bound; lia).
  pose proof (N.mod_upper_bound n 1024 ltac:(discriminate)) as Hr.
  change 1023 with (N.ones 10). rewrite !N.land_ones.
  rewrite N.shiftr_div_pow2. change (2 ^ 10) with 1024.
  rewrite (N.mod_small (n / 1024) 1024) by exact Hq.
  change 55296 with (N.shiftl 54 10). change 56320 with (N.shiftl 55 10).
  rewrite !lor_shiftl_low by (change (2 ^ 10) with 1024; assumption).
  change (2 ^ 10) with 1024. repeat split; try lia.
Qed.

(** [scan_string] reads an escaped character back. *)
Lemma scan_escape_char c rest acc :
  is_scalar c = true ->
  scan_string (json_escape_char c ++ rest) acc = scan_string rest (c :: acc).
Proof.
  unfold is_scalar. intro Hs. apply andb_prop in Hs as [Hmax Hsur].
  apply N.ltb_lt in Hmax. apply negb_true_iff in Hsur.
  unfold json_escape_char.
  destruct (N.eqb_spec c c_dquote) as [->|H34]; [reflexivity|].
  destruct (N.eqb_spec c c_backslash) as [->|H92]; [reflexivity|].
  destruct (N.eqb_spec c 10) as [->|H10]; [reflexivity|].
  destruct (N.eqb_spec c 13) as [->|H13]; [reflexivity|].
  destruct (N.eqb_spec c 9) as [->|H9]; [reflexivity|].
  destruct (N.eqb_spec c 8) as [->|H8]; [reflexivity|].
  destruct (N.eqb_spec c 12) as [->|H12]; [reflexivity|].
  destruct ((32 <=? c) && (c <=? 126))%bool eqn:Hprint.
  - apply andb_prop in Hprint as [Hlo _]. apply N.leb_le in Hlo.
    apply scan_plain.
    + apply N.eqb_neq, H34.
    + apply N.ltb_ge, Hlo.
    + apply N.eqb_neq, H92.
  - destruct (N.ltb_spec c 65536) as [Hbmp|Hastral].
    + pose proof (decode_hex4_hex4 c Hbmp) as Hd. unfold hex4 in *.
      cbn [app]. apply scan_u; [exact Hd|].
      unfold is_high_surrogate.
      destruct ((55296 <=? c) && (c <=? 56319))%bool eqn:Hh; [|reflexivity].
      apply andb_prop in Hh as [Ha Hb]. apply N.leb_le in Ha, Hb.
      apply andb_false_iff in Hsur as [Hsur|Hsur]; apply N.leb_gt in Hsur; lia.
    + remember (c - 65536) as n eqn:En.
      assert (Hn : n < 1048576) by lia.
      destruct (surrogate_pair_bounds n Hn) as (Hhi & Hlo & Hq).
      cbv zeta in Hhi, Hlo.
      pose proof (N.mod_upper_bound n 1024 ltac:(discriminate)) as Hr.
      pose proof (N.div_mod n 1024 ltac:(discriminate)) as Hdm.
      set (hi := N.lor 55296 (N.land (N.shiftr n 10) 1023)) in *.
      set (lo := N.lor 56320 (N.land n 1023)) in *.
      clearbody hi lo.
      remember (n / 1024) as q eqn:Eq. remember (n mod 1024) as r eqn:Er.
      clear Eq Er.
      pose proof (decode_hex4_hex4 hi ltac:(lia)) as Hdh.
      pose proof (decode_hex4_hex4 lo ltac:(lia)) as Hdl.
      unfold hex4 in *. cbn [app].
      rewrite (scan_pair _ _ _ _ _ _ _ _ rest acc hi lo Hdh).
      * f_equal. f_equal.
        rewrite Hhi, Hlo.
        assert (Hcancel : forall a b, a + b - a = b) by (intros; lia).
        rewrite !Hcancel.
        rewrite lor_shiftl_low by (change (2 ^ 10) with 1024; exact Hr).
        change (2 ^ 10) with 1024. lia.
      * unfold is_high_surrogate. apply andb_true_intro.
        split; apply N.leb_le; lia.
      * exact Hdl.
      * unfold is_low_surrogate. apply andb_true_intro.
        split; apply N.leb_le; lia.
Qed.

(** [scan_string] reads an encoded text back up to its closing quote. *)
Lemma scan_string_encoded s rest acc :
  scalar_text s = true ->
  scan_string (flat_map json_escape_char s ++ c_dquote :: rest) acc
  = Some ((rev acc ++ s)%list, rest).
Proof.
  revert acc; induction s as [|c s IH]; intros acc Hs.
  - simpl. rewrite List.app_nil_r. reflexivity.
  - simpl in Hs. apply andb_prop in Hs as [Hc Hs].
    cbn [flat_map]. rewrite <- app_assoc.
    rewrite scan_escape_char by exact Hc.
    rewrite IH by exact Hs. cbn [rev]. rewrite <- ?app_assoc. reflexivity.
Qed.

(** *** Numbers *)

(** Printed digits are read back. *)
Lemma read_digits_uint u rest :
  no_digit_start rest = true ->
  read_digits (uint_digits u ++ rest)%list = (u, rest).
Proof.
  intro Hrest. induction u; cbn [uint_digits app];
    try (cbn [read_digits]; change (is_digit _) with true; cbv iota;
         rewrite IHu; reflexivity).
  destruct rest as [|c rest]; [reflexivity|].
  cbn [read_digits]. cbn [no_digit_start] in Hrest.
  apply negb_true_iff in Hrest. rewrite Hrest. reflexivity.
Qed.

(** The decimal form of a positive number does not start with zero. *)
Lemma to_uint_no_leading_zero p u : Pos.to_uint p <> Decimal.D0 u.
Proof.
  intro H.
  pose proof (DecimalN.Unsigned.to_of (Pos.to_uint p)) as Hn.
  unfold N.of_uint in Hn. rewrite DecimalPos.Unsigned.of_to in Hn.
  cbn [N.to_uint] in Hn. rewrite H in Hn.
  unfold Decimal.unorm in Hn. cbn [Decimal.nzhead] in Hn.
  destruct (Decimal.nzhead u) eqn:Hz;
    try (apply (DecimalFacts.nzhead_nonzero u u); congruence);
    try discriminate.
  - injection Hn as Hu. subst u.
    apply (DecimalPos.Unsigned.to_uint_nonzero p). exact H.
Qed.

Lemma scan_int_pos p rest :
  no_digit_start rest = true ->
  scan_int (uint_digits (Pos.to_uint p) ++ rest)%list = Some (Z.pos p, rest)
  /\ exists c t, uint_digits (Pos.to_uint p) = c :: t /\ is_digit c = true.
Proof.
  intro Hrest.
  pose proof (read_digits_uint (Pos.to_uint p) rest Hrest) as Hread.
  pose proof (to_uint_no_leading_zero p) as Hlead.
  pose proof (DecimalPos.Unsigned.to_uint_nonnil p) as Hnil.
  pose proof (DecimalPos.Unsigned.of_to p) as Hof.
  destruct (Pos.to_uint p) as [|u|u|u|u|u|u|u|u|u|u] eqn:Hu;
    try congruence; try (exfalso; eapply Hlead; reflexivity);
    (split; [| eexists _, _; split; reflexivity]);
    cbn [uint_digits app] in *; unfold scan_int;
    match goal with
    | |- context [(?c =? c_minus)] => change (c =? c_minus) with false
    end; cbv iota;
    match goal with
    | |- context [(?c =? 48)] => change (c =? 48) with false
    end; cbv iota;
    match goal with
    | |- context [is_digit ?c] => change (is_digit c) with true
    end; cbv iota;
    rewrite Hread; unfold N.of_uint; rewrite Hof; reflexivity.
Qed.

Local Open Scope list_scope.

Lemma delim_no_digit rest : delim rest -> no_digit_start rest = true.
Proof.
  destruct rest as [|c rest]; [reflexivity|].
  intros [->|[->| ->]]; reflexivity.
Qed.

Lemma delim_no_float rest : delim rest -> float_follows rest = false.
Proof.
  destruct rest as [|c rest]; [reflexivity|].
  intros [->|[->| ->]]; reflexivity.
Qed.

Lemma delim_skip_ws rest : delim rest -> skip_ws rest = rest.
Proof.
  destruct rest as [|c rest]; [reflexivity|].
  intros [->|[->| ->]]; reflexivity.
Qed.

Lemma digit_opens_value c : is_digit c = true -> opens_value c.
Proof.
  unfold is_digit, opens_value, is_ws. intro H.
  apply andb_prop in H as [H1 H2]. apply N.leb_le in H1, H2.
  repeat split.
  - repeat (apply orb_false_intro); apply N.eqb_neq; lia.
  - apply N.eqb_neq; lia.
  - apply N.eqb_neq; lia.
Qed.

Lemma json_dumps_head v :
  exists c t, json_dumps v = c :: t /\ opens_value c.
Proof.
  destruct v as [|[|]|z|s|[|x l]|[|kv m]]; cbn [json_dumps];
    try (eexists _, _; split; [reflexivity | repeat split; reflexivity]).
  unfold int_repr. destruct z as [|p|p]; cbn [Z.to_int].
  - eexists _, _; split; [reflexivity | repeat split; reflexivity].
  - destruct (scan_int_pos p [] eq_refl) as (_ & c & t & Hd & Hc).
    rewrite Hd. exists c, t. split; [reflexivity | apply digit_opens_value, Hc].
  - eexists _, _; split; [reflexivity | repeat split; reflexivity].
Qed.

Lemma skip_ws_dumps v rest :
  skip_ws (json_dumps v ++ rest) = json_dumps v ++ rest.
Proof.
  destruct (json_dumps_head v) as (c & t & -> & Hws & _).
  cbn [app skip_ws]. rewrite Hws. reflexivity.
Qed.

Lemma scan_int_repr z rest :
  delim rest -> scan_int (int_repr z ++ rest) = Some (z, rest).
Proof.
  intro Hd. pose proof (delim_no_digit rest Hd) as Hnd.
  unfold int_repr. destruct z as [|p|p]; cbn [Z.to_int].
  - reflexivity.
  - apply scan_int_pos, Hnd.
  - destruct (scan_int_pos p rest Hnd) as (Hs & c & t & Hhd & Hc).
    revert Hs. unfold scan_int. cbn [app].
    change (c_minus =? c_minus)%N with true. cbv iota.
    rewrite Hhd. cbn [app].
    assert (Hne : (c =? c_minus)%N = false).
    { unfold is_digit in Hc. apply andb_prop in Hc as [H1 _].
      apply N.leb_le in H1. apply N.eqb_neq. unfold c_minus. lia. }
    rewrite Hne.
    destruct (c =? 48)%N; [intros [= E _]; discriminate E|].
    rewrite Hc.
    destruct (read_digits (c :: t ++ rest)) as [u r].
    intros [= Hz ->]. rewrite Hz. reflexivity.
Qed.

Lemma parse_value_int f z rest :
  delim rest -> parse_value (S f) (int_repr z ++ rest) = Some (JInt z, rest).
Proof.
  intro Hd.
  pose proof (scan_int_repr z rest Hd) as Hs.
  pose proof (delim_no_float rest Hd) as Hf.
  assert (Hhead : exists c t, int_repr z = c :: t
                  /\ (is_digit c = true \/ c = c_minus)).
  { unfold int_repr. destruct z as [|p|p]; cbn [Z.to_int].
    - eexists _, _; split; [reflexivity | left; reflexivity].
    - destruct (scan_int_pos p [] eq_refl) as (_ & c & t & Hd' & Hc).
      eexists _, _; split; [exact Hd' | left; exact Hc].
    - eexists _, _; split; [reflexivity | right; reflexivity]. }
  destruct Hhead as (c & t & Hrepr & Hc).
  rewrite Hrepr in *. cbn [app] in *.
  assert (Hc' : (c =? c_dquote)%N = false /\ (c =? 123)%N = false
                /\ (c =? 91)%N = false /\ (c =? 110)%N = false
                /\ (c =? 116)%N = false /\ (c =? 102)%N = false).
  { destruct Hc as [Hc| ->]; [|repeat split; reflexivity].
    unfold is_digit in Hc. apply andb_prop in Hc as [H1 H2].
    apply N.leb_le in H1, H2. unfold c_dquote.
    repeat split; apply N.eqb_neq; lia. }
  destruct Hc' as (E1 & E2 & E3 & E4 & E5 & E6).
  cbn [parse_value]. rewrite E1, E2, E3.
  change (lit "null") with (110%N :: lit "ull").
  change (lit "true") with (116%N :: lit "rue").
  change (lit "false") with (102%N :: lit "alse").
  cbn [strip_prefix].
  rewrite (N.eqb_sym 110 c), (N.eqb_sym 116 c), (N.eqb_sym 102 c), E4, E5, E6.
  rewrite Hs, Hf. reflexivity.
Qed.

Lemma str_eqb_eq a b : str_eqb a b = true <-> a = b.
Proof.
  unfold str_eqb. destruct (list_eq_dec N.eq_dec a b); split; congruence.
Qed.

Lemma str_eqb_refl a : str_eqb a a = true.
Proof. apply str_eqb_eq. reflexivity. Qed.

Lemma nodup_keys_app_cons a k r :
  nodup_keys (a ++ k :: r) = true ->
  existsb (fun k' => str_eqb k' k) a = false
  /\ nodup_keys ((a ++ [k]) ++ r) = true.
Proof.
  induction a as [|k0 a IH]; cbn [app nodup_keys existsb].
  - intro H. split; [reflexivity | exact H].
  - intro H. apply andb_prop in H as [Hk0 Hrest].
    destruct (IH Hrest) as [Hex Hnd].
    apply negb_true_iff in Hk0.
    rewrite existsb_app in Hk0. apply orb_false_elim in Hk0 as [Hk0a Hk0r].
    cbn [existsb] in Hk0r. apply orb_false_elim in Hk0r as [Hk0k Hk0r].
    split.
    + rewrite Hk0k, Hex. reflexivity.
    + apply andb_true_intro. split; [|exact Hnd].
      apply negb_true_iff. rewrite !existsb_app. cbn [existsb].
      rewrite Hk0a, Hk0k, Hk0r. reflexivity.
Qed.

Lemma dict_set_fresh acc k x :
  existsb (fun k' => str_eqb k' k) (map fst acc) = false ->
  dict_set acc k x = acc ++ [(k, x)].
Proof.
  induction acc as [|[k' x'] acc IH]; cbn [map fst existsb dict_set app].
  - reflexivity.
  - intro H. apply orb_false_elim in H as [Hk Hrest].
    rewrite Hk, IH by exact Hrest. reflexivity.
Qed.

Lemma join_cons2 (p q : str) (r : list str) :
  join sep (p :: q :: r) = p ++ sep ++ join sep (q :: r).
Proof. reflexivity. Qed.

Lemma join_head_dumps x l rest :
  skip_ws (join sep (map json_dumps (x :: l)) ++ rest)
  = join sep (map json_dumps (x :: l)) ++ rest
  /\ exists c t, join sep (map json_dumps (x :: l)) ++ rest = c :: t
                 /\ opens_value c.
Proof.
  destruct (json_dumps_head x) as (c & t & Hx & Hc).
  assert (Hj : exists t', join sep (map json_dumps (x :: l)) ++ rest = c :: t').
  { cbn [map]. destruct l as [|y l].
    - cbn [join map]. rewrite Hx. eexists. reflexivity.
    - cbn [map]. rewrite join_cons2, Hx. eexists. reflexivity. }
  destruct Hj as [t' Hj]. rewrite Hj. split.
  - cbn [skip_ws]. destruct Hc as [-> _]. reflexivity.
  - exists c, t'. split; [reflexivity | exact Hc].
Qed.

Lemma join_head_members k x m rest :
  join sep (map member_text ((k, x) :: m)) ++ rest
  = c_dquote :: flat_map json_escape_char k
    ++ c_dquote :: 58%N :: 32%N :: json_dumps x
    ++ match m with
       | [] => rest
       | kv :: m' => 44%N :: 32%N :: join sep (map member_text (kv :: m')) ++ rest
       end.
Proof.
  cbn [map]. destruct m as [|kv m].
  - cbn [join map member_text]. unfold encode_string.
    cbn [app]. rewrite <- !app_assoc. reflexivity.
  - cbn [map]. rewrite join_cons2. cbn [member_text]. unfold encode_string.
    cbn [app]. rewrite <- !app_assoc. reflexivity.
Qed.

Local Open Scope nat_scope.

Lemma dumps_arr x l :
  json_dumps (JArr (x :: l)) = 91%N :: join sep (map json_dumps (x :: l)) ++ [93%N].
Proof. reflexivity. Qed.

Lemma dumps_obj kv m :
  json_dumps (JObj (kv :: m)) = 123%N :: join sep (map member_text (kv :: m)) ++ [125%N].
Proof. reflexivity. Qed.

Lemma parse_value_arr f t :
  parse_value (S f) (91%N :: t)
  = match skip_ws t with
    | [] => None
    | c1 :: t1 =>
        if (c1 =? 93)%N then Some (JArr [], t1)
        else match parse_items f (skip_ws t) [] with
             | Some (l, r) => Some (JArr l, r)
             | None => None
             end
    end.
Proof. reflexivity. Qed.

Lemma parse_value_obj f t :
  parse_value (S f) (123%N :: t)
  = match skip_ws t with
    | [] => None
    | c1 :: t1 =>
        if (c1 =? 125)%N then Some (JObj [], t1)
        else match parse_members f (skip_ws t) [] with
             | Some (m, r) => Some (JObj m, r)
             | None => None
             end
    end.
Proof. reflexivity. Qed.

Lemma parse_items_step f s acc :
  parse_items (S f) s acc
  = match parse_value f s with
    | None => None
    | Some (v, r) =>
        match skip_ws r with
        | [] => None
        | c :: r1 =>
            if (c =? 93)%N then Some (rev (v :: acc), r1)
            else if (c =? 44)%N then parse_items f (skip_ws r1) (v :: acc)
            else None
        end
    end.
Proof. reflexivity. Qed.

Lemma parse_members_step f t acc :
  parse_members (S f) (c_dquote :: t) acc
  = match scan_string t [] with
    | None => None
    | Some (k, r) =>
        match skip_ws r with
        | [] => None
        | c1 :: r1 =>
            if (c1 =? 58)%N then
              match parse_value f (skip_ws r1) with
              | None => None
              | Some (v, r2) =>
                  match skip_ws r2 with
                  | [] => None
                  | c2 :: r3 =>
                      if (c2 =? 125)%N then Some (dict_set acc k v, r3)
                      else if (c2 =? 44)%N then
                        parse_members f (skip_ws r3) (dict_set acc k v)
                      else None
                  end
              end
            else None
        end
    end.
Proof. reflexivity. Qed.

Lemma skip_ws_space s : skip_ws (32%N :: s) = skip_ws s.
Proof. reflexivity. Qed.

(** The decoder reads back what the encoder wrote: values, the items of a
    list and the members of a dictionary, with fuel above the length of the
    text. *)
Lemma parse_round_trip F :
  (forall v rest,
      wf_json v = true -> length (json_dumps v) < F -> delim rest ->
      parse_value F (json_dumps v ++ rest) = Some (v, rest))
  /\ (forall x l acc rest,
         forallb wf_json (x :: l) = true ->
         length (join sep (map json_dumps (x :: l))) + 1 < F ->
         parse_items F (join sep (map json_dumps (x :: l)) ++ 93%N :: rest) acc
         = Some (rev acc ++ x :: l, rest))
  /\ (forall kv m acc rest,
         forallb wf_member (kv :: m) = true ->
         nodup_keys (map fst acc ++ map fst (kv :: m)) = true ->
         length (join sep (map member_text (kv :: m))) + 1 < F ->
         parse_members F (join sep (map member_text (kv :: m)) ++ 125%N :: rest) acc
         = Some (acc ++ kv :: m, rest)).
Proof.
  induction F as [|f (IHv & IHi & IHm)].
  { repeat split; intros; lia. }
  split; [|split].
  - (* values *)
    intros v rest Hwf Hlen Hd.
    destruct v as [|[|]|z|s|[|x l]|[|kv m]]; try reflexivity.
    + apply parse_value_int, Hd.
    + cbn [json_dumps]. unfold encode_string. cbn [app parse_value].
      change (c_dquote =? c_dquote)%N with true. cbv iota.
      rewrite <- app_assoc. cbn [app].
      rewrite scan_string_encoded by exact Hwf. reflexivity.
    + rewrite dumps_arr in *. cbn [app]. rewrite <- app_assoc. cbn [app].
      rewrite parse_value_arr.
      destruct (join_head_dumps x l (93%N :: rest)) as (Hskip & c & t & Hhd & Hc).

rewrite Hskip. rewrite Hhd at 1.
      destruct Hc as (_ & -> & _).
      rewrite IHi.
      * reflexivity.
      * exact Hwf.
      * cbn [length] in Hlen. rewrite length_app in Hlen. cbn [length] in Hlen. lia.
    + rewrite dumps_obj in *. cbn [app]. rewrite <- app_assoc. cbn [app].
      rewrite parse_value_obj.
      destruct kv as [k x].
      assert (Hskip : forall r, skip_ws (join sep (map member_text ((k, x) :: m)) ++ r)
                      = join sep (map member_text ((k, x) :: m)) ++ r).
      { intro r. rewrite join_head_members. reflexivity. }
      rewrite Hskip. rewrite join_head_members at 1.
      change (c_dquote =? 125)%N with false. cbv iota.
      cbn [wf_json] in Hwf. apply andb_prop in Hwf as [Hnd Hall].
      rewrite IHm.
      * reflexivity.
      * exact Hall.
      * exact Hnd.
      * cbn [length] in Hlen. rewrite length_app in Hlen. cbn [length] in Hlen. lia.
  - (* items *)
    intros x l acc rest Hwf Hlen.
    cbn [forallb] in Hwf. apply andb_prop in Hwf as [Hx Hl].
    rewrite parse_items_step.
    destruct l as [|y l].
    + cbn [map join] in *.
      rewrite IHv; [|exact Hx|lia|right; left; reflexivity].
      change (skip_ws (93%N :: rest)) with (93%N :: rest).
      change (93 =? 93)%N with true. cbv iota.
      cbn [rev]. rewrite <- ?app_assoc. reflexivity.
    + cbn [map] in *. rewrite join_cons2 in *.
      rewrite !length_app in Hlen. change (length sep) with 2 in Hlen.
      rewrite <- !app_assoc. change (sep ++ ?X) with (44%N :: 32%N :: X).
      rewrite IHv; [|exact Hx|lia|left; reflexivity].
      match goal with
      | |- context [skip_ws (44%N :: ?X)] =>
          change (skip_ws (44%N :: X)) with (44%N :: X)
      end.
      change (44 =? 93)%N with false. change (44 =? 44)%N with true. cbv iota.
      rewrite skip_ws_space.
      destruct (join_head_dumps y l (93%N :: rest)) as (Hskip & _).
      cbn [map] in Hskip. rewrite Hskip.
      rewrite (IHi y l (x :: acc) rest); [|exact Hl|cbn [map]; lia].
      cbn [rev]. rewrite <- ?app_assoc. reflexivity.
  - (* members *)
    intros [k x] m acc rest Hwf Hnd Hlen.
    cbn [forallb wf_member] in Hwf. apply andb_prop in Hwf as [Hkx Hm].
    apply andb_prop in Hkx as [Hk Hx].
    cbn [map fst] in Hnd.
    destruct (nodup_keys_app_cons _ _ _ Hnd) as [Hfresh Hnd'].
    rewrite join_head_members. rewrite parse_members_step.
    rewrite scan_string_encoded by exact Hk. cbn [rev app].
    match goal with
    | |- context [skip_ws (58%N :: ?X)] =>
        change (skip_ws (58%N :: X)) with (58%N :: X)
    end.
    change (58 =? 58)%N with true. cbv iota.
    rewrite skip_ws_space, skip_ws_dumps.
    destruct m as [|kv m].
    + cbn [map join member_text] in Hlen. unfold encode_string in Hlen.
      cbn [length] in Hlen. rewrite !length_app in Hlen. cbn [length] in Hlen.
      rewrite IHv; [|exact Hx|lia|right; right; reflexivity].
      change (skip_ws (125%N :: rest)) with (125%N :: rest).
      change (125 =? 125)%N with true. cbv iota.
      rewrite dict_set_fresh by exact Hfresh. reflexivity.
    + cbn [map] in Hlen. rewrite join_cons2 in Hlen.
      cbn [member_text] in Hlen. unfold encode_string in Hlen.
      cbn [length] in Hlen. rewrite !length_app in Hlen.
      cbn [length] in Hlen. change (length sep) with 2 in Hlen.
      rewrite IHv; [|exact Hx|lia|left; reflexivity].
      match goal with
      | |- context [skip_ws (44%N :: ?X)] =>
          change (skip_ws (44%N :: X)) with (44%N :: X)
      end.
      change (44 =? 125)%N with false. change (44 =? 44)%N with true. cbv iota.
      rewrite skip_ws_space.
      destruct kv as [k' x'].
      assert (Hskip : forall r, skip_ws (join sep (map member_text ((k', x') :: m)) ++ r)
                      = join sep (map member_text ((k', x') :: m)) ++ r).
      { intro r. rewrite join_head_members. reflexivity. }
      rewrite Hskip.
      rewrite dict_set_fresh by exact Hfresh.
      rewrite (IHm (k', x') m (acc ++ [(k, x)]) rest).
      * rewrite <- app_assoc. reflexivity.
      * exact Hm.
      * rewrite map_app. cbn [map fst]. exact Hnd'.
      * cbn [map]. lia.
Qed.

(** [json.loads] undoes [json.dumps]. *)
Lemma json_loads_dumps v : wf_json v = true -> json_loads (json_dumps v) = Some v.
Proof.
  intro Hwf. unfold json_loads.
  pose proof (skip_ws_dumps v []) as Hskip. rewrite List.app_nil_r in Hskip.
  rewrite Hskip.
  destruct (parse_round_trip (S (length (json_dumps v)))) as (Hv & _ & _).
  specialize (Hv v [] Hwf (Nat.lt_succ_diag_r _) I).
  rewrite List.app_nil_r in Hv. rewrite Hv. reflexivity.
Qed.

Lemma load_meta_dumps v :
  wf_json v = true -> load_meta (Some (json_dumps v)) = Ok v.
Proof.
  intro Hwf. unfold load_meta.
  pose proof (json_loads_dumps v Hwf) as Hl.
  destruct (json_dumps_head v) as (c & t & Hv & _).
  rewrite Hv in *. rewrite Hl. reflexivity.
Qed.

(** After the replacing insert the lookup by id finds the new row. *)
Lemma find_replaced id row rows :
  row_id row = id ->
  find (fun r => str_eqb (row_id r) id)
    (filter (fun r => negb (str_eqb (row_id r) id)) rows ++ [row])
  = Some row.
Proof.
  intro Hid. induction rows as [|r rows IH]; cbn [filter app find].
  - rewrite Hid, str_eqb_refl. reflexivity.
  - destruct (str_eqb (row_id r) id) eqn:Hr; cbn [negb].
    + exact IH.
    + cbn [app find]. rewrite Hr. exact IH.
Qed.


End Codec.

(** ** Reading profiles back *)



Lemma row_to_user_fields r u :
  row_to_user r = Ok u ->
  user_id u = row_id r
  /\ (exists m, load_meta (row_meta r) = Ok m /\ user_meta u = Some m).
Proof.
  unfold row_to_user. destruct (load_meta (row_meta r)) as [m|e]; cbn [rbind];
    [|discriminate].
  intros [= <-]. split; [reflexivity|]. exists m. split; reflexivity.
Qed.

(** A returned profile is the decoding of a stored row. *)
Lemma returned_by_row w u :
  returned_by w u -> exists r, In r (users (db w)) /\ row_to_user r = Ok u.
Proof.
  intros [[id H]|(us & H & Hin)].
  - unfold fetch_user in H.
    destruct (find _ (users (db w))) as [r|] eqn:Hf; [|discriminate].
    apply find_some in Hf as [Hr _]. exists r. split; [exact Hr|].
    destruct (row_to_user r) as [u'|e]; cbn [fst] in H; congruence.
  - unfold list_users in H. cbn [fst] in H.
    apply map_result_Forall2 in H.
    assert (Hex : exists r, In r (order_by_created_at_desc (users (db w)))
                           /\ row_to_user r = Ok u).
    { clear -H Hin. induction H as [|r u' rows us Hru Hrest IH].
      - destruct Hin.
      - destruct Hin as [->|Hin].
        + exists r. split; [left; reflexivity | exact Hru].
        + destruct (IH Hin) as (r' & Hr' & Hu). exists r'. split; [right|]; assumption. }
    destruct Hex as (r & Hr & Hu). exists r. split; [|exact Hu].
    eapply Permutation_in; [apply Permutation_sym, order_by_perm | exact Hr].
Qed.



(** ** More on the record store *)

(** The lookup fails exactly on an absent id. *)
Lemma find_none_iff id rows :
  find (fun r => str_eqb (row_id r) id) rows = None <-> ~ In id (map row_id rows).
Proof.
  induction rows as [|r rows IH]; cbn [find map In].
  - tauto.
  - destruct (str_eqb (row_id r) id) eqn:E.
    + apply str_eqb_eq in E. split; [discriminate|]. intros H. exfalso. apply H. left; exact E.
    + assert (row_id r <> id) by (intro H; apply str_eqb_eq in H; congruence).
      rewrite IH. tauto.
Qed.

(** X1: [fetch_user] answers [None] exactly when no row of the users table
    has the id, and it never changes the world. *)
Theorem fetch_user_unknown_id (id : str) (w : World) :
  (fst (fetch_user id w) = Ok None <-> ~ In id (user_ids w))
  /\ snd (fetch_user id w) = w.
Proof.
  unfold fetch_user, user_ids.
  destruct (find _ (users (db w))) as [row|] eqn:Hf.
  - assert (Hin : In id (map row_id (users (db w)))).
    { destruct (find_none_iff id (users (db w))) as [_ H].
      destruct (in_dec (list_eq_dec N.eq_dec) id (map row_id (users (db w)))) as [Hi|Hn];
        [exact Hi|]. rewrite (H Hn) in Hf. discriminate. }
    destruct (row_to_user row) as [u|e]; cbn [fst snd]; split; try reflexivity;
      split; try discriminate; intro Hn; contradiction.
  - cbn [fst snd]. apply find_none_iff in Hf. split; [|reflexivity]. tauto.
Qed.

Lemma filter_other_ids id rows :
  map row_id (filter (fun r => negb (str_eqb (row_id r) id)) rows)
  = filter (fun k => negb (str_eqb k id)) (map row_id rows).
Proof.
  induction rows as [|r rows IH]; cbn [filter map]; [reflexivity|].
  destruct (str_eqb (row_id r) id); cbn [negb map]; rewrite IH; reflexivity.
Qed.

Lemma filter_filter_none id rows :
  filter (fun r => str_eqb (row_id r) id)
    (filter (fun r => negb (str_eqb (row_id r) id)) rows) = [].
Proof.
  induction rows as [|r rows IH]; cbn [filter]; [reflexivity|].
  destruct (str_eqb (row_id r) id) eqn:E; cbn [negb filter]; [exact IH|].
  rewrite E. exact IH.
Qed.

(** X2: after a [save_user] the medium accepted, exactly one row is stored
    under the profile's id, ids that were distinct stay distinct, the other
    ids of the table are the same as before, and the conversations are
    untouched. *)
Theorem save_user_one_row_per_id (env : Env) (P : User) (w : World) :
  write_fault env (writes w) = None ->
  length (rows_with_id (user_id P) (snd (save_user env P w))) = 1
  /\ (NoDup (user_ids w) -> NoDup (user_ids (snd (save_user env P w))))
  /\ (forall id, id <> user_id P ->
        (In id (user_ids (snd (save_user env P w))) <-> In id (user_ids w)))
  /\ conversations (db (snd (save_user env P w))) = conversations (db w).
Proof.
  intro Hfault. unfold save_user, write_stmt, rows_with_id, user_ids, set_db.
  rewrite Hfault. cbn [fst snd db users conversations].
  split; [|split; [|split]].
  - rewrite filter_app, filter_filter_none. cbn [filter row_id app].
    rewrite str_eqb_refl. reflexivity.
  - intro Hnd. rewrite map_app, filter_other_ids. cbn [map row_id].
    apply NoDup_app.
    + apply NoDup_filter, Hnd.
    + repeat constructor. intros [].
    + intros k Hk [<-|[]]. apply filter_In in Hk as [_ Hk].
      rewrite str_eqb_refl in Hk. discriminate.
  - intros id Hid. rewrite map_app, filter_other_ids, in_app_iff, filter_In.
    cbn [map row_id In]. split.
    + intros [[H _]|[H|[]]]; [exact H | congruence].
    + intro H. left. split; [exact H|].
      apply negb_true_iff. destruct (str_eqb id (user_id P)) eqn:E; [|reflexivity].
      apply str_eqb_eq in E. contradiction.
  - reflexivity.
Qed.

Lemma find_app_skip (id : str) rows row :
  row_id row <> id ->
  find (fun r => str_eqb (row_id r) id) (rows ++ [row])
  = find (fun r => str_eqb (row_id r) id) rows.
Proof.
  intro Hne. induction rows as [|r rows IH]; cbn [app find].
  - destruct (str_eqb (row_id row) id) eqn:E; [|reflexivity].
    apply str_eqb_eq in E. contradiction.
  - destruct (str_eqb (row_id r) id); [reflexivity | exact IH].
Qed.

Lemma find_filter_other (id id' : str) rows :
  id <> id' ->
  find (fun r => str_eqb (row_id r) id)
    (filter (fun r => negb (str_eqb (row_id r) id')) rows)
  = find (fun r => str_eqb (row_id r) id) rows.
Proof.
  intro Hne. induction rows as [|r rows IH]; cbn [filter find]; [reflexivity|].
  destruct (str_eqb (row_id r) id') eqn:E'; cbn [negb].
  - apply str_eqb_eq in E'.
    destruct (str_eqb (row_id r) id) eqn:E; [|exact IH].
    apply str_eqb_eq in E. congruence.
  - cbn [find]. destruct (str_eqb (row_id r) id); [reflexivity | exact IH].
Qed.

(** X3: whether the write succeeds or not, [save_user] does not change what
    [fetch_user] answers for any other id. *)
Theorem save_user_other_profiles_untouched (env : Env) (P : User) (w : World)
    (id : str) :
  id <> user_id P ->
  fst (fetch_user id (snd (save_user env P w))) = fst (fetch_user id w).
Proof.
  intro Hne. unfold save_user, write_stmt, set_db, fetch_user.
  destruct (write_fault env (writes w)) as [e|]; cbn [snd db users];
    [destruct (find _ (users (db w))) as [row|]; [|reflexivity];
     destruct (row_to_user row); reflexivity|].
  rewrite find_app_skip by (cbn [row_id]; congruence).
  rewrite find_filter_other by exact Hne.
  destruct (find _ (users (db w))) as [row|]; [|reflexivity].
  destruct (row_to_user row); reflexivity.
Qed.

Lemma find_unique_row id row rows :
  NoDup (map row_id rows) -> In row rows -> row_id row = id ->
  find (fun r => str_eqb (row_id r) id) rows = Some row.
Proof.
  intros Hnd Hin Hid. induction rows as [|r rows IH]; [destruct Hin|].
  cbn [map] in Hnd. apply NoDup_cons_iff in Hnd as [Hr Hnd].
  cbn [find]. destruct Hin as [->|Hin].
  - rewrite Hid, str_eqb_refl. reflexivity.
  - destruct (str_eqb (row_id r) id) eqn:E.
    + apply str_eqb_eq in E. exfalso. apply Hr.
      rewrite E, <- Hid. apply in_map, Hin.
    + apply IH; assumption.
Qed.



(** X4: in a table with distinct ids, every profile [list_users] lists is
    the profile [fetch_user] returns for its id. *)
Theorem listed_profile_is_fetched (w : World) (us : list User) (u : User) :
  NoDup (user_ids w) ->
  fst (list_users w) = Ok us ->
  In u us ->
  fetch_user (user_id u) w = (Ok (Some u), w).
Proof.
  intros Hnd Hus Hin.
  destruct (returned_by_row w u) as (r & Hr & Hru).
  { right. exists us. split; assumption. }
  destruct (row_to_user_fields r u Hru) as (Hid & _).
  unfold fetch_user.
  rewrite (find_unique_row (user_id u) r (users (db w)) Hnd Hr (eq_sym Hid)).
  rewrite Hru. reflexivity.
Qed.

Lemma existsb_conv_id id rows :
  existsb (fun r => str_eqb (conv_id r) id) rows = true
  <-> In id (map conv_id rows).
Proof.
  rewrite existsb_exists, in_map_iff. split.
  - intros (r & Hr & E). apply str_eqb_eq in E. exists r. split; assumption.
  - intros (r & E & Hr). exists r. split; [exact Hr|]. apply str_eqb_eq, E.
Qed.



(** X2 at the table of scenario D. *)
Lemma save_user_one_row_per_id_witness :
  length (rows_with_id (user_id ava) (snd (save_user timeout_env ava three_profiles_world))) = 1
  /\ (NoDup (user_ids three_profiles_world) ->
      NoDup (user_ids (snd (save_user timeout_env ava three_profiles_world))))
  /\ (forall id, id <> user_id ava ->
        (In id (user_ids (snd (save_user timeout_env ava three_profiles_world)))
         <-> In id (user_ids three_profiles_world)))
  /\ conversations (db (snd (save_user timeout_env ava three_profiles_world)))
     = conversations (db three_profiles_world).
Proof.
  apply (save_user_one_row_per_id timeout_env ava three_profiles_world).
  reflexivity.
Defined.

(** X3 at the table of scenario D. *)
Lemma save_user_other_profiles_untouched_witness :
  fst (fetch_user (lit "u-2") (snd (save_user timeout_env ava three_profiles_world)))
  = fst (fetch_user (lit "u-2") three_profiles_world).
Proof.
  apply (save_user_other_profiles_untouched timeout_env ava three_profiles_world (lit "u-2")).
  vm_compute. intro H. discriminate H.
Defined.

(** X4 at the table of scenario D. *)
Lemma listed_profile_is_fetched_witness :
  fetch_user (user_id (profile "u-2" "Bea" "2024-03-02T08:00:00")) three_profiles_world
  = (Ok (Some (profile "u-2" "Bea" "2024-03-02T08:00:00")), three_profiles_world).
Proof.
  apply (listed_profile_is_fetched three_profiles_world
           [profile "u-3" "Cy" "2024-03-03T08:00:00.500000";
            profile "u-2" "Bea" "2024-03-02T08:00:00";
            profile "u-1" "Al" "2024-03-01T23:59:59"]).
  - vm_compute. repeat constructor; simpl; intuition discriminate.
  - vm_compute. reflexivity.
  - simpl. right. left. reflexivity.
Defined.


(** ** More on the reply generator *)

(** Of the characters [html.escape] rewrites, only the ampersand is ever
    written. *)
Lemma escape_char_output c x :
  In x (escape_char c) -> needs_escape x = true -> x = c_amp.
Proof.
  unfold escape_char, needs_escape.
  destruct (N.eqb_spec c c_amp) as [->|Hamp].
  { cbn. intros Hin Hx. decompose [or] Hin; try contradiction; subst x; vm_compute in Hx;
    first [reflexivity | discriminate Hx | contradiction]. }
  destruct (N.eqb_spec c c_lt) as [->|Hlt].
  { cbn. intros Hin Hx. decompose [or] Hin; try contradiction; subst x; vm_compute in Hx;
    first [reflexivity | discriminate Hx | contradiction]. }
  destruct (N.eqb_spec c c_gt) as [->|Hgt].
  { cbn. intros Hin Hx. decompose [or] Hin; try contradiction; subst x; vm_compute in Hx;
    first [reflexivity | discriminate Hx | contradiction]. }
  destruct (N.eqb_spec c c_dquote) as [->|Hdq].
  { cbn. intros Hin Hx. decompose [or] Hin; try contradiction; subst x; vm_compute in Hx;
    first [reflexivity | discriminate Hx | contradiction]. }
  destruct (N.eqb_spec c c_squote) as [->|Hsq].
  { cbn. intros Hin Hx. decompose [or] Hin; try contradiction; subst x; vm_compute in Hx;
    first [reflexivity | discriminate Hx | contradiction]. }
  intros [<-|[]].
  apply N.eqb_neq in Hamp, Hlt, Hgt, Hdq, Hsq.
  rewrite Hamp, Hlt, Hgt, Hdq, Hsq. discriminate.
Qed.

Lemma html_escape_output s x :
  In x (html_escape s) -> needs_escape x = true -> x = c_amp.
Proof.
  rewrite html_escape_flat_map. intros Hin Hx.
  apply in_flat_map in Hin as (c & _ & Hc).
  eapply escape_char_output; eassumption.
Qed.

(** X7: the echo never holds a literal double or single quote, whatever
    the prompt and wherever the cut at 1000 falls. *)
Theorem echo_has_no_quotes (prompt : str) :
  ~ In c_dquote (sanitized prompt) /\ ~ In c_squote (sanitized prompt).
Proof.
  split; intro Hin; apply In_firstn in Hin;
    apply html_escape_output in Hin; try reflexivity; discriminate Hin.
Qed.

Lemma escape_char_plain c : needs_escape c = false -> escape_char c = [c].
Proof.
  unfold needs_escape, escape_char. intro H.
  repeat (apply orb_false_elim in H as [H ?]).
  repeat match goal with E : (_ =? _)%N = false |- _ => rewrite E; clear E end.
  reflexivity.
Qed.

Lemma html_escape_plain s : plain_text s = true -> html_escape s = s.
Proof.
  rewrite html_escape_flat_map. unfold plain_text.
  induction s as [|c s IH]; cbn [forallb flat_map]; [reflexivity|].
  intro H. apply andb_prop in H as [Hc Hs]. apply negb_true_iff in Hc.
  rewrite escape_char_plain by exact Hc. rewrite IH by exact Hs. reflexivity.
Qed.

(** X8: a prompt whose trimmed form has none of the five characters
    [html.escape] rewrites and at most 1000 characters is echoed verbatim,
    as its trimmed form. *)
Theorem plain_prompt_echoed_verbatim (prompt : str) :
  plain_text (strip prompt) = true ->
  length (strip prompt) <= 1000 ->
  echo_line prompt = lit "> " ++ strip prompt.
Proof.
  intros Hplain Hlen. unfold echo_line, sanitized.
  rewrite html_escape_plain by exact Hplain.
  rewrite firstn_all2 by exact Hlen. reflexivity.
Qed.

(** X8 at a padded greeting. *)
Lemma plain_prompt_echoed_verbatim_witness :
  echo_line (lit "  hello, world  ") = lit "> " ++ strip (lit "  hello, world  ").
Proof.
  apply (plain_prompt_echoed_verbatim (lit "  hello, world  ")).
  - reflexivity.
  - vm_compute. lia.
Defined.

(** *** White space around the prompt *)

(** [lstrip] drops exactly the leading white space. *)
Lemma lstrip_spec s :
  (lstrip s = [] /\ all_space s = true)
  \/ (exists a c t, s = a ++ c :: t /\ all_space a = true
                    /\ py_isspace c = false /\ lstrip s = c :: t).
Proof.
  unfold all_space. induction s as [|x s IH]; cbn [lstrip forallb].
  - left. split; reflexivity.
  - destruct (py_isspace x) eqn:Hx.
    + destruct IH as [[H1 H2]|(a & c & t & -> & Ha & Hc & Hl)].
      * left. split; assumption.
      * right. exists (x :: a), c, t. cbn [forallb app]. rewrite Hx, Ha.
        repeat split; assumption.
    + right. exists [], x, s. repeat split. exact Hx.
Qed.

Lemma lstrip_all_space s : all_space s = true -> lstrip s = [].
Proof.
  unfold all_space. induction s as [|x s IH]; cbn [lstrip forallb]; [reflexivity|].
  intro H. apply andb_prop in H as [Hx Hs]. rewrite Hx. apply IH, Hs.
Qed.

Lemma lstrip_app_space a s : all_space a = true -> lstrip (a ++ s) = lstrip s.
Proof.
  unfold all_space. induction a as [|x a IH]; cbn [app lstrip forallb]; [reflexivity|].
  intro H. apply andb_prop in H as [Hx Ha]. rewrite Hx. apply IH, Ha.
Qed.

Lemma lstrip_app_nonempty s b c t :
  lstrip s = c :: t -> lstrip (s ++ b) = (c :: t) ++ b.
Proof.
  induction s as [|x s IH]; cbn [lstrip app]; [discriminate|].
  destruct (py_isspace x); [exact IH|].
  intros [= <- <-]. reflexivity.
Qed.

Lemma all_space_rev s : all_space (rev s) = all_space s.
Proof.
  unfold all_space. induction s as [|x s IH]; [reflexivity|].
  cbn [rev forallb]. rewrite forallb_app, IH. cbn [forallb].
  rewrite andb_true_r. apply andb_comm.
Qed.

Lemma rstrip_app_space s b : all_space b = true -> rstrip (s ++ b) = rstrip s.
Proof.
  intro Hb. unfold rstrip. rewrite rev_app_distr.
  rewrite lstrip_app_space by (rewrite all_space_rev; exact Hb). reflexivity.
Qed.

Lemma strip_padding a s b :
  all_space a = true -> all_space b = true -> strip (a ++ s ++ b) = strip s.
Proof.
  intros Ha Hb. unfold strip. rewrite lstrip_app_space by exact Ha.
  destruct (lstrip_spec s) as [[Hl Hs]|(a' & c & t & _ & _ & _ & Hl)].
  - rewrite Hl.
    rewrite (lstrip_all_space (s ++ b)); [reflexivity|].
    unfold all_space in *. rewrite forallb_app, Hs, Hb. reflexivity.
  - rewrite (lstrip_app_nonempty s b c t Hl), Hl.
    apply rstrip_app_space, Hb.
Qed.

Lemma strip_empty_iff s : strip s = [] <-> all_space s = true.
Proof.
  unfold strip. split.
  - intro H. destruct (lstrip_spec s) as [[_ Hs]|(a & c & t & -> & Ha & Hc & Hl)];
      [exact Hs|].
    exfalso. rewrite Hl in H. unfold rstrip in H.
    destruct (lstrip_spec (rev (c :: t))) as [[_ Hs]|(a' & c' & t' & _ & _ & _ & Hl')].
    + rewrite all_space_rev in Hs. unfold all_space in Hs. cbn [forallb] in Hs.
      rewrite Hc in Hs. discriminate.
    + rewrite Hl' in H. apply (f_equal (@rev N)) in H.
      rewrite rev_involutive in H. discriminate H.
  - intro Hs. rewrite (lstrip_all_space s Hs). reflexivity.
Qed.

Section ReplyExtras.
Variable py_repr : json -> str.

(** X9: white space before and after the prompt does not change the
    reply. *)
Theorem reply_ignores_surrounding_space (P : User) (a s b : str) :
  all_space a = true -> all_space b = true ->
  mock_lbm_response py_repr P (a ++ s ++ b) = mock_lbm_response py_repr P s.
Proof.
  intros Ha Hb. unfold mock_lbm_response, reply_lines, echo_line, sanitized.
  rewrite strip_padding by assumption. reflexivity.
Qed.

End ReplyExtras.

(** X9 at a prompt padded with a tab, blanks, a line feed and an
    ideographic space. *)
Lemma reply_ignores_surrounding_space_witness :
  mock_lbm_response repr_unused ava ([9; 32]%N ++ lit "hello" ++ [32; 10; 12288]%N)
  = mock_lbm_response repr_unused ava (lit "hello").
Proof.
  apply (reply_ignores_surrounding_space repr_unused ava [9; 32]%N (lit "hello")
           [32; 10; 12288]%N); reflexivity.
Defined.

Lemma html_escape_empty_iff s : html_escape s = [] <-> s = [].
Proof.
  split; [|intros ->; reflexivity].
  intro H. pose proof (html_escape_length s) as Hl. rewrite H in Hl.
  destruct s; [reflexivity | cbn in Hl; lia].
Qed.

(** X10: the echo line is the bare ["> "] exactly when the prompt is made
    of white space only. *)
Theorem blank_prompt_echoes_nothing (prompt : str) :
  echo_line prompt = lit "> " <-> all_space prompt = true.
Proof.
  unfold echo_line, sanitized. rewrite <- strip_empty_iff. split.
  - intro H. change (lit "> ") with [62%N; 32%N] in H. cbn [app] in H.
    injection H as H. apply html_escape_empty_iff.
    destruct (html_escape (strip prompt)); [reflexivity | discriminate H].
  - intros ->. reflexivity.
Qed.

Section ReplyBound.
Variable py_repr : json -> str.

(** Replace the length of each literal by its value. *)
Ltac count_literals :=
  repeat match goal with
  | |- context [length (lit ?x)] =>
      let n := eval vm_compute in (length (lit x)) in
      change (length (lit x)) with n
  end.

(** The length of a joined text. *)
Lemma length_join sp (l : list str) :
  length (join sp l) = list_sum (map (@length N) l) + length sp * (length l - 1).
Proof.
  induction l as [|p [|q l] IH].
  - cbn. lia.
  - cbn. lia.
  - change (join sp (p :: q :: l)) with (p ++ sp ++ join sp (q :: l)).
    rewrite !length_app, IH. cbn [map length].
    rewrite !Nat.sub_succ, !Nat.sub_0_r, (Nat.mul_succ_r (length sp)).
    unfold list_sum. cbn [fold_right]. lia.
Qed.

(** X11: the reply is never empty, and however long the prompt is, the
    reply has at most 1263 characters beyond the display name, plus the
    printed bio and 51 more when the bio is quoted. *)
Theorem reply_length_bounded (P : User) (s : str) (bio : json) (t : str) :
  py_get (get_meta P) (lit "bio") (JStr []) = Ok bio ->
  mock_lbm_response py_repr P s = Ok t ->
  0 < length t
  /\ length t <= length (display_name P)
                 + (if truthy bio then length (py_str py_repr bio) + 51 else 0)
                 + 1263.
Proof.
  intros Hbio Hmock. unfold mock_lbm_response in Hmock.
  rewrite Hbio in Hmock. cbn [rbind] in Hmock.
  assert (Ht : join [c_newline; c_newline]
                 (reply_lines py_repr (display_name P) bio s) = t)
    by congruence.
  rewrite <- Ht. clear Ht Hmock.
  rewrite (length_join [c_newline; c_newline]).
  unfold reply_lines, echo_line.
  pose proof (sanitized_length s) as Hs.
  unfold list_sum.
  destruct (truthy bio); cbn [app map fold_right length];
    repeat first [rewrite length_app | progress cbn [length]];
    count_literals; split; lia.
Qed.

End ReplyBound.

(** X11 at the reply of scenario A. *)
Lemma reply_length_bounded_witness :
  0 < length ava_hello_reply
  /\ length ava_hello_reply
     <= length (display_name ava)
        + (if truthy (JStr (lit "loves hiking"))
           then length (py_str repr_unused (JStr (lit "loves hiking"))) + 51 else 0)
        + 1263.
Proof.
  apply (reply_length_bounded repr_unused ava (lit "hello")
           (JStr (lit "loves hiking")) ava_hello_reply); reflexivity.
Defined.

(** ** More on the chat turn *)

Section TurnExtras.
Variable py_repr : json -> str.

Ltac proj :=
  cbn [db writes minted ticks ui fst snd users conversations
       msg_id msg_user_id msg_role msg_message msg_metadata msg_ts].

Ltac destruct_existsb :=
  match goal with
  | |- context [existsb ?f ?l] => destruct (existsb f l)
  end.

Ltac run_turn :=
  unfold bind, emit, mint, now, ret, lift, raise, save_message, write_stmt,
    set_db, detect_tech_info;
  cbn [db writes minted ticks ui fst snd users conversations
       msg_id msg_user_id msg_role msg_message msg_metadata msg_ts].

Lemma skipn_app_exact {A : Type} (l r : list A) : skipn (length l) (l ++ r) = r.
Proof. induction l as [|x l IH]; [reflexivity | exact IH]. Qed.

Lemma skipn_exact {A : Type} (l : list A) : skipn (length l) l = [].
Proof. induction l as [|x l IH]; [reflexivity | exact IH]. Qed.

(** X12: a chat turn only ever appends to the conversation log.  Whatever
    the forms hold and however the run ends, the users table is as before,
    the old conversation rows are still there in their order, at most two
    rows follow them, and each new row carries the id of the profile.  With
    the button not pressed or the message empty the run ends normally after
    the three opening elements of the page: nothing is stored, no id is
    minted and the clock is not read. *)
Theorem turn_is_append_only env inp user w :
  users (db (snd (companion_chat_ui py_repr env inp user w))) = users (db w)
  /\ conversations (db (snd (companion_chat_ui py_repr env inp user w)))
     = conversations (db w)
       ++ added_rows w (snd (companion_chat_ui py_repr env inp user w))
  /\ length (added_rows w (snd (companion_chat_ui py_repr env inp user w))) <= 2
  /\ Forall (fun r => conv_user_id r = user_id user)
       (added_rows w (snd (companion_chat_ui py_repr env inp user w)))
  /\ (submit inp && nonempty (prompt_text inp) = false ->
      companion_chat_ui py_repr env inp user w
      = (Ok tt, add_events [EvHeader; EvIntro; EvKeyInfo] w)).
Proof.
  unfold companion_chat_ui, added_rows.
  destruct w as [d wr mi ti u].
  destruct (submit inp && nonempty (prompt_text inp)).
  2:{ unfold bind, emit, ret, add_events. proj. rewrite skipn_exact, app_nil_r.
      repeat split; auto. rewrite <- !app_assoc. reflexivity. }
  unfold bind, emit, lift. proj.
  destruct (py_get (get_meta user) (lit "allow_tech_info") (JBool true))
    as [allow|e].
  2:{ proj. rewrite skipn_exact, app_nil_r. repeat split; auto. discriminate. }
  match goal with |- context [(if truthy allow then _ else _) ?W] =>
    destruct (tech_step allow env inp W) as (tech & evs & ->) end.
  unfold add_events. run_turn.
  destruct (remember_pref inp); run_turn.
  - destruct (write_fault env wr) as [e|]; proj.
    { rewrite skipn_exact, app_nil_r. repeat split; auto. discriminate. }
    destruct_existsb; proj.
    { rewrite skipn_exact, app_nil_r. repeat split; auto. discriminate. }
    match goal with |- context [obtain_reply py_repr env inp user ?W] =>
      destruct (obtain_reply_events py_repr env inp user W) as (r & evs' & ->) end.
    unfold add_events. proj.
    destruct r as [text|e]; proj.
    2:{ rewrite skipn_app_exact. repeat split; auto; try discriminate; repeat constructor. }
    destruct (write_fault env (S wr)) as [e|]; proj.
    { rewrite skipn_app_exact. repeat split; auto; try discriminate; repeat constructor. }
    destruct_existsb; proj.
    { rewrite skipn_app_exact. repeat split; auto; try discriminate; repeat constructor. }
    rewrite <- app_assoc. rewrite skipn_app_exact.
    repeat split; auto; try discriminate; repeat constructor.
  - match goal with |- context [obtain_reply py_repr env inp user ?W] =>
      destruct (obtain_reply_events py_repr env inp user W) as (r & evs' & ->) end.
    unfold add_events. proj.
    destruct r as [text|e]; proj.
    2:{ rewrite skipn_exact, app_nil_r. repeat split; auto. discriminate. }
    destruct (write_fault env wr) as [e|]; proj.
    { rewrite skipn_exact, app_nil_r. repeat split; auto. discriminate. }
    destruct_existsb; proj.
    { rewrite skipn_exact, app_nil_r. repeat split; auto. discriminate. }
    rewrite skipn_app_exact. repeat split; auto; try discriminate; repeat constructor.
Qed.

(** X13: a submitted turn that ends normally shows a reply and has stored
    exactly that text as the assistant message, the last new row.  With the
    save box ticked the row before it is the user message, holding the
    prompt as typed; with the box unticked the assistant message is the
    only new row, so the reply is logged although the prompt is not.  Two
    ids are minted in both cases. *)
Theorem completed_turn_stores_reply env inp user w :
  submit inp && nonempty (prompt_text inp) = true ->
  fst (companion_chat_ui py_repr env inp user w) = Ok tt ->
  exists t,
    turn_output (companion_chat_ui py_repr env inp user w) = Some t
    /\ map role_and_text
         (added_rows w (snd (companion_chat_ui py_repr env inp user w)))
       = (if remember_pref inp then [(role_user, prompt_text inp)] else [])
         ++ [(role_assistant, t)]
    /\ minted (snd (companion_chat_ui py_repr env inp user w)) = 2 + minted w.
Proof.
  intros Hsub. unfold turn_output, companion_chat_ui, added_rows. rewrite Hsub.
  destruct w as [d wr mi ti u].
  unfold bind, emit, lift. proj.
  destruct (py_get (get_meta user) (lit "allow_tech_info") (JBool true))
    as [allow|e]; [|discriminate].
  match goal with |- context [(if truthy allow then _ else _) ?W] =>
    destruct (tech_step allow env inp W) as (tech & evs & ->) end.
  unfold add_events. run_turn.
  destruct (remember_pref inp); run_turn.
  - destruct (write_fault env wr) as [e|]; proj; [discriminate|].
    destruct_existsb; proj; [discriminate|].
    match goal with |- context [obtain_reply py_repr env inp user ?W] =>
      destruct (obtain_reply_events py_repr env inp user W) as (r & evs' & ->) end.
    unfold add_events. proj.
    destruct r as [text|e]; proj; [|discriminate].
    destruct (write_fault env (S wr)) as [e|]; proj; [discriminate|].
    destruct_existsb; proj; [discriminate|].
    intros _. exists text. rewrite shown_reply_last.
    rewrite <- app_assoc, skipn_app_exact. repeat split.
  - match goal with |- context [obtain_reply py_repr env inp user ?W] =>
      destruct (obtain_reply_events py_repr env inp user W) as (r & evs' & ->) end.
    unfold add_events. proj.
    destruct r as [text|e]; proj; [|discriminate].
    destruct (write_fault env wr) as [e|]; proj; [discriminate|].
    destruct_existsb; proj; [discriminate|].
    intros _. exists text. rewrite shown_reply_last.
    rewrite skipn_app_exact. repeat split.
Qed.

(** X14: the text of the key leaves no trace.  Two runs that differ only
    in the non-empty key typed, and to which the language model gives the
    same answer, end with the same outcome, the same tables and the same
    page. *)
Theorem key_value_leaves_no_trace env inp user w k1 k2 :
  nonempty k1 = true ->
  nonempty k2 = true ->
  openai_post env k1 (openai_content user (prompt_text inp))
  = openai_post env k2 (openai_content user (prompt_text inp)) ->
  companion_chat_ui py_repr env (with_key k1 inp) user w
  = companion_chat_ui py_repr env (with_key k2 inp) user w.
Proof.
  intros H1 H2 Hpost.
  unfold companion_chat_ui, obtain_reply, with_key.
  cbn [openai_key prompt_text remember_pref submit browser_ua].
  rewrite H1, H2, Hpost. reflexivity.
Qed.

(** With a mapping for meta the assistant text is always obtained, and the
    step puts no reply on the page. *)
Lemma obtain_reply_ok env inp user d w :
  get_meta user = JObj d ->
  exists t evs,
    obtain_reply py_repr env inp user w = (Ok t, add_events evs w)
    /\ forall x, ~ In (EvReply x) evs.
Proof.
  intros Hmeta. destruct w as [s wr mi ti u].
  unfold obtain_reply, try_except, add_events, mock_lbm_response.
  rewrite Hmeta. cbn [py_get rbind].
  destruct (nonempty (openai_key inp)).
  2:{ eexists _, []. run_turn. rewrite app_nil_r. split; [reflexivity|].
      intros x []. }
  run_turn.
  destruct (openai_post _ _ _) as [e|status body]; proj.
  - eexists _, [_; _]. rewrite <- app_assoc. split; [reflexivity|].
    intros x [H|[H|[]]]; discriminate H.
  - destruct (status =? 200)%Z.
    + destruct body as [resp|]; proj.
      * destruct (response_text resp) as [t|e]; proj.
        -- eexists _, [_]. split; [reflexivity|].
           intros x [H|[]]; discriminate H.
        -- eexists _, [_; _]. rewrite <- app_assoc. split; [reflexivity|].
           intros x [H|[H|[]]]; discriminate H.
      * eexists _, [_; _]. rewrite <- app_assoc. split; [reflexivity|].
        intros x [H|[H|[]]]; discriminate H.
    + proj. eexists _, [_; _]. rewrite <- app_assoc. split; [reflexivity|].
      intros x [H|[H|[]]]; discriminate H.
Qed.

Lemma tech_step_no_reply allow env inp w :
  exists tech evs,
    (if truthy allow then detect_tech_info env inp else ret (JObj [])) w
    = (Ok tech, add_events evs w)
    /\ forall x, ~ In (EvReply x) evs.
Proof.
  destruct w as [d wr mi ti u]. unfold add_events. destruct (truthy allow).
  - run_turn. eexists _, [_]. split; [reflexivity|].
    intros x [H|[]]; discriminate H.
  - run_turn. eexists _, []. rewrite app_nil_r. split; [reflexivity|].
    intros x [].
Qed.

(** X15: with the save box ticked and the user message stored, a write
    refused on the assistant message ends the turn with that exception
    after the reply has been obtained: no reply is put on the page, and the
    user message stays in the log as the only new row. *)
Theorem reply_lost_when_its_save_fails env inp user d w e :
  get_meta user = JObj d ->
  submit inp && nonempty (prompt_text inp) = true ->
  remember_pref inp = true ->
  write_fault env (writes w) = None ->
  id_taken env w = false ->
  write_fault env (S (writes w)) = Some e ->
  fst (companion_chat_ui py_repr env inp user w) = Raise e
  /\ no_new_reply w (snd (companion_chat_ui py_repr env inp user w))
  /\ map role_and_text
       (added_rows w (snd (companion_chat_ui py_repr env inp user w)))
     = [(role_user, prompt_text inp)].
Proof.
  intros Hmeta Hsub Hpref Hfault Hid Hfault2.
  unfold companion_chat_ui, added_rows, no_new_reply, id_taken in *.
  rewrite Hsub, Hmeta, Hpref.
  destruct w as [s wr mi ti u]. cbn [db writes minted ticks ui] in *.
  unfold bind, emit, lift, py_get. proj.
  match goal with |- context [(if truthy ?a then _ else _) ?W] =>
    destruct (tech_step_no_reply a env inp W) as (tech & evs & -> & Hevs) end.
  unfold add_events. run_turn. rewrite Hfault. proj. rewrite Hid. proj.
  match goal with |- context [obtain_reply py_repr env inp user ?W] =>
    destruct (obtain_reply_ok env inp user d W Hmeta) as (t & evs' & -> & Hevs')
  end.
  unfold add_events. proj. rewrite Hfault2. proj.
  rewrite skipn_app_exact. repeat split.
  intros x Hin. rewrite !in_app_iff in Hin.
  destruct Hin as [[[[[Hin|[H|[]]]|[H|[]]]|[H|[]]]|Hin]|Hin];
    try discriminate H; try assumption.
  - elim (Hevs x Hin).
  - elim (Hevs' x Hin).
Qed.

(** An answer of the expected shape is taken as it is, stripped. *)
Lemma obtain_reply_external env inp user w d c rest m s :
  nonempty (openai_key inp) = true ->
  openai_post env (openai_key inp) (openai_content user (prompt_text inp))
  = HttpResponse 200 (Some (JObj d)) ->
  dict_get d (lit "choices") = Some (JArr (JObj c :: rest)) ->
  dict_get c (lit "message") = Some (JObj m) ->
  dict_get m (lit "content") = Some (JStr s) ->
  obtain_reply py_repr env inp user w
  = (Ok (strip s), add_events [EvCallingOpenAI] w).
Proof.
  intros Hkey Hpost Hd Hc Hm. destruct w as [st wr mi ti u].
  unfold obtain_reply, try_except, add_events. rewrite Hkey, Hpost.
  run_turn. cbn [Z.eqb Pos.eqb].
  unfold response_text, py_item. rewrite Hd. cbn [rbind py_first].
  rewrite Hc. cbn [rbind]. rewrite Hm. reflexivity.
Qed.

(** X16: with a key, a status 200 and a body holding a text at
    [choices[0].message.content], a turn that ends normally shows that text
    with the white space around it stripped, stores it as the assistant
    message, and adds no warning to the page. *)
Theorem external_answer_shown_stripped env inp user w d c rest m s :
  submit inp && nonempty (prompt_text inp) = true ->
  nonempty (openai_key inp) = true ->
  openai_post env (openai_key inp) (openai_content user (prompt_text inp))
  = HttpResponse 200 (Some (JObj d)) ->
  dict_get d (lit "choices") = Some (JArr (JObj c :: rest)) ->
  dict_get c (lit "message") = Some (JObj m) ->
  dict_get m (lit "content") = Some (JStr s) ->
  fst (companion_chat_ui py_repr env inp user w) = Ok tt ->
  turn_output (companion_chat_ui py_repr env inp user w) = Some (strip s)
  /\ map role_and_text
       (added_rows w (snd (companion_chat_ui py_repr env inp user w)))
     = (if remember_pref inp then [(role_user, prompt_text inp)] else [])
       ++ [(role_assistant, strip s)]
  /\ forall ev, In ev (ui (snd (companion_chat_ui py_repr env inp user w))) ->
       is_warning ev = true -> In ev (ui w).
Proof.
  intros Hsub Hkey Hpost Hd Hc Hm.
  unfold turn_output, companion_chat_ui, added_rows. rewrite Hsub.
  destruct w as [st wr mi ti u].
  unfold bind, emit, lift. proj.
  destruct (py_get (get_meta user) (lit "allow_tech_info") (JBool true))
    as [allow|e]; [|discriminate].
  assert (Htech : exists tech evs,
    (if truthy allow then detect_tech_info env inp else ret (JObj []))
      (mkWorld st wr mi ti (((u ++ [EvHeader]) ++ [EvIntro]) ++ [EvKeyInfo]))
    = (Ok tech, mkWorld st wr mi ti
         ((((u ++ [EvHeader]) ++ [EvIntro]) ++ [EvKeyInfo]) ++ evs))
    /\ forall ev, In ev evs -> is_warning ev = false).
  { destruct (truthy allow); run_turn.
    - eexists _, [_]. split; [reflexivity|]. intros ev [<-|[]]. reflexivity.
    - eexists _, []. rewrite app_nil_r. split; [reflexivity|]. intros ev []. }
  destruct Htech as (tech & evs & -> & Hevs).
  run_turn.
  destruct (remember_pref inp); run_turn.
  - destruct (write_fault env wr) as [e|]; proj; [discriminate|].
    destruct_existsb; proj; [discriminate|].
    rewrite (obtain_reply_external env inp user _ d c rest m s Hkey Hpost Hd Hc Hm).
    unfold add_events. proj.
    destruct (write_fault env (S wr)) as [e|]; proj; [discriminate|].
    destruct_existsb; proj; [discriminate|].
    intros _. rewrite shown_reply_last.
    rewrite <- app_assoc, skipn_app_exact. repeat split.
    intros ev Hin Hw. rewrite !in_app_iff in Hin. cbn [In] in Hin.
    decompose [or] Hin; subst; try discriminate Hw; try assumption;
      try contradiction.
    rewrite (Hevs ev) in Hw by assumption. discriminate Hw.
  - rewrite (obtain_reply_external env inp user _ d c rest m s Hkey Hpost Hd Hc Hm).
    unfold add_events. proj.
    destruct (write_fault env wr) as [e|]; proj; [discriminate|].
    destruct_existsb; proj; [discriminate|].
    intros _. rewrite shown_reply_last.
    rewrite skipn_app_exact. repeat split.
    intros ev Hin Hw. rewrite !in_app_iff in Hin. cbn [In] in Hin.
    decompose [or] Hin; subst; try discriminate Hw; try assumption;
      try contradiction.
    rewrite (Hevs ev) in Hw by assumption. discriminate Hw.
Qed.

(** X17: a profile whose meta is not a mapping (the [None] that
    [fetch_user] hands out for a stored [null], a list, a text, a number)
    makes every submitted turn end with [AttributeError] at line 234, right
    after the three opening elements of the page: nothing is stored, no id
    is minted, no reply is shown. *)
Theorem non_mapping_meta_aborts_turn env inp user w :
  is_mapping (get_meta user) = false ->
  submit inp && nonempty (prompt_text inp) = true ->
  companion_chat_ui py_repr env inp user w
  = (Raise AttributeError, add_events [EvHeader; EvIntro; EvKeyInfo] w).
Proof.
  intros Hmap Hsub. unfold companion_chat_ui. rewrite Hsub.
  destruct w as [st wr mi ti u]. unfold bind, emit, lift, add_events. proj.
  rewrite <- !app_assoc.
  destruct (get_meta user); try reflexivity. discriminate Hmap.
Qed.

End TurnExtras.

(** X12 at a form submitted with an empty message. *)
Lemma turn_is_append_only_witness :
  companion_chat_ui repr_unused timeout_env empty_message ava fresh_world
  = (Ok tt, add_events [EvHeader; EvIntro; EvKeyInfo] fresh_world).
Proof.
  exact (proj2 (proj2 (proj2 (proj2
           (turn_is_append_only repr_unused timeout_env empty_message ava
              fresh_world)))) eq_refl).
Defined.

(** X13 with the save box unticked. *)
Lemma completed_turn_stores_reply_witness :
  exists t,
    turn_output (companion_chat_ui repr_unused timeout_env hello_unlogged ava
                   fresh_world) = Some t
    /\ map role_and_text
         (added_rows fresh_world
            (snd (companion_chat_ui repr_unused timeout_env hello_unlogged ava
                    fresh_world)))
       = [] ++ [(role_assistant, t)]
    /\ minted (snd (companion_chat_ui repr_unused timeout_env hello_unlogged ava
                      fresh_world)) = 2 + minted fresh_world.
Proof.
  apply (completed_turn_stores_reply repr_unused timeout_env hello_unlogged ava
           fresh_world); vm_compute; reflexivity.
Defined.

(** X14 at two keys. *)
Lemma key_value_leaves_no_trace_witness :
  companion_chat_ui repr_unused answering_env (with_key demo_key (hello [])) ava
    fresh_world
  = companion_chat_ui repr_unused answering_env
      (with_key (lit "sk-other") (hello [])) ava fresh_world.
Proof.
  apply (key_value_leaves_no_trace repr_unused answering_env (hello []) ava
           fresh_world demo_key (lit "sk-other")); reflexivity.
Defined.

(** X15 at a medium that refuses the second write. *)
Lemma reply_lost_when_its_save_fails_witness :
  fst (companion_chat_ui repr_unused (demo_env second_write_fails
         (HttpRaise RequestException)) (hello []) ava fresh_world)
  = Raise OperationalError
  /\ no_new_reply fresh_world
       (snd (companion_chat_ui repr_unused (demo_env second_write_fails
               (HttpRaise RequestException)) (hello []) ava fresh_world))
  /\ map role_and_text
       (added_rows fresh_world
          (snd (companion_chat_ui repr_unused (demo_env second_write_fails
                  (HttpRaise RequestException)) (hello []) ava fresh_world)))
     = [(role_user, lit "hello")].
Proof.
  apply (reply_lost_when_its_save_fails repr_unused
           (demo_env second_write_fails (HttpRaise RequestException))
           (hello []) ava
           [(lit "bio", JStr (lit "loves hiking"))] fresh_world
           OperationalError); reflexivity.
Defined.

(** X16 at the answer [Hello Ava!] with two spaces on either side. *)
Lemma external_answer_shown_stripped_witness :
  turn_output (companion_chat_ui repr_unused answering_env (hello demo_key) ava
                 fresh_world) = Some (lit "Hello Ava!").
Proof.
  apply (external_answer_shown_stripped repr_unused answering_env
           (hello demo_key) ava fresh_world
           [(lit "choices",
             JArr [JObj [(lit "message",
                          JObj [(lit "role", JStr (lit "assistant"));
                                (lit "content", JStr (lit "  Hello Ava!  "))])]])]
           [(lit "message",
             JObj [(lit "role", JStr (lit "assistant"));
                   (lit "content", JStr (lit "  Hello Ava!  "))])]
           []
           [(lit "role", JStr (lit "assistant"));
            (lit "content", JStr (lit "  Hello Ava!  "))]
           (lit "  Hello Ava!  ")); vm_compute; reflexivity.
Defined.

(** X17 at the profile read back from a meta column holding [null]. *)
Lemma non_mapping_meta_aborts_turn_witness :
  fetch_user (lit "u-9") null_meta_world = (Ok (Some nil_user), null_meta_world)
  /\ companion_chat_ui repr_unused timeout_env (hello []) nil_user
       null_meta_world
     = (Raise AttributeError,
        add_events [EvHeader; EvIntro; EvKeyInfo] null_meta_world).
Proof.
  split; [vm_compute; reflexivity|].
  apply (non_mapping_meta_aborts_turn repr_unused timeout_env (hello [])
           nil_user null_meta_world); reflexivity.
Defined.

(** ** Registration *)

Ltac script :=
  unfold sbind, show, set_session, get_session, get_db, in_world, sret, slift,
    experimental_rerun;
  cbn [world session page fst snd db writes minted ticks ui].

Lemma complete_form_fields inp :
  complete_form inp = true ->
  submitted inp = true
  /\ negb (nonempty (reg_name inp)) || negb (nonempty (reg_email inp)) = false.
Proof.
  unfold complete_form. destruct (submitted inp), (nonempty (reg_name inp)),
    (nonempty (reg_email inp)); intros H; try discriminate H; split; reflexivity.
Qed.

(** X18: a registration form sent with a name and an e-mail address, on
    a store that accepts the write, creates the account under a newly
    minted id with the fields as typed (an empty phone number included) and
    the two check boxes as booleans in its meta; it records the id as the
    session's account, shows it once, and [fetch_user] on that id returns
    the very profile [register_flow] returned.  The bio has to be a text of
    Unicode scalar values to come back from the meta column. *)
Theorem registered_account_is_fetched env inp a :
  complete_form inp = true ->
  scalar_text (reg_bio inp) = true ->
  write_fault env (writes (world a)) = None ->
  let u := new_account inp (uuid4 env (minted (world a)))
             (utcnow env (ticks (world a))) in
  fst (register_flow env inp a) = Done (Some u)
  /\ session (snd (register_flow env inp a)) = Some (Some (user_id u))
  /\ fetch_user (user_id u) (world (snd (register_flow env inp a)))
     = (Ok (Some u), world (snd (register_flow env inp a)))
  /\ page (snd (register_flow env inp a))
     = page a ++ [PgRegisterSubheader; PgAccountCreated (user_id u)].
Proof.
  intros Hform Hbio Hfault u.
  destruct (complete_form_fields inp Hform) as [Hsub Hfields].
  unfold register_flow. rewrite Hsub, Hfields.
  destruct a as [[d wr mi ti ev] ss pg]. cbn [world writes minted ticks] in *.
  script. unfold mint, now, save_user, write_stmt. script.
  rewrite Hfault. cbn [set_db db writes minted ticks ui fst snd].
  rewrite !skipn_all. cbn [map]. rewrite !app_nil_r.
  cbn [app fst snd world session page].
  repeat split.
  - unfold fetch_user, set_db. cbn [db users user_id u new_account].
    rewrite find_replaced by reflexivity.
    unfold row_to_user.
    cbn [row_meta row_id row_name row_email row_phone row_created_at
         meta_or_empty user_meta user_name user_email user_phone
         user_created_at].
    rewrite load_meta_dumps; [reflexivity|].
    cbn. rewrite Hbio. reflexivity.
  - rewrite <- app_assoc. reflexivity.
Qed.


(** X19: when the store refuses the write of a complete registration, the
    exception leaves [register_flow]: the session does not name the new
    account, the tables are as before and no success message is shown,
    although an id has been minted. *)
Theorem refused_registration_is_not_logged_in env inp a e :
  complete_form inp = true ->
  write_fault env (writes (world a)) = Some e ->
  fst (register_flow env inp a) = Stopped (StopExn e)
  /\ session (snd (register_flow env inp a)) = session a
  /\ db (world (snd (register_flow env inp a))) = db (world a)
  /\ minted (world (snd (register_flow env inp a))) = S (minted (world a))
  /\ page (snd (register_flow env inp a)) = page a ++ [PgRegisterSubheader].
Proof.
  intros Hform Hfault.
  destruct (complete_form_fields inp Hform) as [Hsub Hfields].
  unfold register_flow. rewrite Hsub, Hfields.
  destruct a as [[d wr mi ti ev] ss pg]. cbn [world writes minted ticks] in *.
  script. unfold mint, now, save_user, write_stmt. script.
  rewrite Hfault. cbn [set_db db writes minted ticks ui fst snd].
  rewrite !skipn_all. cbn [map]. rewrite !app_nil_r.
  cbn [app fst snd world session page db minted].
  repeat split.
Qed.

(** X20: however it ends, [register_flow] leaves the conversation log
    alone and does not change what [fetch_user] answers for any id other
    than the one it would mint.  A form that is not sent, or sent without a
    name or without an e-mail address, changes nothing at all: no id is
    minted, the session and the tables stay, the result is [None], and the
    error message is shown exactly when the form was sent. *)
Theorem registration_keeps_other_accounts env inp a :
  conversations (db (world (snd (register_flow env inp a))))
  = conversations (db (world a))
  /\ (forall id, id <> uuid4 env (minted (world a)) ->
      fst (fetch_user id (world (snd (register_flow env inp a))))
      = fst (fetch_user id (world a)))
  /\ (complete_form inp = false ->
      register_flow env inp a
      = (Done None,
         mkApp (world a) (session a)
           (page a ++ PgRegisterSubheader
                      :: (if submitted inp then [PgRegisterError] else [])))).
Proof.
  unfold register_flow, complete_form.
  destruct a as [[d wr mi ti ev] ss pg]. cbn [world writes minted ticks db].
  destruct (submitted inp); cbn [andb].
  2:{ script. repeat split. }
  destruct (nonempty (reg_name inp)); cbn [negb orb andb].
  2:{ script. rewrite <- app_assoc. repeat split. }
  destruct (nonempty (reg_email inp)); cbn [negb orb andb].
  2:{ script. rewrite <- app_assoc. repeat split. }
  script. unfold mint, now, save_user, write_stmt. script.
  destruct (write_fault env wr) as [e|];
    cbn [set_db db writes minted ticks ui fst snd world users conversations];
    (split; [reflexivity|]); (split; [|discriminate 1]); intros id Hid;
    unfold fetch_user, set_db; cbn [db users user_id writes minted ticks ui].
  - destruct (find _ (users d)) as [row|]; [|reflexivity].
    destruct (row_to_user row); reflexivity.
  - rewrite find_app_skip by (cbn [row_id]; congruence).
    rewrite find_filter_other by assumption.
    destruct (find _ (users d)) as [row|]; [|reflexivity].
    destruct (row_to_user row); reflexivity.
Qed.

(** ** The newest conversations *)

Lemma insert_ts_desc_perm r l : Permutation (r :: l) (insert_ts_desc r l).
Proof.
  induction l as [|y l IH]; simpl; [reflexivity|].
  destruct (str_leb _ _); [reflexivity|].
  rewrite perm_swap. apply perm_skip, IH.
Qed.

Lemma order_by_ts_perm rows : Permutation rows (order_by_ts_desc rows).
Proof.
  induction rows as [|r rows IH]; simpl; [constructor|].
  rewrite <- insert_ts_desc_perm. apply perm_skip, IH.
Qed.

Lemma insert_ts_desc_sorted r l :
  Sorted conv_newer_or_same l -> Sorted conv_newer_or_same (insert_ts_desc r l).
Proof.
  induction l as [|y l IH]; simpl; intro Hs.
  - repeat constructor.
  - destruct (str_leb (conv_ts y) (conv_ts r)) eqn:Hle.
    + constructor; [exact Hs|]. constructor. exact Hle.
    + apply Sorted_inv in Hs as [Hs Hhd].
      constructor; [apply IH, Hs|].
      destruct l as [|z l]; simpl.
      * constructor. apply str_leb_total, Hle.
      * destruct (str_leb (conv_ts z) (conv_ts r)).
        -- constructor. apply str_leb_total, Hle.
        -- constructor. inversion Hhd; assumption.
Qed.

Lemma order_by_ts_sorted rows : Sorted conv_newer_or_same (order_by_ts_desc rows).
Proof.
  induction rows as [|r rows IH]; simpl; [constructor|].
  apply insert_ts_desc_sorted, IH.
Qed.

Lemma conv_newer_trans : Relations_1.Transitive conv_newer_or_same.
Proof.
  intros a b c Hab Hbc. unfold conv_newer_or_same in *.
  eapply str_leb_trans; eassumption.
Qed.

Lemma strongly_sorted_split {A : Type} (R : A -> A -> Prop) (l1 l2 : list A) :
  StronglySorted R (l1 ++ l2) ->
  StronglySorted R l1 /\ forall x y, In x l1 -> In y l2 -> R x y.
Proof.
  induction l1 as [|a l1 IH]; cbn [app]; intro Hs.
  - split; [constructor | intros x y []].
  - apply StronglySorted_inv in Hs as [Hs Ha].
    destruct (IH Hs) as [Hs1 Hcross]. split.
    + constructor; [exact Hs1|].
      rewrite Forall_forall in *. intros x Hx. apply Ha, in_or_app. left; exact Hx.
    + intros x y [<-|Hx] Hy.
      * rewrite Forall_forall in Ha. apply Ha, in_or_app. right; exact Hy.
      * apply Hcross; assumption.
Qed.

(** X21: the query behind "Show recent conversations" returns the newest
    fifty: as many rows as the table has, up to fifty, ordered from the
    newest time stamp down, each of them a row of the table, and every row
    it leaves out is no newer than any row it returns. *)
Theorem recent_conversations_newest_50 (s : Store) :
  length (recent_conversations s) = Nat.min 50 (length (conversations s))
  /\ Sorted conv_newer_or_same (recent_conversations s)
  /\ exists older,
       Permutation (conversations s) (recent_conversations s ++ older)
       /\ forall r o, In r (recent_conversations s) -> In o older ->
                      conv_newer_or_same r o.
Proof.
  unfold recent_conversations.
  pose proof (order_by_ts_perm (conversations s)) as Hperm.
  pose proof (order_by_ts_sorted (conversations s)) as Hsorted.
  apply (Sorted_StronglySorted conv_newer_trans) in Hsorted.
  rewrite <- (firstn_skipn 50 (order_by_ts_desc (conversations s))) in Hsorted.
  apply strongly_sorted_split in Hsorted as [Hfirst Hcross].
  split; [|split].
  - rewrite length_firstn, (Permutation_length Hperm). reflexivity.
  - apply StronglySorted_Sorted, Hfirst.
  - exists (skipn 50 (order_by_ts_desc (conversations s))). split.
    + rewrite firstn_skipn. exact Hperm.
    + exact Hcross.
Qed.

(** ** The admin view *)

Lemma load_meta_error col e : load_meta col = Raise e -> e = JSONDecodeError.
Proof.
  unfold load_meta. destruct col as [[|c t]|]; try discriminate.
  destruct (json_loads (c :: t)); [discriminate|]. congruence.
Qed.

Lemma row_to_user_error r e :
  row_to_user r = Raise e <-> load_meta (row_meta r) = Raise e.
Proof.
  unfold row_to_user. destruct (load_meta (row_meta r)); cbn [rbind];
    split; congruence.
Qed.

(** A comprehension fails exactly when some element does, with the error
    of one of them. *)
Lemma map_result_raise {A B : Type} (f : A -> result B) l :
  (exists e, map_result f l = Raise e) <-> exists x e, In x l /\ f x = Raise e.
Proof.
  induction l as [|x l IH]; cbn [map_result].
  - split; [intros [e H]; discriminate H | intros (x & e & [] & _)].
  - destruct (f x) as [y|e] eqn:Hx; cbn [rbind].
    + destruct (map_result f l) as [ys|e] eqn:Hl; cbn [rbind].
      * split; [intros [e H]; discriminate H|].
        intros (x' & e & [<-|Hin] & Hx'); [congruence|].
        destruct (proj2 IH) as [e' He']; [|discriminate He'].
        exists x', e. split; assumption.
      * split; [|intros _; exists e; reflexivity].
        intros _. destruct (proj1 IH) as (x' & e' & Hin & Hx'); [eauto|].
        exists x', e'. split; [right; exact Hin | exact Hx'].
    + split; [|intros _; exists e; reflexivity].
      intros _. exists x, e. split; [left; reflexivity | exact Hx].
Qed.

Lemma map_result_error l e :
  map_result row_to_user l = Raise e -> e = JSONDecodeError.
Proof.
  induction l as [|x l IH]; cbn [map_result]; [discriminate|].
  destruct (row_to_user x) as [y|e'] eqn:Hx; cbn [rbind].
  - destruct (map_result row_to_user l) as [ys|e'']; cbn [rbind];
      [discriminate|]. intros [= <-]. apply IH. reflexivity.
  - intros [= <-]. apply row_to_user_error in Hx.
    apply load_meta_error in Hx. exact Hx.
Qed.

Lemma for_each_show {A : Type} (f : A -> page_event) (l : list A) a :
  for_each l (fun x => show (f x)) a
  = (Done tt, mkApp (world a) (session a) (page a ++ map f l)).
Proof.
  revert a. induction l as [|x l IH]; intros [w ss pg]; cbn [for_each map].
  - unfold sret. cbn [world session page]. rewrite app_nil_r. reflexivity.
  - unfold sbind at 1. unfold show at 1. cbn [world session page].
    rewrite IH. cbn [world session page]. rewrite <- app_assoc. reflexivity.
Qed.

Section AdminView.
Variable py_upper : str -> str.

Lemma for_each_blocks (rows : list ConvRow) a :
  for_each rows (fun r =>
    sbind (show (PgConvLine (py_upper (conv_role r)) (conv_user_id r) (conv_ts r)))
      (fun _ => sbind (show (PgConvText (conv_message r)))
      (fun _ => sbind (metadata_preview r) (fun _ => show PgRule)))) a
  = (Done tt,
     mkApp (world a) (session a) (page a ++ flat_map (conv_block py_upper) rows)).
Proof.
  revert a. induction rows as [|r rows IH]; intros [w ss pg];
    cbn [for_each flat_map].
  - unfold sret. cbn [world session page]. rewrite app_nil_r. reflexivity.
  - unfold sbind at 1. unfold sbind at 1. unfold show at 1.
    cbn [world session page].
    unfold sbind at 1. unfold show at 1. cbn [world session page].
    unfold sbind at 1. unfold metadata_preview, conv_block.
    destruct (load_meta (conv_metadata r)) as [md|e].
    + unfold show at 1. cbn [world session page].
      unfold show at 1. cbn [world session page].
      rewrite IH. cbn [world session page app].
      rewrite <- !app_assoc. reflexivity.
    + unfold sret at 1. unfold show at 1. cbn [world session page].
      rewrite IH. cbn [world session page app].
      rewrite <- !app_assoc. reflexivity.
Qed.

(** The admin view as a function of what it reads. *)
Lemma admin_panel_run inp a :
  admin_panel py_upper inp a
  = let listing := map_result row_to_user
                     (order_by_created_at_desc (users (db (world a)))) in
    let recent := if show_recent inp
                  then PgRecentHeader
                       :: flat_map (conv_block py_upper)
                            (recent_conversations (db (world a)))
                  else [] in
    if show_users inp then
      match listing with
      | Ok us =>
          (Done tt,
           mkApp (world a) (session a)
             (page a ++ PgSidebarAdmin :: PgUserCount (length us)
                :: map (fun u => PgUserLine (user_name u) (user_email u)
                                   (user_created_at u)) us ++ recent))
      | Raise e =>
          (Stopped (StopExn e),
           mkApp (world a) (session a) (page a ++ [PgSidebarAdmin]))
      end
    else
      (Done tt, mkApp (world a) (session a) (page a ++ PgSidebarAdmin :: recent)).
Proof.
  destruct a as [w ss pg]. unfold admin_panel. cbn zeta.
  unfold sbind at 1. unfold show at 1. cbn [world session page].
  unfold sbind at 1.
  destruct (show_users inp).
  - unfold sbind at 1. unfold in_world, list_users. cbn [world session page].
    rewrite skipn_all. cbn [map]. rewrite app_nil_r.
    destruct (map_result row_to_user _) as [us|e]; [|reflexivity].
    unfold sbind at 1. unfold show at 1. cbn [world session page].
    rewrite for_each_show. cbn [world session page].
    destruct (show_recent inp).
    + unfold sbind at 1. unfold get_db at 1. cbn [world session page].
      unfold sbind at 1. unfold show at 1. cbn [world session page].
      rewrite for_each_blocks. cbn [world session page].
      rewrite <- !app_assoc. reflexivity.
    + unfold sret. rewrite <- !app_assoc. cbn [app]. rewrite app_nil_r.
      reflexivity.
  - unfold sret at 1.
    destruct (show_recent inp).
    + unfold sbind at 1. unfold get_db at 1. cbn [world session page].
      unfold sbind at 1. unfold show at 1. cbn [world session page].
      rewrite for_each_blocks. cbn [world session page].
      rewrite <- !app_assoc. reflexivity.
    + unfold sret. reflexivity.
Qed.

(** X22: the admin view only reads.  It never changes the tables, the
    counters or the session; it ends normally or with [JSONDecodeError],
    and it fails exactly when "Show users" is pressed while some row of the
    users table holds a meta text that does not decode.  Undecodable
    metadata of a conversation never makes it fail. *)
Theorem admin_panel_only_reads inp a :
  world (snd (admin_panel py_upper inp a)) = world a
  /\ session (snd (admin_panel py_upper inp a)) = session a
  /\ (fst (admin_panel py_upper inp a) = Done tt
      \/ fst (admin_panel py_upper inp a) = Stopped (StopExn JSONDecodeError))
  /\ (fst (admin_panel py_upper inp a) = Stopped (StopExn JSONDecodeError)
      <-> show_users inp = true
          /\ exists row, In row (users (db (world a))) /\ bad_meta row).
Proof.
  rewrite admin_panel_run. cbn zeta.
  destruct (show_users inp).
  2:{ cbn [fst snd world session]. repeat split; auto; try discriminate.
      intros [H _]; discriminate H. }
  destruct (map_result row_to_user _) as [us|e] eqn:Hl; cbn [fst snd world session].
  - repeat split; auto; try discriminate.
    intros [_ (row & Hin & Hbad)]. exfalso.
    destruct (proj2 (map_result_raise row_to_user
                       (order_by_created_at_desc (users (db (world a))))))
      as [e He].
    + exists row, JSONDecodeError. split.
      * eapply Permutation_in; [apply order_by_perm | exact Hin].
      * apply row_to_user_error. exact Hbad.
    + rewrite Hl in He. discriminate He.
  - pose proof (map_result_error _ _ Hl) as ->.
    repeat split; auto.
    destruct (proj1 (map_result_raise row_to_user
                       (order_by_created_at_desc (users (db (world a))))))
      as (row & e & Hin & Hrow); [eauto|].
    exists row. split.
    + eapply Permutation_in; [apply Permutation_sym, order_by_perm | exact Hin].
    + apply row_to_user_error in Hrow. unfold bad_meta.
      rewrite Hrow. f_equal. eapply load_meta_error, Hrow.
Qed.

(** X23: with "Show recent conversations" pressed (and "Show users" not),
    the admin view ends normally and shows, under one heading, the newest
    fifty conversations in order, each as its line (role in upper case,
    user id, time stamp), its text and a rule, with the caption between
    text and rule left out exactly for the rows whose metadata does not
    decode. *)
Theorem recent_conversations_listed inp a :
  show_users inp = false ->
  show_recent inp = true ->
  admin_panel py_upper inp a
  = (Done tt,
     mkApp (world a) (session a)
       (page a ++ PgSidebarAdmin :: PgRecentHeader
          :: flat_map (conv_block py_upper)
               (recent_conversations (db (world a))))).
Proof.
  intros Husers Hrecent. rewrite admin_panel_run. cbn zeta.
  rewrite Husers, Hrecent. reflexivity.
Qed.

End AdminView.

(** ** The script as a whole *)

Section MainRuns.
Variable py_repr : json -> str.
Variable py_upper : str -> str.

(** The admin view leaves the state alone and only adds to the page. *)
Lemma admin_panel_frame inp a :
  exists r evs,
    admin_panel py_upper inp a
    = (r, mkApp (world a) (session a) (page a ++ evs)).
Proof.
  rewrite admin_panel_run. cbn zeta.
  destruct (show_users inp); [destruct (map_result row_to_user _)|];
    eexists _, _; reflexivity.
Qed.

(** A chat form that is not sent only draws the head of the chat. *)
Lemma companion_idle env inp user w :
  submit inp && nonempty (prompt_text inp) = false ->
  companion_chat_ui py_repr env inp user w
  = (Ok tt, add_events [EvHeader; EvIntro; EvKeyInfo] w).
Proof.
  intro Hidle. unfold companion_chat_ui. rewrite Hidle.
  destruct w as [d wr mi ti u]. unfold bind, emit, ret, add_events.
  cbn [db writes minted ticks ui]. rewrite <- !app_assoc. reflexivity.
Qed.

Lemma fetch_user_none id w :
  ~ In id (user_ids w) -> fetch_user id w = (Ok None, w).
Proof.
  intro Hid. unfold fetch_user.
  rewrite (proj2 (find_none_iff id (users (db w)))) by exact Hid. reflexivity.
Qed.

(** X24: a session that names an id without a row in the users table is
    reset: the run shows the warning, draws neither the registration form
    nor the chat, says "no profile", leaves the world as it was, and ends
    with the session entry [None], so that the next run offers the
    registration form. *)
Theorem stale_session_is_reset env inp a id :
  session a = Some (Some id) ->
  nonempty id = true ->
  ~ In id (user_ids (world a)) ->
  session (snd (main py_repr py_upper env inp a)) = Some None
  /\ world (snd (main py_repr py_upper env inp a)) = world a
  /\ exists rest,
       new_page a (snd (main py_repr py_upper env inp a))
       = opening ++ [PgUserNotFound; PgTabs; PgCreateOrLoad; PgProfileHeader;
                     PgNoProfile; PgAdminHeader; PgAdminNote] ++ rest.
Proof.
  intros Hsess Hid Hnew. unfold main, new_page, header, privacy_and_consent.
  destruct a as [w ss pg]. cbn [session world page] in *. subst ss.
  script. destruct id as [|c id]; [discriminate Hid|]. cbn [no_user_id].
  script. rewrite fetch_user_none by exact Hnew. script.
  rewrite skipn_all. cbn [map]. rewrite app_nil_r. script.
  match goal with |- context [admin_panel py_upper inp ?A] =>
    destruct (admin_panel_frame inp A) as (r & evs & ->) end.
  cbn [world session page].
  destruct r as [[]|e]; cbn [fst snd world session page];
    (split; [reflexivity|]); (split; [reflexivity|]);
    rewrite <- !app_assoc; rewrite skipn_app_exact; cbn [app opening];
    eexists; reflexivity.
Qed.

Lemma fetch_user_world id w : snd (fetch_user id w) = w.
Proof.
  unfold fetch_user. destruct (find _ _) as [row|]; [|reflexivity].
  destruct (row_to_user row); reflexivity.
Qed.

Lemma fetch_user_found id w u :
  fst (fetch_user id w) = Ok (Some u) -> fetch_user id w = (Ok (Some u), w).
Proof.
  intro H. rewrite (surjective_pairing (fetch_user id w)), H, fetch_user_world.
  reflexivity.
Qed.

(** A meta without the method [get] stops a chat form that is sent. *)
Lemma companion_non_mapping env inp user w :
  is_mapping (get_meta user) = false ->
  submit inp && nonempty (prompt_text inp) = true ->
  companion_chat_ui py_repr env inp user w
  = (Raise AttributeError, add_events [EvHeader; EvIntro; EvKeyInfo] w).
Proof.
  intros Hmap Hsub. unfold companion_chat_ui. rewrite Hsub.
  destruct w as [st wr mi ti u]. unfold bind, emit, lift, add_events.
  cbn [db writes minted ticks ui]. rewrite <- !app_assoc.
  destruct (get_meta user); try reflexivity. discriminate Hmap.
Qed.

Lemma non_mapping_meta_item u :
  is_mapping (get_meta u) = false ->
  exists m, meta_item u = Ok m
            /\ py_get m (lit "bio") (JStr []) = Raise AttributeError.
Proof.
  unfold get_meta, meta_item. destruct (user_meta u) as [m|]; [|discriminate].
  intro H. exists m. split; [reflexivity|].
  destruct m; try reflexivity. discriminate H.
Qed.

(** X25: once the session names an account whose meta is not a mapping
    (a stored [null], list, text or number), every run of the script ends
    with [AttributeError], in the chat when its form is sent and on the bio
    line of the profile tab otherwise.  The admin view is never reached,
    the bio never shown, the tables stay, and the session still names the
    account: the log-out button lies behind the failing line. *)
Theorem null_meta_profile_breaks_every_run env inp a id u :
  session a = Some (Some id) ->
  nonempty id = true ->
  fst (fetch_user id (world a)) = Ok (Some u) ->
  is_mapping (get_meta u) = false ->
  fst (main py_repr py_upper env inp a) = Stopped (StopExn AttributeError)
  /\ session (snd (main py_repr py_upper env inp a)) = session a
  /\ db (world (snd (main py_repr py_upper env inp a))) = db (world a)
  /\ ~ In PgAdminHeader (new_page a (snd (main py_repr py_upper env inp a)))
  /\ forall v,
       ~ In (PgProfileBio v) (new_page a (snd (main py_repr py_upper env inp a))).
Proof.
  intros Hsess Hid Hfetch Hmap. apply fetch_user_found in Hfetch.
  unfold main, new_page, header, privacy_and_consent.
  destruct a as [w ss pg]. cbn [session world page] in *. subst ss.
  script. destruct id as [|c id]; [discriminate Hid|]. cbn [no_user_id].
  script. rewrite Hfetch. script.
  rewrite skipn_all. cbn [map]. rewrite app_nil_r. script.
  destruct (submit (chat_form inp) && nonempty (prompt_text (chat_form inp)))
    eqn:Hsub.
  - rewrite (companion_non_mapping env _ u w Hmap Hsub).
    unfold add_events. cbn [fst snd world session page db ui].
    rewrite skipn_app_exact. cbn [map].
    repeat split.
    + rewrite <- !app_assoc, skipn_app_exact. cbn [app In].
      intros H. decompose [or] H; try discriminate; contradiction.
    + intros v. rewrite <- !app_assoc, skipn_app_exact. cbn [app In].
      intros H. decompose [or] H; try discriminate; contradiction.
  - rewrite (companion_idle env _ u w Hsub).
    unfold add_events. cbn [fst snd world session page db ui].
    rewrite skipn_app_exact. cbn [map].
    destruct (non_mapping_meta_item u Hmap) as (m & -> & ->).
    cbn [fst snd world session page db ui].
    repeat split.
    + rewrite <- !app_assoc, skipn_app_exact. cbn [app In].
      intros H. decompose [or] H; try discriminate; contradiction.
    + intros v. rewrite <- !app_assoc, skipn_app_exact. cbn [app In].
      intros H. decompose [or] H; try discriminate; contradiction.
Qed.

(** X26: for a loaded account with a mapping for meta whose chat form is
    not sent, pressing "Log out" sets the session entry to [None] and
    restarts the script: the run stops on the rerun right after the profile
    tab, with the tables as they were and the admin view not drawn. *)
Theorem log_out_clears_session env inp a id u d :
  session a = Some (Some id) ->
  nonempty id = true ->
  fst (fetch_user id (world a)) = Ok (Some u) ->
  user_meta u = Some (JObj d) ->
  submit (chat_form inp) && nonempty (prompt_text (chat_form inp)) = false ->
  log_out inp = true ->
  fst (main py_repr py_upper env inp a) = Stopped StopRerun
  /\ session (snd (main py_repr py_upper env inp a)) = Some None
  /\ db (world (snd (main py_repr py_upper env inp a))) = db (world a)
  /\ new_page a (snd (main py_repr py_upper env inp a))
     = opening ++ [PgTabs; PgChat EvHeader; PgChat EvIntro; PgChat EvKeyInfo;
                   PgProfileHeader; PgProfileName (user_name u);
                   PgProfileEmail (user_email u); PgProfilePhone (user_phone u);
                   PgProfileBio (dict_get_default d (lit "bio") (JStr []))].
Proof.
  intros Hsess Hid Hfetch Hmeta Hidle Hout. apply fetch_user_found in Hfetch.
  unfold main, new_page, header, privacy_and_consent.
  destruct a as [w ss pg]. cbn [session world page] in *. subst ss.
  script. destruct id as [|c id]; [discriminate Hid|]. cbn [no_user_id].
  script. rewrite Hfetch. script.
  rewrite skipn_all. cbn [map]. rewrite app_nil_r. script.
  rewrite (companion_idle env _ u w Hidle).
  unfold add_events. cbn [fst snd world session page db ui].
  rewrite skipn_app_exact. cbn [map].
  unfold meta_item. rewrite Hmeta. cbn [py_get]. rewrite Hout.
  cbn [fst snd world session page db ui].
  repeat split.
  rewrite <- !app_assoc, skipn_app_exact. reflexivity.
Qed.

(** A run for a loaded account whose chat form is not sent and whose
    log-out button is not pressed. *)
Lemma main_with_account env inp a id u d :
  session a = Some (Some id) ->
  nonempty id = true ->
  fetch_user id (world a) = (Ok (Some u), world a) ->
  user_meta u = Some (JObj d) ->
  submit (chat_form inp) && nonempty (prompt_text (chat_form inp)) = false ->
  log_out inp = false ->
  session (snd (main py_repr py_upper env inp a)) = session a
  /\ db (world (snd (main py_repr py_upper env inp a))) = db (world a)
  /\ exists rest,
       new_page a (snd (main py_repr py_upper env inp a))
       = opening ++ [PgTabs; PgChat EvHeader; PgChat EvIntro; PgChat EvKeyInfo;
                     PgProfileHeader; PgProfileName (user_name u);
                     PgProfileEmail (user_email u);
                     PgProfilePhone (user_phone u);
                     PgProfileBio (dict_get_default d (lit "bio") (JStr []));
                     PgAdminHeader; PgAdminNote] ++ rest.
Proof.
  intros Hsess Hid Hfetch Hmeta Hidle Hout.
  unfold main, new_page, header, privacy_and_consent.
  destruct a as [w ss pg]. cbn [session world page] in *. subst ss.
  script. destruct id as [|c id]; [discriminate Hid|]. cbn [no_user_id].
  script. rewrite Hfetch. script.
  rewrite skipn_all. cbn [map]. rewrite app_nil_r. script.
  rewrite (companion_idle env _ u w Hidle).
  unfold add_events. cbn [fst snd world session page db ui].
  rewrite skipn_app_exact. cbn [map].
  unfold meta_item. rewrite Hmeta. cbn [py_get]. rewrite Hout.
  cbn [fst snd world session page db ui].
  match goal with |- context [admin_panel py_upper inp ?A] =>
    destruct (admin_panel_frame inp A) as (r & evs & ->) end.
  cbn [world session page].
  destruct r as [[]|e]; cbn [fst snd world session page db];
    (split; [reflexivity|]); (split; [reflexivity|]);
    rewrite <- !app_assoc; rewrite skipn_app_exact; cbn [app opening];
    eexists; reflexivity.
Qed.

(** An accepted registration, step by step. *)
Lemma register_flow_success env inp a :
  complete_form inp = true ->
  write_fault env (writes (world a)) = None ->
  let u := new_account inp (uuid4 env (minted (world a)))
             (utcnow env (ticks (world a))) in
  exists w',
    register_flow env inp a
    = (Done (Some u),
       mkApp w' (Some (Some (user_id u)))
         (page a ++ [PgRegisterSubheader; PgAccountCreated (user_id u)]))
    /\ find (fun r => str_eqb (row_id r) (user_id u)) (users (db w'))
       = Some (mkUserRow (user_id u) (user_name u) (user_email u)
                 (user_phone u)
                 (Some (json_dumps (meta_or_empty (user_meta u))))
                 (user_created_at u)).
Proof.
  intros Hform Hfault u.
  destruct (complete_form_fields inp Hform) as [Hsub Hfields].
  unfold register_flow. rewrite Hsub, Hfields.
  destruct a as [[d wr mi ti ev] ss pg]. cbn [world writes minted ticks] in *.
  script. unfold mint, now, save_user, write_stmt. script.
  rewrite Hfault. cbn [set_db db writes minted ticks ui fst snd].
  rewrite !skipn_all. cbn [map]. rewrite !app_nil_r.
  cbn [app fst snd world session page].
  eexists. split.
  - rewrite <- app_assoc. reflexivity.
  - unfold set_db. cbn [db users]. apply find_replaced. reflexivity.
Qed.

Lemma fetch_new_account inp id created_at w :
  scalar_text (reg_bio inp) = true ->
  find (fun r => str_eqb (row_id r) id) (users (db w))
  = Some (mkUserRow id (Some (reg_name inp)) (Some (reg_email inp))
            (Some (reg_phone inp))
            (Some (json_dumps
                     (meta_or_empty (user_meta (new_account inp id created_at)))))
            created_at) ->
  fetch_user id w = (Ok (Some (new_account inp id created_at)), w).
Proof.
  intros Hbio Hfind. unfold fetch_user. rewrite Hfind.
  unfold row_to_user.
  cbn [row_meta row_id row_name row_email row_phone row_created_at
       meta_or_empty user_meta new_account].
  rewrite load_meta_dumps; [reflexivity|].
  cbn. rewrite Hbio. reflexivity.
Qed.

(** X27: after an accepted registration (with a non-empty minted id), the
    next run of the script, with the chat form not sent and "Log out" not
    pressed, finds the account through the session: it draws the chat
    instead of the registration form, shows name, e-mail address, phone
    number and bio as they were typed, and keeps session and tables. *)
Theorem registered_account_loaded_next_run env rinp a env' inp :
  complete_form rinp = true ->
  scalar_text (reg_bio rinp) = true ->
  write_fault env (writes (world a)) = None ->
  nonempty (uuid4 env (minted (world a))) = true ->
  submit (chat_form inp) && nonempty (prompt_text (chat_form inp)) = false ->
  log_out inp = false ->
  let a1 := snd (register_flow env rinp a) in
  session (snd (main py_repr py_upper env' inp a1))
  = Some (Some (uuid4 env (minted (world a))))
  /\ db (world (snd (main py_repr py_upper env' inp a1))) = db (world a1)
  /\ exists rest,
       new_page a1 (snd (main py_repr py_upper env' inp a1))
       = opening ++ [PgTabs; PgChat EvHeader; PgChat EvIntro; PgChat EvKeyInfo;
                     PgProfileHeader; PgProfileName (Some (reg_name rinp));
                     PgProfileEmail (Some (reg_email rinp));
                     PgProfilePhone (Some (reg_phone rinp));
                     PgProfileBio (JStr (reg_bio rinp));
                     PgAdminHeader; PgAdminNote] ++ rest.
Proof.
  intros Hform Hbio Hfault Hid Hidle Hout a1.
  destruct (register_flow_success env rinp a Hform Hfault) as (w' & Hrun & Hfind).
  subst a1. rewrite Hrun. cbn [snd].
  cbn [user_id user_name user_email user_phone user_created_at new_account]
    in Hfind.
  pose proof (fetch_new_account rinp _ _ w' Hbio Hfind) as Hfetch.
  match goal with |- context [main py_repr py_upper env' inp ?A] =>
    destruct (main_with_account env' inp A _ _ _ eq_refl Hid Hfetch eq_refl
                Hidle Hout) as (Hs & Hd & rest & Hp)
  end.
  split; [exact Hs|]. split; [exact Hd|]. exists rest. exact Hp.
Qed.

Lemma register_flow_incomplete env inp a :
  complete_form inp = false ->
  register_flow env inp a
  = (Done None,
     mkApp (world a) (session a)
       (page a ++ PgRegisterSubheader
                  :: (if submitted inp then [PgRegisterError] else []))).
Proof.
  unfold register_flow, complete_form. destruct a as [w ss pg].
  destruct (submitted inp); cbn [andb].
  2:{ intros _. script. reflexivity. }
  destruct (nonempty (reg_name inp)); cbn [negb orb andb].
  2:{ intros _. script. rewrite <- app_assoc. reflexivity. }
  destruct (nonempty (reg_email inp)); cbn [negb orb andb]; [discriminate|].
  intros _. script. rewrite <- app_assoc. reflexivity.
Qed.

(** X28: without an account in the session (entry absent, [None] or
    empty) and without a complete registration form, a run changes nothing
    in the world; it sets an absent session entry to [None], offers the
    registration form (with the error message when the form was sent
    incomplete) and draws neither the chat nor a profile. *)
Theorem visitor_without_account env inp a :
  logged_out a = true ->
  complete_form (register_form inp) = false ->
  world (snd (main py_repr py_upper env inp a)) = world a
  /\ logged_out (snd (main py_repr py_upper env inp a)) = true
  /\ session (snd (main py_repr py_upper env inp a)) <> None
  /\ exists rest,
       new_page a (snd (main py_repr py_upper env inp a))
       = opening
         ++ PgRegisterSubheader
            :: (if submitted (register_form inp) then [PgRegisterError] else [])
         ++ [PgTabs; PgCreateOrLoad; PgProfileHeader; PgNoProfile;
             PgAdminHeader; PgAdminNote] ++ rest.
Proof.
  intros Hout Hform. unfold main, new_page, header, privacy_and_consent.
  destruct a as [w ss pg]. unfold logged_out in *. cbn [session world page] in *.
  script.
  destruct ss as [[[|c id]|]|]; try discriminate Hout;
    script; cbn [no_user_id session]; cbv beta;
    rewrite register_flow_incomplete by exact Hform;
    cbn [world session page]; script;
    match goal with |- context [admin_panel py_upper inp ?A] =>
      destruct (admin_panel_frame inp A) as (r & evs & ->) end;
    cbn [world session page];
    destruct r as [[]|e]; cbn [fst snd world session page no_user_id];
    (split; [reflexivity|]); (split; [reflexivity|]);
    (split; [discriminate|]);
    rewrite <- !app_assoc; rewrite skipn_app_exact; cbn [app opening];
    destruct (submitted (register_form inp)); cbn [app];
    eexists; reflexivity.
Qed.

End MainRuns.

(** ** The examples of the script *)

(** X18 at the registration of Ava. *)
Lemma registered_account_is_fetched_witness :
  fetch_user (lit "msg-0")
    (world (snd (register_flow timeout_env sign_up fresh_app)))
  = (Ok (Some (new_account sign_up (lit "msg-0") (lit "2024-05-01T10:00:00"))),
     world (snd (register_flow timeout_env sign_up fresh_app))).
Proof.
  exact (proj1 (proj2 (proj2
    (registered_account_is_fetched timeout_env sign_up fresh_app
       eq_refl eq_refl eq_refl)))).
Defined.

(** X19 at a medium that refuses the first write. *)
Lemma refused_registration_is_not_logged_in_witness :
  fst (register_flow (demo_env first_write_fails (HttpRaise RequestException))
         sign_up fresh_app) = Stopped (StopExn OperationalError)
  /\ session (snd (register_flow
                     (demo_env first_write_fails (HttpRaise RequestException))
                     sign_up fresh_app)) = None.
Proof.
  pose proof (refused_registration_is_not_logged_in
                (demo_env first_write_fails (HttpRaise RequestException))
                sign_up fresh_app OperationalError eq_refl eq_refl)
    as (H1 & H2 & _).
  split; [exact H1 | exact H2].
Defined.

(** X23 at a log whose first row has undecodable metadata. *)
Lemma recent_conversations_listed_witness :
  new_page log_app
    (snd (admin_panel upper_ascii (buttons sign_up false false true) log_app))
  = [PgSidebarAdmin; PgRecentHeader;
     PgConvLine (lit "ASSISTANT") (lit "u-ava") (lit "2024-05-01T10:00:01");
     PgConvText (lit "hello");
     PgCaption (json_dumps (JObj [(lit "generated_by", JStr mock_lbm)]));
     PgRule;
     PgConvLine (lit "USER") (lit "u-ava") (lit "2024-05-01T10:00:00");
     PgConvText (lit "hi");
     PgRule].
Proof.
  rewrite (recent_conversations_listed upper_ascii
             (buttons sign_up false false true) log_app eq_refl eq_refl).
  vm_compute. reflexivity.
Defined.

(** X24 at a session naming an id a new database does not hold. *)
Lemma stale_session_is_reset_witness :
  session (snd (main repr_unused upper_ascii timeout_env
                  (buttons sign_up false false false)
                  (mkApp fresh_world (Some (Some (lit "u-gone"))) [])))
  = Some None.
Proof.
  apply (stale_session_is_reset repr_unused upper_ascii timeout_env
           (buttons sign_up false false false)
           (mkApp fresh_world (Some (Some (lit "u-gone"))) []) (lit "u-gone"));
    [reflexivity | reflexivity | intros []].
Defined.

(** X25 at the account whose meta column holds [null]. *)
Lemma null_meta_profile_breaks_every_run_witness :
  fst (main repr_unused upper_ascii timeout_env
         (buttons sign_up true false false)
         (mkApp null_meta_world (Some (Some (lit "u-9"))) []))
  = Stopped (StopExn AttributeError).
Proof.
  apply (null_meta_profile_breaks_every_run repr_unused upper_ascii timeout_env
           (buttons sign_up true false false)
           (mkApp null_meta_world (Some (Some (lit "u-9"))) [])
           (lit "u-9") nil_user); vm_compute; reflexivity.
Defined.

(** X26 at an account of scenario D. *)
Lemma log_out_clears_session_witness :
  fst (main repr_unused upper_ascii timeout_env
         (buttons sign_up true false false)
         (mkApp three_profiles_world (Some (Some (lit "u-2"))) []))
  = Stopped StopRerun
  /\ session (snd (main repr_unused upper_ascii timeout_env
                     (buttons sign_up true false false)
                     (mkApp three_profiles_world (Some (Some (lit "u-2"))) [])))
     = Some None.
Proof.
  pose proof (log_out_clears_session repr_unused upper_ascii timeout_env
                (buttons sign_up true false false)
                (mkApp three_profiles_world (Some (Some (lit "u-2"))) [])
                (lit "u-2") (profile "u-2" "Bea" "2024-03-02T08:00:00")
                [(lit "bio", JStr (lit "Bea"))]
                eq_refl eq_refl eq_refl eq_refl eq_refl eq_refl)
    as (H1 & H2 & _).
  split; [exact H1 | exact H2].
Defined.

(** X27 at the registration of Ava and the run that follows. *)
Lemma registered_account_loaded_next_run_witness :
  exists rest,
    new_page (snd (register_flow timeout_env sign_up fresh_app))
      (snd (main repr_unused upper_ascii timeout_env
              (buttons sign_up false false false)
              (snd (register_flow timeout_env sign_up fresh_app))))
    = opening ++ [PgTabs; PgChat EvHeader; PgChat EvIntro; PgChat EvKeyInfo;
                  PgProfileHeader; PgProfileName (Some (lit "Ava"));
                  PgProfileEmail (Some (lit "a@x.com"));
                  PgProfilePhone (Some []);
                  PgProfileBio (JStr (lit "loves hiking"));
                  PgAdminHeader; PgAdminNote] ++ rest.
Proof.
  exact (proj2 (proj2
    (registered_account_loaded_next_run repr_unused upper_ascii timeout_env
       sign_up fresh_app timeout_env (buttons sign_up false false false)
       eq_refl eq_refl eq_refl eq_refl eq_refl eq_refl))).
Defined.

(** X28 at a first visit with the form sent without an e-mail address. *)
Lemma visitor_without_account_witness :
  world (snd (main repr_unused upper_ascii timeout_env
                (buttons sign_up_no_email false false false) fresh_app))
  = fresh_world
  /\ session (snd (main repr_unused upper_ascii timeout_env
                     (buttons sign_up_no_email false false false) fresh_app))
     <> None.
Proof.
  pose proof (visitor_without_account repr_unused upper_ascii timeout_env
                (buttons sign_up_no_email false false false) fresh_app
                eq_refl eq_refl) as (H1 & _ & H3 & _).
  split; [exact H1 | exact H3].
Defined.

(** ** Consent and the address lookup *)

(** X29: [try_get_public_ip] hands out a value other than [None] only as
    the ["ip"] entry of a mapping the lookup service returned with status
    200; a failed request, another status, a body that is not JSON or not
    a mapping, and a mapping without the entry all give [None]. *)
Theorem public_ip_only_from_ok_answer (env : Env) (ip : json) :
  ip <> JNull ->
  (try_get_public_ip env = ip
   <-> exists d, ipify_get env = HttpResponse 200 (Some (JObj d))
                 /\ dict_get d (lit "ip") = Some ip).
Proof.
  intro Hip. unfold try_get_public_ip, py_get, dict_get_default.
  destruct (ipify_get env) as [e|status body].
  { split; [congruence | intros (d & H & _); discriminate H]. }
  destruct (Z.eqb_spec status 200) as [->|Hs].
  2:{ split; [congruence | intros (d & H & _); congruence]. }
  destruct body as [v|].
  2:{ split; [congruence | intros (d & H & _); discriminate H]. }
  destruct v as [| b | z | s | l | d];
    try (split; [congruence | intros (d' & H & _); discriminate H]).
  destruct (dict_get d (lit "ip")) as [x|] eqn:Hd.
  - split.
    + intros <-. exists d. split; [reflexivity | exact Hd].
    + intros (d' & H & Hd'). injection H as <-. congruence.
  - split; [congruence|].
    intros (d' & H & Hd'). injection H as <-. congruence.
Qed.

Section ConsentBox.
Variable py_repr : json -> str.

Ltac proj :=
  cbn [db writes minted ticks ui fst snd users conversations
       msg_id msg_user_id msg_role msg_message msg_metadata msg_ts].

Ltac destruct_existsb :=
  match goal with
  | |- context [existsb ?f ?l] => destruct (existsb f l)
  end.

Ltac run_turn :=
  unfold bind, emit, mint, now, ret, lift, raise, save_message, write_stmt,
    set_db, detect_tech_info;
  cbn [db writes minted ticks ui fst snd users conversations
       msg_id msg_user_id msg_role msg_message msg_metadata msg_ts].

(** The step that obtains the reply never announces a lookup. *)
Lemma obtain_reply_no_lookup env inp user w :
  exists r evs,
    obtain_reply py_repr env inp user w = (r, add_events evs w)
    /\ ~ In EvDetecting evs.
Proof.
  destruct w as [s wr mi ti u]. unfold obtain_reply, try_except, add_events.
  destruct (nonempty (openai_key inp)).
  2:{ eexists _, []. run_turn. rewrite app_nil_r. split; [reflexivity|].
      intros []. }
  run_turn.
  destruct (openai_post _ _ _) as [e|status body]; proj.
  - eexists _, [_; _]. rewrite <- app_assoc. split; [reflexivity|].
    intros [H|[H|[]]]; discriminate H.
  - destruct (status =? 200)%Z.
    + destruct body as [resp|]; proj.
      * destruct (response_text resp) as [t|e]; proj.
        -- eexists _, [_]. split; [reflexivity|].
           intros [H|[]]; discriminate H.
        -- eexists _, [_; _]. rewrite <- app_assoc. split; [reflexivity|].
           intros [H|[H|[]]]; discriminate H.
      * eexists _, [_; _]. rewrite <- app_assoc. split; [reflexivity|].
        intros [H|[H|[]]]; discriminate H.
    + proj. destruct (mock_lbm_response py_repr user (prompt_text inp)); proj.
      * eexists _, [_; _]. rewrite <- app_assoc. split; [reflexivity|].
        intros [H|[H|[]]]; discriminate H.
      * eexists _, [_; _; _]. rewrite <- !app_assoc. split; [reflexivity|].
        intros [H|[H|[H|[]]]]; discriminate H.
Qed.

Lemma new_account_flag rinp id t :
  py_get (get_meta (new_account rinp id t)) (lit "allow_tech_info") (JBool true)
  = Ok (JBool (allow_cookies rinp)).
Proof. reflexivity. Qed.

Ltac lookup_shown :=
  unfold added_events; proj; rewrite <- ?app_assoc; rewrite skipn_app_exact;
  split; [reflexivity | intros _; rewrite ?in_app_iff; cbn [In]; tauto].

Ltac lookup_absent Hevs :=
  unfold added_events; proj; rewrite <- ?app_assoc; rewrite skipn_app_exact;
  split; [|discriminate];
  let H := fresh "Hin" in
  intro H; exfalso;
  rewrite ?in_app_iff in H; cbn [In] in H;
  decompose [or] H; try discriminate; try contradiction;
  try (apply Hevs; assumption).

(** X30: the consent box of the registration form decides about the
    address lookup in the chat.  For a profile as [register_flow] builds
    it, a chat form that is sent announces the lookup ("Detecting technical
    info") exactly when the box was ticked, whatever happens later in the
    turn. *)
Theorem consent_box_governs_lookup env rinp id t inp w :
  submit inp && nonempty (prompt_text inp) = true ->
  In EvDetecting
    (added_events w
       (snd (companion_chat_ui py_repr env inp (new_account rinp id t) w)))
  <-> allow_cookies rinp = true.
Proof.
  intros Hsub. unfold companion_chat_ui. rewrite Hsub.
  destruct w as [d wr mi ti u]. unfold bind at 1 2 3. unfold emit at 1 2 3. proj.
  unfold bind at 1. unfold lift at 1. rewrite new_account_flag.
  cbn [truthy]. destruct (allow_cookies rinp).
  - run_turn. destruct (remember_pref inp); run_turn.
    + destruct (write_fault env wr) as [e|]; proj; [lookup_shown|].
      destruct_existsb; proj; [lookup_shown|].
      match goal with |- context [obtain_reply py_repr env inp ?U ?W] =>
        destruct (obtain_reply_no_lookup env inp U W) as (r & evs & -> & Hevs) end.
      unfold add_events. proj. destruct r as [text|e]; proj; [|lookup_shown].
      destruct (write_fault env (S wr)) as [e|]; proj; [lookup_shown|].
      destruct_existsb; proj; lookup_shown.
    + match goal with |- context [obtain_reply py_repr env inp ?U ?W] =>
        destruct (obtain_reply_no_lookup env inp U W) as (r & evs & -> & Hevs) end.
      unfold add_events. proj. destruct r as [text|e]; proj; [|lookup_shown].
      destruct (write_fault env wr) as [e|]; proj; [lookup_shown|].
      destruct_existsb; proj; lookup_shown.
  - run_turn. destruct (remember_pref inp); run_turn.
    + destruct (write_fault env wr) as [e|]; proj; [lookup_absent I|].
      destruct_existsb; proj; [lookup_absent I|].
      match goal with |- context [obtain_reply py_repr env inp ?U ?W] =>
        destruct (obtain_reply_no_lookup env inp U W) as (r & evs & -> & Hevs) end.
      unfold add_events. proj. destruct r as [text|e]; proj; [|lookup_absent Hevs].
      destruct (write_fault env (S wr)) as [e|]; proj; [lookup_absent Hevs|].
      destruct_existsb; proj; lookup_absent Hevs.
    + match goal with |- context [obtain_reply py_repr env inp ?U ?W] =>
        destruct (obtain_reply_no_lookup env inp U W) as (r & evs & -> & Hevs) end.
      unfold add_events. proj. destruct r as [text|e]; proj; [|lookup_absent Hevs].
      destruct (write_fault env wr) as [e|]; proj; [lookup_absent Hevs|].
      destruct_existsb; proj; lookup_absent Hevs.
Qed.

End ConsentBox.

(** X29 at the lookup service of the examples. *)
Lemma public_ip_only_from_ok_answer_witness :
  try_get_public_ip timeout_env = JStr (lit "203.0.113.7").
Proof.
  apply (proj2 (public_ip_only_from_ok_answer timeout_env
                  (JStr (lit "203.0.113.7")) ltac:(discriminate))).
  eexists. split; reflexivity.
Defined.

(** X30 at the registration of Ava, who withheld consent. *)
Lemma consent_box_governs_lookup_witness :
  ~ In EvDetecting
      (added_events fresh_world
         (snd (companion_chat_ui repr_unused timeout_env (hello [])
                 (new_account sign_up (lit "msg-0") (lit "2024-05-01T10:00:00"))
                 fresh_world))).
Proof.
  intro H.
  pose proof (proj1 (consent_box_governs_lookup repr_unused timeout_env sign_up
                       (lit "msg-0") (lit "2024-05-01T10:00:00") (hello [])
                       fresh_world eq_refl) H) as Hbox.
  discriminate Hbox.
Defined.
